(** * DataSyncCompare: the reconciliation engine of [core_analysis.py]

    A shallow embedding of the six functions of [core_analysis.py] and of
    the part of pandas they rest on (label lookup, positional rename,
    [merge] on ['Primary_Key'], boolean masks, [.loc] assignment), followed
    by the properties of the engine.

    Conventions of the embedding.
    - A scalar is null, a string or an integer.  Reals are left out.  An
      integer stands for its number, whether pandas holds it in an [int64],
      a [float64] or an [object] column; [float64] is exact on the integers
      up to 2^53 in absolute value, and the properties that compare integers
      through a merge take them there ([exact_numbers]).
    - A column has the dtype pandas infers from its values ([dtype_of]).
    - A frame always carries its ['Primary_Key'] column (both callers build
      it before the engine runs); the key of a row is held in a field of its
      own and [columns] lists the labels of the other columns, so
      [df.columns.tolist()] is [columns_tolist].
    - A pandas Series is the list of its values in row order and a boolean
      Series is a list of booleans; the operators on Series work element by
      element.
    - The rows of a merge come in the order pandas documents: that of the
      left keys for an inner and a left merge, sorted on the key for an
      outer merge.
    - A raised exception is a value of [exn]; what the functions print is
      not modelled.
    - The text [astype(str)] gives a scalar depends on the dtype of its
      column, so the functions that render cells take it as [astype_str],
      from the dtype and the scalar; [pandas_str] is the one pandas has on
      the integers that [float64] holds exactly. *)

From Stdlib Require Import String Ascii Bool Arith ZArith Lia Permutation.
From Stdlib Require Import DecimalString List.
Import ListNotations.
Open Scope string_scope.
Open Scope list_scope.

(** ** Scalars and Series *)

Inductive Value : Type :=
| VNull
| VStr (s : string)
| VInt (z : Z).

Definition isnull (v : Value) : bool :=
  match v with VNull => true | _ => false end.

Definition notnull (v : Value) : bool := negb (isnull v).

(** [a == b] on two cells: a null on either side compares unequal, also to
    another null. *)
Definition value_eq (a b : Value) : bool :=
  match a, b with
  | VStr s, VStr t => String.eqb s t
  | VInt x, VInt y => Z.eqb x y
  | _, _ => false
  end.

Definition Series := list Value.
Definition Mask := list bool.

Definition zip_with {A B C : Type} (f : A -> B -> C)
  (a : list A) (b : list B) : list C :=
  map (fun p => f (fst p) (snd p)) (combine a b).

Definition series_eq (a b : Series) : Mask := zip_with value_eq a b.
Definition series_isnull (a : Series) : Mask := map isnull a.
Definition series_notnull (a : Series) : Mask := map notnull a.
Definition mask_and (a b : Mask) : Mask := zip_with andb a b.
Definition mask_or (a b : Mask) : Mask := zip_with orb a b.
Definition mask_not (a : Mask) : Mask := map negb a.

(** [mask.sum()], also the [shape[0]] of a frame indexed by [mask]. *)
Definition mask_sum (m : Mask) : nat := length (filter (fun b : bool => b) m).

(** [xs[mask]]: the entries of [xs] where [mask] holds. *)
Definition boolean_index {A : Type} (xs : list A) (m : Mask) : list A :=
  map fst (filter snd (combine xs m)).

(** The dtype of a column.  pandas infers it from the values: [object] when
    a string is among them, [float64] for integers with a missing value
    among them, [int64] for integers alone.  An inner merge leaves every
    column its dtype; the columns of an outer merge hold every cell of the
    two frames and a missing value where a side is absent, so that their
    dtype is again the one their values give.  The dtype only tells how the
    integers of the column are written, so that the dtype of a column with
    no integer plays no part. *)
Inductive dtype : Type := int64 | float64 | object.

Definition is_str (v : Value) : bool :=
  match v with VStr _ => true | _ => false end.

Definition dtype_of (s : Series) : dtype :=
  if existsb is_str s then object
  else if existsb isnull s then float64
  else int64.

(** [s.fillna('null').astype(str)] on one cell, for a given string form
    [str] of the scalars of the column that are not null. *)
Definition fillna_null_str (str : Value -> string) (v : Value) : string :=
  match v with VNull => "null" | _ => str v end.

(** ** Exceptions *)

Inductive exn : Type :=
| ValueError (msg : string)
| KeyError (label : string)
| AttributeError (name : string)
| UnboundLocalError (name : string).

Definition result (A : Type) : Type := (exn + A)%type.

Definition bind {A B : Type} (x : result A) (f : A -> result B) : result B :=
  match x with inl e => inl e | inr a => f a end.

Notation "x <- e ;; k" := (bind e (fun x => k))
  (at level 61, e at next level, right associativity).

(** ** Frames *)

Record Row : Type := mkRow { Primary_Key : string; cells : list Value }.

Record DataFrame : Type := mkDataFrame { columns : list string; rows : list Row }.

Definition columns_tolist (df : DataFrame) : list string :=
  columns df ++ ["Primary_Key"].

Definition label_in (c : string) (l : list string) : bool :=
  existsb (String.eqb c) l.

(** The opening lines shared by the first four functions. *)
Definition non_key_cols (df : DataFrame) : list string :=
  let all_cols := columns_tolist df in
  if label_in "Primary_Key" all_cols
  then filter (fun c => negb (String.eqb c "Primary_Key")) all_cols
  else all_cols.

(** A Python dict with string keys, in insertion order. *)
Definition dict (V : Type) : Type := list (string * V).

Fixpoint dict_set {V : Type} (d : dict V) (k : string) (v : V) : dict V :=
  match d with
  | [] => [(k, v)]
  | (k', v') :: d' =>
      if String.eqb k' k then (k', v) :: d' else (k', v') :: dict_set d' k v
  end.

Fixpoint dict_get {V : Type} (d : dict V) (k : string) : option V :=
  match d with
  | [] => None
  | (k', v') :: d' => if String.eqb k' k then Some v' else dict_get d' k
  end.

(** [{a: b for a, b in zip(ks, vs)}] *)
Definition dict_of_zip (ks vs : list string) : dict string :=
  fold_left (fun d p => dict_set d (fst p) (snd p)) (combine ks vs) [].

(** [df.rename(columns=rename_map)] *)
Definition rename (df : DataFrame) (rename_map : dict string) : DataFrame :=
  mkDataFrame
    (map (fun c => match dict_get rename_map c with Some c' => c' | None => c end)
         (columns df))
    (rows df).

Definition keys (df : DataFrame) : list string := map Primary_Key (rows df).

(** [df.duplicated(subset='Primary_Key', keep=False)] *)
Definition duplicated (df : DataFrame) : Mask :=
  map (fun r => Nat.ltb 1 (count_occ string_dec (keys df) (Primary_Key r)))
      (rows df).

(** [df[['Primary_Key']]] *)
Definition only_key (df : DataFrame) : DataFrame :=
  mkDataFrame [] (map (fun r => mkRow (Primary_Key r) []) (rows df)).

(** ** merge on ['Primary_Key'] *)

Inductive Indicator : Type := left_only | right_only | both.

Definition Indicator_eqb (a b : Indicator) : bool :=
  match a, b with
  | left_only, left_only | right_only, right_only | both, both => true
  | _, _ => false
  end.

Record MergedRow : Type :=
  mkMergedRow { m_Primary_Key : string; m_cells : list Value; _merge : Indicator }.

Record MergedFrame : Type :=
  mkMergedFrame { m_columns : list string; m_rows : list MergedRow }.

Inductive How : Type := how_inner | how_outer | how_left.

(** A label that both frames have gets the suffix of its side. *)
Definition suffixed (mine other : list string) (suffix : string) : list string :=
  map (fun c => if label_in c other then (c ++ suffix)%string else c) mine.

Definition nulls (n : nat) : list Value := repeat VNull n.

Definition matches_of (k : string) (rs : list Row) : list Row :=
  filter (fun r => String.eqb (Primary_Key r) k) rs.

(** The rows that come from a row of the left frame: one per row of the
    right frame with the same key, or the row alone, filled with nulls. *)
Definition left_rows (keep_unmatched : bool) (l r : DataFrame) : list MergedRow :=
  flat_map
    (fun lr =>
       match matches_of (Primary_Key lr) (rows r) with
       | [] =>
           if keep_unmatched
           then [mkMergedRow (Primary_Key lr)
                             (cells lr ++ nulls (length (columns r))) left_only]
           else []
       | ms =>
           map (fun rr => mkMergedRow (Primary_Key lr) (cells lr ++ cells rr) both) ms
       end)
    (rows l).

(** The rows of the right frame whose key the left frame does not have. *)
Definition right_rows (l r : DataFrame) : list MergedRow :=
  map (fun rr => mkMergedRow (Primary_Key rr)
                             (nulls (length (columns l)) ++ cells rr) right_only)
      (filter (fun rr => negb (label_in (Primary_Key rr) (keys l))) (rows r)).

(** An outer merge sorts its rows on the key; the sort is stable, so the
    rows of one key stay in the order of the left frame. *)
Fixpoint insert_on_key (x : MergedRow) (l : list MergedRow) : list MergedRow :=
  match l with
  | [] => [x]
  | y :: l' =>
      if String.leb (m_Primary_Key x) (m_Primary_Key y)
      then x :: y :: l'
      else y :: insert_on_key x l'
  end.

Fixpoint sort_on_key (l : list MergedRow) : list MergedRow :=
  match l with
  | [] => []
  | x :: l' => insert_on_key x (sort_on_key l')
  end.

(** [l.merge(r, on='Primary_Key', how=how, indicator=True,
    suffixes=(lsuffix, rsuffix))].  A column of integers that receives a
    missing value becomes [float64]: its cells stay the numbers they are as
    long as [float64] holds them exactly, which is where the properties
    that compare the cells of an outer merge with those of the frames take
    them ([exact_numbers]); how the cells are written then is the matter of
    [dtype_of]. *)
Definition merge (l r : DataFrame) (how : How) (lsuffix rsuffix : string)
  : MergedFrame :=
  mkMergedFrame
    (suffixed (columns l) (columns r) lsuffix
       ++ suffixed (columns r) (columns l) rsuffix)
    (match how with
     | how_inner => left_rows false l r
     | how_left => left_rows true l r
     | how_outer => sort_on_key (left_rows true l r ++ right_rows l r)
     end).

Fixpoint index_of (c : string) (l : list string) : option nat :=
  match l with
  | [] => None
  | c' :: l' =>
      if String.eqb c' c then Some 0
      else option_map S (index_of c l')
  end.

(** [merged[label]] when the label is there. *)
Definition get_column (m : MergedFrame) (label : string) : option Series :=
  option_map (fun i => map (fun r => nth i (m_cells r) VNull) (m_rows m))
             (index_of label (m_columns m)).

(** [merged[label]] under a test that the label is there. *)
Definition column (m : MergedFrame) (label : string) : Series :=
  match get_column m label with Some s => s | None => [] end.

Definition column_exn (m : MergedFrame) (label : string) : result Series :=
  match get_column m label with Some s => inr s | None => inl (KeyError label) end.

(** [merged['_merge'] == tag] *)
Definition merge_is (tag : Indicator) (m : MergedFrame) : Mask :=
  map (fun r => Indicator_eqb (_merge r) tag) (m_rows m).

(** [pd.Series(b, index=merged.index)] *)
Definition full (b : bool) (m : MergedFrame) : Mask :=
  repeat b (length (m_rows m)).

(** ** compare_primary_keys_and_rows_by_position *)

Record Metrics : Type := mkMetrics {
  OldDataTable_Record_Count : nat;
  NewDataTable_Record_Count : nat;
  OldDataTable_Extra_Records : nat;
  NewDataTable_Extra_Records : nat;
  OldDataTable_Duplicate_Records : nat;
  NewDataTable_Duplicate_Records : nat;
  Match_Record_Count : nat;
  Mismatch_Record_Count : nat
}.

(** The mask the loop of the metrics function leaves behind. *)
Definition metrics_full_match_mask (merged : MergedFrame)
  (non_key_cols_new : list string) : Mask :=
  fold_left
    (fun full_match_mask c =>
       let col_new := (c ++ "_new")%string in
       let col_old := (c ++ "_old")%string in
       if label_in col_new (m_columns merged) && label_in col_old (m_columns merged)
       then mask_and full_match_mask
                     (series_eq (column merged col_new) (column merged col_old))
       else mask_and full_match_mask (full false merged))
    non_key_cols_new (full true merged).

Definition compare_primary_keys_and_rows_by_position
  (df_new_filtered df_old_filtered : DataFrame) : result Metrics :=
  let non_key_cols_new := non_key_cols df_new_filtered in
  let non_key_cols_old := non_key_cols df_old_filtered in
  if negb (Nat.eqb (length non_key_cols_new) (length non_key_cols_old))
  then inl (ValueError
    "Number of non-key columns differ between NewDataTable and OldDataTable filtered DataFrames.")
  else
    let rename_map := dict_of_zip non_key_cols_old non_key_cols_new in
    let df_old_renamed := rename df_old_filtered rename_map in
    let old_record_count := length (rows df_old_renamed) in
    let new_record_count := length (rows df_new_filtered) in
    let old_duplicates := mask_sum (duplicated df_old_renamed) in
    let new_duplicates := mask_sum (duplicated df_new_filtered) in
    let merged := merge df_new_filtered df_old_renamed how_outer "_new" "_old" in
    let new_extra_records := mask_sum (merge_is left_only merged) in
    let old_extra_records := mask_sum (merge_is right_only merged) in
    let both_mask := merge_is both merged in
    let full_match_mask := metrics_full_match_mask merged non_key_cols_new in
    let match_record_count := mask_sum (mask_and both_mask full_match_mask) in
    let left_only_count := mask_sum (merge_is left_only merged) in
    let right_only_count := mask_sum (merge_is right_only merged) in
    let both_mismatch_count :=
      mask_sum (mask_and both_mask (mask_not full_match_mask)) in
    let mismatch_record_count :=
      left_only_count + right_only_count + both_mismatch_count in
    inr (mkMetrics old_record_count new_record_count
                   old_extra_records new_extra_records
                   old_duplicates new_duplicates
                   match_record_count mismatch_record_count).

(** [merged[mask]] *)
Definition frame_index (m : MergedFrame) (mask : Mask) : MergedFrame :=
  mkMergedFrame (m_columns m) (boolean_index (m_rows m) mask).

(** ** generate_column_summary *)

Record SummaryRow : Type := mkSummaryRow {
  Column_Name : string;
  Matches : nat;
  Mismatches : nat;
  Not_Null_Not_Null : nat;
  Not_Null_Null : nat;
  Null_Not_Null : nat;
  Null_Null : nat
}.

(** One turn of the loop over the columns: the row appended to [summary].
    The warning printed when a label is missing is not modelled. *)
Definition summary_row (merged : MergedFrame) (c : string) : SummaryRow :=
  let col_new := (c ++ "_new")%string in
  let col_old := (c ++ "_old")%string in
  if negb (label_in col_new (m_columns merged))
     || negb (label_in col_old (m_columns merged))
  then mkSummaryRow c 0 0 0 0 0 0
  else
    let matches :=
      mask_or (series_eq (column merged col_new) (column merged col_old))
              (mask_and (series_isnull (column merged col_new))
                        (series_isnull (column merged col_old))) in
    let matches_count := mask_sum matches in
    let mismatches := mask_not matches in
    let mismatches_count := mask_sum mismatches in
    let mismatched_rows := frame_index merged mismatches in
    let not_null_not_null :=
      mask_and (series_notnull (column mismatched_rows col_new))
               (series_notnull (column mismatched_rows col_old)) in
    let not_null_not_null_count := mask_sum not_null_not_null in
    let not_null_null :=
      mask_and (series_notnull (column mismatched_rows col_new))
               (series_isnull (column mismatched_rows col_old)) in
    let not_null_null_count := mask_sum not_null_null in
    let null_not_null :=
      mask_and (series_isnull (column mismatched_rows col_new))
               (series_notnull (column mismatched_rows col_old)) in
    let null_not_null_count := mask_sum null_not_null in
    let null_null :=
      mask_and (series_isnull (column merged col_new))
               (series_isnull (column merged col_old)) in
    let null_null_count := mask_sum null_null in
    mkSummaryRow c matches_count mismatches_count
                 not_null_not_null_count not_null_null_count
                 null_not_null_count null_null_count.

Definition generate_column_summary
  (df_new_filtered df_old_filtered : DataFrame) : result (list SummaryRow) :=
  let non_key_cols_new := non_key_cols df_new_filtered in
  let non_key_cols_old := non_key_cols df_old_filtered in
  if negb (Nat.eqb (length non_key_cols_new) (length non_key_cols_old))
  then inl (ValueError
    "Number of non-key columns differ between NewDataTable and OldDataTable.")
  else
    let rename_map := dict_of_zip non_key_cols_old non_key_cols_new in
    let df_old_renamed := rename df_old_filtered rename_map in
    let merged := merge df_new_filtered df_old_renamed how_outer "_new" "_old" in
    inr (map (summary_row merged) non_key_cols_new).

(** ** get_matching_records *)

(** [s.endswith(suffix)]: some tail of [s] is [suffix]. *)
Fixpoint endswith (s suffix : string) : bool :=
  String.eqb s suffix
  || match s with
     | EmptyString => false
     | String _ s' => endswith s' suffix
     end.

(** [x.replace('_new', '')]: every occurrence goes, left to right. *)
Fixpoint replace_new (x : string) : string :=
  match x with
  | String "_" (String "n" (String "e" (String "w" rest))) => replace_new rest
  | String a rest => String a (replace_new rest)
  | EmptyString => EmptyString
  end.

(** [m[labels]] for a list of labels, the key column kept aside. *)
Fixpoint select_columns (m : MergedFrame) (labels : list string)
  : result (list Series) :=
  match labels with
  | [] => inr []
  | c :: labels' =>
      s <- column_exn m c ;;
      rest <- select_columns m labels' ;;
      inr (s :: rest)
  end.

(** The rows of a frame given by its key column and its other columns. *)
Fixpoint rows_of_columns (ks : list string) (cols : list Series) : list Row :=
  match ks with
  | [] => []
  | k :: ks' =>
      mkRow k (map (hd VNull) cols) :: rows_of_columns ks' (map (@tl Value) cols)
  end.

Definition matching_full_match_mask (merged : MergedFrame)
  (non_key_cols_new : list string) : Mask :=
  fold_left
    (fun full_match_mask c =>
       let col_new := (c ++ "_new")%string in
       let col_old := (c ++ "_old")%string in
       if label_in col_new (m_columns merged) && label_in col_old (m_columns merged)
       then
         let matches :=
           mask_or (series_eq (column merged col_new) (column merged col_old))
                   (mask_and (series_isnull (column merged col_new))
                             (series_isnull (column merged col_old))) in
         mask_and full_match_mask matches
       else mask_and full_match_mask (full false merged))
    non_key_cols_new (full true merged).

Definition get_matching_records
  (df_new_filtered df_old_filtered : DataFrame) : result DataFrame :=
  let non_key_cols_new := non_key_cols df_new_filtered in
  let non_key_cols_old := non_key_cols df_old_filtered in
  if negb (Nat.eqb (length non_key_cols_new) (length non_key_cols_old))
  then inl (ValueError
    "Number of non-key columns differ between NewDataTable and OldDataTable.")
  else
    let rename_map := dict_of_zip non_key_cols_old non_key_cols_new in
    let df_old_renamed := rename df_old_filtered rename_map in
    let merged := merge df_new_filtered df_old_renamed how_inner "_new" "_old" in
    let full_match_mask := matching_full_match_mask merged non_key_cols_new in
    let matched_records := frame_index merged full_match_mask in
    let columns_to_keep :=
      filter (fun col => endswith col "_new" || String.eqb col "Primary_Key")
             (m_columns matched_records) in
    kept <- select_columns matched_records columns_to_keep ;;
    inr (mkDataFrame
           (map (fun x => if endswith x "_new" then replace_new x else x)
                columns_to_keep)
           (rows_of_columns (map m_Primary_Key (m_rows matched_records)) kept)).

(** ** get_detailed_mismatched_records *)

(** [detailed_mismatches] is a copy of [merged] that the function writes
    into: a store of columns by label. *)
Definition Store := dict Series.

(** [merged.copy()] *)
Definition copy (m : MergedFrame) : Store :=
  combine (m_columns m)
          (map (fun i => map (fun r => nth i (m_cells r) VNull) (m_rows m))
               (seq 0 (length (m_columns m)))).

(** The entries of [s] where [mask] holds, those of [old] elsewhere. *)
Definition where_mask (mask : Mask) (s old : Series) : Series :=
  map (fun p : bool * (Value * Value) =>
         if fst p then fst (snd p) else snd (snd p))
      (combine mask (combine s old)).

(** [st.loc[mask, c] = s] on a frame of [n] rows, [s] given on every row of
    the frame and written where [mask] holds; a label the frame does not
    have yet starts as a column of nulls. *)
Definition loc_set (st : Store) (n : nat) (mask : Mask) (c : string) (s : Series)
  : Store :=
  match dict_get st c with
  | Some old => dict_set st c (where_mask mask s old)
  | None => dict_set st c (where_mask mask s (nulls n))
  end.

Definition store_get (st : Store) (c : string) : result Series :=
  match dict_get st c with Some s => inr s | None => inl (KeyError c) end.

Fixpoint select_store (st : Store) (labels : list string) : result (list Series) :=
  match labels with
  | [] => inr []
  | c :: labels' =>
      s <- store_get st c ;;
      rest <- select_store st labels' ;;
      inr (s :: rest)
  end.

Fixpoint fold_result {A B : Type} (f : A -> B -> result A) (l : list B) (a : A)
  : result A :=
  match l with
  | [] => inr a
  | b :: l' => a' <- f a b ;; fold_result f l' a'
  end.

(** The three annotations of a cell, for the string forms [str_old] and
    [str_new] of the old and of the new column. *)
Definition old_new (str_old str_new : Value -> string) (o n : Value) : Value :=
  VStr ("O: " ++ fillna_null_str str_old o
        ++ ", N: " ++ fillna_null_str str_new n)%string.

Definition only_new_cell (str_new : Value -> string) (n : Value) : Value :=
  VStr ("O: null, N: " ++ fillna_null_str str_new n)%string.

Definition only_old_cell (str_old : Value -> string) (o : Value) : Value :=
  VStr ("O: " ++ fillna_null_str str_old o ++ ", N: null")%string.

Section Rendering.

(** The string form pandas gives a scalar that is not null in a column of
    the given dtype. *)
Variable astype_str : dtype -> Value -> string.

(** One turn of the first loop.  When a label is missing the source reads
    [detailed_mismatches[col_new]] and applies a lambda that reads
    [detailed_mismatches[col_old]] and the attribute [name] of the cell:
    that raises on the first cell, and passes only on a frame with no
    row. *)
Definition mismatch_step (merged : MergedFrame) (acc : Store * Mask) (c : string)
  : result (Store * Mask) :=
  let detailed_mismatches := fst acc in
  let mismatch_row_mask := snd acc in
  let n := length (m_rows merged) in
  let col_new := (c ++ "_new")%string in
  let col_old := (c ++ "_old")%string in
  if negb (label_in col_new (m_columns merged))
     || negb (label_in col_old (m_columns merged))
  then
    s <- store_get detailed_mismatches col_new ;;
    match s with
    | [] =>
        inr (dict_set detailed_mismatches c [],
             mask_or mismatch_row_mask (full true merged))
    | _ :: _ =>
        _ <- store_get detailed_mismatches col_old ;;
        inl (AttributeError "name")
    end
  else
    let equal_mask := series_eq (column merged col_new) (column merged col_old) in
    let both_null_mask :=
      mask_and (series_isnull (column merged col_new))
               (series_isnull (column merged col_old)) in
    let mismatch_mask := mask_not (mask_or equal_mask both_null_mask) in
    let mismatch_row_mask := mask_or mismatch_row_mask mismatch_mask in
    let detailed_mismatches :=
      loc_set detailed_mismatches n mismatch_mask c
              (zip_with (old_new (astype_str (dtype_of (column merged col_old)))
                                 (astype_str (dtype_of (column merged col_new))))
                        (column merged col_old) (column merged col_new)) in
    let detailed_mismatches :=
      loc_set detailed_mismatches n (mask_not mismatch_mask) c
              (column merged col_new) in
    inr (detailed_mismatches, mismatch_row_mask).

Definition only_new_step (merged : MergedFrame) (only_new_mask : Mask)
  (detailed_mismatches : Store) (c : string) : result Store :=
  s <- column_exn merged (c ++ "_new")%string ;;
  inr (loc_set detailed_mismatches (length (m_rows merged)) only_new_mask c
               (map (only_new_cell (astype_str (dtype_of s))) s)).

Definition only_old_step (merged : MergedFrame) (only_old_mask : Mask)
  (detailed_mismatches : Store) (c : string) : result Store :=
  s <- column_exn merged (c ++ "_old")%string ;;
  inr (loc_set detailed_mismatches (length (m_rows merged)) only_old_mask c
               (map (only_old_cell (astype_str (dtype_of s))) s)).

Definition get_detailed_mismatched_records
  (df_new_filtered df_old_filtered : DataFrame) : result DataFrame :=
  let non_key_cols_new := non_key_cols df_new_filtered in
  let non_key_cols_old := non_key_cols df_old_filtered in
  if negb (Nat.eqb (length non_key_cols_new) (length non_key_cols_old))
  then inl (ValueError
    "Number of non-key columns differ between NewDataTable and OldDataTable.")
  else
    let rename_map := dict_of_zip non_key_cols_old non_key_cols_new in
    let df_old_renamed := rename df_old_filtered rename_map in
    let merged := merge df_new_filtered df_old_renamed how_outer "_new" "_old" in
    acc <- fold_result (mismatch_step merged) non_key_cols_new
                       (copy merged, full false merged) ;;
    let mismatch_row_mask := snd acc in
    let only_new_mask := merge_is left_only merged in
    detailed_mismatches <-
      fold_result (only_new_step merged only_new_mask) non_key_cols_new (fst acc) ;;
    let only_old_mask := merge_is right_only merged in
    detailed_mismatches <-
      fold_result (only_old_step merged only_old_mask) non_key_cols_new
                  detailed_mismatches ;;
    let keep := mask_or (mask_or mismatch_row_mask only_new_mask) only_old_mask in
    let detailed_mismatches :=
      map (fun p => (fst p, boolean_index (snd p) keep)) detailed_mismatches in
    let columns_to_keep := non_key_cols_new in
    kept <- select_store detailed_mismatches columns_to_keep ;;
    inr (mkDataFrame columns_to_keep
           (rows_of_columns
              (boolean_index (map m_Primary_Key (m_rows merged)) keep) kept)).

(** ** compare_columns_and_generate_sheets *)

(** The values of the non-key column of position [i], in row order. *)
Definition frame_column (df : DataFrame) (i : nat) : Series :=
  map (fun r => nth i (cells r) VNull) (rows df).

(** [df[['Primary_Key', column]]] *)
Definition key_and_column (df : DataFrame) (column : string) : result DataFrame :=
  match index_of column (columns df) with
  | Some i =>
      inr (mkDataFrame [column]
             (map (fun r => mkRow (Primary_Key r) [nth i (cells r) VNull]) (rows df)))
  | None => inl (KeyError column)
  end.

(** The inner merge leaves the column of each side the dtype it has in its
    frame, also when the rows that made it [float64] are not in the
    merge. *)
Definition comparison_sheet (df_new_filtered df_old_filtered_renamed : DataFrame)
  (column : string) : result DataFrame :=
  expected_side <- key_and_column df_old_filtered_renamed column ;;
  actual_side <- key_and_column df_new_filtered column ;;
  let merged_df := merge expected_side actual_side how_inner "_Expected" "_Actual" in
  expected <- column_exn merged_df (column ++ "_Expected")%string ;;
  actual <- column_exn merged_df (column ++ "_Actual")%string ;;
  let expected :=
    map (fillna_null_str (astype_str (dtype_of (frame_column expected_side 0))))
        expected in
  let actual :=
    map (fillna_null_str (astype_str (dtype_of (frame_column actual_side 0))))
        actual in
  let comparison :=
    zip_with (fun e a => ("E: " ++ e ++ ", A: " ++ a)%string) expected actual in
  inr (mkDataFrame
         [(column ++ "_Expected")%string; (column ++ "_Actual")%string;
          (column ++ "_Comparison")%string]
         (rows_of_columns (map m_Primary_Key (m_rows merged_df))
            [map VStr expected; map VStr actual; map VStr comparison])).

(** On unequal counts the function prints an error and returns the dict it
    has, which is empty. *)
Definition compare_columns_and_generate_sheets
  (df_new_filtered df_old_filtered : DataFrame) : result (dict DataFrame) :=
  let comparison_sheets : dict DataFrame := [] in
  let new_columns :=
    filter (fun col => negb (String.eqb col "Primary_Key"))
           (columns_tolist df_new_filtered) in
  let old_columns :=
    filter (fun col => negb (String.eqb col "Primary_Key"))
           (columns_tolist df_old_filtered) in
  if negb (Nat.eqb (length new_columns) (length old_columns))
  then inr comparison_sheets
  else
    let rename_mapping := dict_of_zip old_columns new_columns in
    let df_old_filtered_renamed := rename df_old_filtered rename_mapping in
    let columns_to_compare := new_columns in
    fold_result
      (fun comparison_sheets column =>
         if negb (label_in column (columns_tolist df_old_filtered_renamed))
         then inr comparison_sheets
         else
           comparison_df <-
             comparison_sheet df_new_filtered df_old_filtered_renamed column ;;
           inr (dict_set comparison_sheets column comparison_df))
      columns_to_compare comparison_sheets.

End Rendering.

(** ** get_extra_and_duplicate_records *)

Record ExtraAndDuplicate : Type := mkExtraAndDuplicate {
  Extra_Records : DataFrame;
  Duplicate_Records : DataFrame
}.

(** [m.drop(columns=['_merge'])] *)
Definition drop_merge (m : MergedFrame) : DataFrame :=
  mkDataFrame (m_columns m)
              (map (fun r => mkRow (m_Primary_Key r) (m_cells r)) (m_rows m)).

(** [df[mask]] *)
Definition df_index (df : DataFrame) (mask : Mask) : DataFrame :=
  mkDataFrame (columns df) (boolean_index (rows df) mask).

Definition get_extra_and_duplicate_records
  (df_new_filtered df_old_filtered : DataFrame) (table : string)
  : result ExtraAndDuplicate :=
  if negb (label_in table ["Old"; "New"])
  then inl (ValueError "Parameter 'table' must be either 'Old' or 'New'.")
  else if String.eqb table "Old" then
    let extra_records :=
      merge df_old_filtered (only_key df_new_filtered) how_left "_x" "_y" in
    let extra_records :=
      drop_merge (frame_index extra_records (merge_is left_only extra_records)) in
    let duplicate_records := df_index df_old_filtered (duplicated df_old_filtered) in
    inr (mkExtraAndDuplicate extra_records duplicate_records)
  else if String.eqb table "New" then
    let extra_records :=
      merge df_new_filtered (only_key df_old_filtered) how_left "_x" "_y" in
    let extra_records :=
      drop_merge (frame_index extra_records (merge_is left_only extra_records)) in
    let duplicate_records := df_index df_new_filtered (duplicated df_new_filtered) in
    inr (mkExtraAndDuplicate extra_records duplicate_records)
  else inl (UnboundLocalError "extra_records").

(** ** analyze_main.py: the names of the comparison sheets

    A string is the list of its characters; a character is a byte here. *)

Definition invalid_sheet_characters : list ascii :=
  ["\"; "/"; "*"; "?"; ":"; "["; "]"]%char.

Definition char_in (c : ascii) (l : list ascii) : bool :=
  existsb (Ascii.eqb c) l.

(** [''.join([f(c) for c in s])] *)
Fixpoint map_chars (f : ascii -> ascii) (s : string) : string :=
  match s with
  | EmptyString => EmptyString
  | String c s' => String (f c) (map_chars f s')
  end.

(** The two statements of the loop that give a sheet its name. *)
Definition safe_sheet_name (sheet_name : string) : string :=
  let safe_sheet_name :=
    map_chars (fun c => if negb (char_in c invalid_sheet_characters)
                        then c else "_"%char)
              sheet_name in
  if Nat.ltb 31 (String.length safe_sheet_name)
  then substring 0 31 safe_sheet_name
  else safe_sheet_name.

(** The loop over [comparison_sheets.items()]: each sheet is stored under
    its safe name in the dict the writer gets. *)
Definition integrate_comparison_sheets {V : Type}
  (dataframes_to_save_summary comparison_sheets : dict V) : dict V :=
  fold_left (fun d p => dict_set d (safe_sheet_name (fst p)) (snd p))
            comparison_sheets dataframes_to_save_summary.

(** The dict of the ten fixed sheets. *)
Definition dataframes_to_save_summary {V : Type}
  (df_old_filtered df_new_filtered metrics_df column_summary matching_records
   mismatched_records old_extra new_extra old_duplicates new_duplicates : V)
  : dict V :=
  [("OldDataTable", df_old_filtered);
   ("NewDataTable", df_new_filtered);
   ("Summary", metrics_df);
   ("Column_Summary", column_summary);
   ("Matching_Records", matching_records);
   ("Mismatched_Records", mismatched_records);
   ("Old_Table_Extra_Records", old_extra);
   ("New_Table_Extra_Records", new_extra);
   ("Old_Table_Duplicate_Records", old_duplicates);
   ("New_Table_Duplicate_Records", new_duplicates)].

(** ** my_table_fetcher.py: the composite key *)

(** [build_pk(row, pk_cols)], for the text [py_str] that [str] gives a
    cell; the caller has checked that the row has every column of
    [pk_cols]. *)
Definition build_pk (py_str : Value -> string) (row : string -> Value)
  (pk_cols : list string) : string :=
  String.concat "_" (map (fun col => py_str (row col)) pk_cols).

(** ** helpers.py: the metadata of the columns *)

(** An entry of the list [process_columns] returns. *)
Record ColumnInfo : Type := mkColumnInfo {
  column_name : string;
  data_type : string;
  key_column : bool;
  match_column : bool;
  match_type : string;
  function : string
}.

Definition get_key_mappings (columns_info : list ColumnInfo) : list string :=
  map column_name (filter key_column columns_info).

Definition get_match_columns (columns_info : list ColumnInfo) : list string :=
  map column_name (filter match_column columns_info).

Definition get_key_match_columns (new_columns_info old_columns_info : list ColumnInfo)
  : list string * list string :=
  let key_match_new :=
    map column_name
        (filter (fun col => key_column col || match_column col) new_columns_info) in
  let key_match_old :=
    map column_name
        (filter (fun col => key_column col || match_column col) old_columns_info) in
  (key_match_new, key_match_old).

(** [sys.exit(code)] *)
Inductive SystemExit : Type := Exit (code : nat).

(** What the function prints is not modelled. *)
Definition create_key_mappings (new_columns_info old_columns_info : list ColumnInfo)
  : SystemExit + dict string :=
  let new_keys := map column_name (filter key_column new_columns_info) in
  let old_keys := map column_name (filter key_column old_columns_info) in
  if negb (Nat.eqb (length new_keys) (length old_keys))
  then inl (Exit 1)
  else
    let key_mapping := dict_of_zip new_keys old_keys in
    inr key_mapping.

(** ** The vocabulary of the specification *)

(** Labels are distinct and every row has one cell per label. *)
Definition well_formed (df : DataFrame) : Prop :=
  NoDup (columns_tolist df)
  /\ Forall (fun r => length (cells r) = length (columns df)) (rows df).

(** The cell rule: the two values are equal, or both are null. *)
Definition null_aware_eq (a b : Value) : bool :=
  value_eq a b || (isnull a && isnull b).

(** [f] holds of every pair of cells at the same position. *)
Definition all_cells (f : Value -> Value -> bool) (news olds : list Value) : bool :=
  forallb (fun p => f (fst p) (snd p)) (combine news olds).

(** The Joined Records of two frames with as many non-key columns each:
    the rows of their outer merge, the new side's cells first. *)
Definition joined_records (new old : DataFrame) : list MergedRow :=
  m_rows (merge new old how_outer "_new" "_old").

Definition new_values (n : nat) (r : MergedRow) : list Value := firstn n (m_cells r).
Definition old_values (n : nat) (r : MergedRow) : list Value := skipn n (m_cells r).

Definition is_tag (tag : Indicator) (r : MergedRow) : bool :=
  Indicator_eqb (_merge r) tag.

(** A full match under the null-aware rule. *)
Definition full_match (n : nat) (r : MergedRow) : bool :=
  all_cells null_aware_eq (new_values n r) (old_values n r).

(** The rule the metrics function applies: plain [==] on every cell. *)
Definition metrics_match (n : nat) (r : MergedRow) : bool :=
  all_cells value_eq (new_values n r) (old_values n r).

Definition count {A : Type} (f : A -> bool) (l : list A) : nat :=
  length (filter f l).

(** The position of a label among the non-key labels. *)
Definition position (cs : list string) (c : string) : nat :=
  match index_of c cs with Some i => i | None => 0 end.

(** The labels of the merge of two frames that carry the same labels. *)
Definition merged_labels (cs : list string) : list string :=
  map (fun c => (c ++ "_new")%string) cs ++ map (fun c => (c ++ "_old")%string) cs.

(** The inner join on the key: every pair of a new row and an old row with
    the same key, in the order of the new frame. *)
Definition inner_join (new old : DataFrame) : list (Row * Row) :=
  flat_map
    (fun nr =>
       map (fun orow => (nr, orow))
           (filter (fun orow => String.eqb (Primary_Key orow) (Primary_Key nr))
                   (rows old)))
    (rows new).

(** Every non-key column of the pair matches under the null-aware rule. *)
Definition rows_match (p : Row * Row) : bool :=
  all_cells null_aware_eq (cells (fst p)) (cells (snd p)).

(** The two cells of a Joined Record in the non-key column of position [i]. *)
Definition new_cell (n i : nat) (r : MergedRow) : Value :=
  nth i (new_values n r) VNull.
Definition old_cell (n i : nat) (r : MergedRow) : Value :=
  nth i (old_values n r) VNull.

Definition cell_matches (n i : nat) (r : MergedRow) : bool :=
  null_aware_eq (new_cell n i r) (old_cell n i r).

(** The row of the Column Summary for the column of position [i] and label
    [c], counted over the Joined Records [J]. *)
Definition summary_of (n : nat) (J : list MergedRow) (i : nat) (c : string)
  : SummaryRow :=
  let mismatched := filter (fun r => negb (cell_matches n i r)) J in
  mkSummaryRow c
    (count (cell_matches n i) J)
    (count (fun r => negb (cell_matches n i r)) J)
    (count (fun r => notnull (new_cell n i r) && notnull (old_cell n i r)) mismatched)
    (count (fun r => notnull (new_cell n i r) && isnull (old_cell n i r)) mismatched)
    (count (fun r => isnull (new_cell n i r) && notnull (old_cell n i r)) mismatched)
    (count (fun r => isnull (new_cell n i r) && isnull (old_cell n i r)) J).

(** The record is on one side only and its cell on that side, in the column
    of position [i], is null. *)
Definition one_sided_null (n i : nat) (r : MergedRow) : bool :=
  match _merge r with
  | left_only => isnull (new_cell n i r)
  | right_only => isnull (old_cell n i r)
  | both => false
  end.

(** The rows of [side] whose key no row of [other] has. *)
Definition extra_rows (side other : DataFrame) : list Row :=
  filter (fun r => negb (label_in (Primary_Key r) (keys other))) (rows side).

(** The rows of [side] whose key [side] has more than once. *)
Definition duplicate_rows (side : DataFrame) : list Row :=
  filter (fun r => Nat.ltb 1 (count_occ string_dec (keys side) (Primary_Key r)))
         (rows side).

(** A Joined Record is a full match when it is on both sides and all its
    cells match under the null-aware rule. *)
Definition is_full_match (n : nat) (r : MergedRow) : bool :=
  is_tag both r && full_match n r.

(** The cell of the Detailed-Mismatch view for the cells [nv] and [ov] of a
    Joined Record in one column: on a record of both sides a cell that
    matches keeps the new value and one that differs is annotated; on a
    one-sided record the cell is annotated whatever it holds, the absent
    side written null. *)
Definition written_cell (str_new str_old : Value -> string) (tag : Indicator)
  (nv ov : Value) : Value :=
  match tag with
  | right_only => only_old_cell str_old ov
  | left_only => only_new_cell str_new nv
  | both => if null_aware_eq nv ov then nv else old_new str_old str_new ov nv
  end.

(** The dtypes of the new and of the old side of the column of position
    [i], over the Joined Records [J]. *)
Definition new_dtype (n : nat) (J : list MergedRow) (i : nat) : dtype :=
  dtype_of (map (new_cell n i) J).
Definition old_dtype (n : nat) (J : list MergedRow) (i : nat) : dtype :=
  dtype_of (map (old_cell n i) J).

(** The cells of the Detailed-Mismatch row of the record [r] among the
    Joined Records [J], each side of a column in the string form of its
    dtype. *)
Definition detail_cells (astype_str : dtype -> Value -> string) (n : nat)
  (J : list MergedRow) (r : MergedRow) : list Value :=
  map (fun i => written_cell (astype_str (new_dtype n J i))
                             (astype_str (old_dtype n J i))
                             (_merge r) (new_cell n i r) (old_cell n i r))
      (seq 0 n).

Definition detail_row (astype_str : dtype -> Value -> string) (n : nat)
  (J : list MergedRow) (r : MergedRow) : Row :=
  mkRow (m_Primary_Key r) (detail_cells astype_str n J r).

(** The two cells of a merged row under the labels of the column [c]. *)
Definition label_new (cs : list string) (c : string) (r : MergedRow) : Value :=
  nth (position cs c) (m_cells r) VNull.
Definition label_old (cs : list string) (c : string) (r : MergedRow) : Value :=
  nth (length cs + position cs c) (m_cells r) VNull.

(** ** Sample frames *)

(** Two frames of one column under different labels. *)
Definition sample_new : DataFrame :=
  mkDataFrame ["x"] [mkRow "A" [VInt 1]; mkRow "C" [VInt 3]].
Definition sample_old : DataFrame :=
  mkDataFrame ["x_old_name"] [mkRow "A" [VInt 1]; mkRow "B" [VInt 2]].

(** A key that the old frame has twice. *)
Definition twice_new : DataFrame := mkDataFrame ["y"] [mkRow "A" [VInt 5]].
Definition twice_old : DataFrame :=
  mkDataFrame ["y"] [mkRow "A" [VInt 5]; mkRow "A" [VInt 6]].

(** One key on both sides, the only cell null on both. *)
Definition null_new : DataFrame := mkDataFrame ["x"] [mkRow "A" [VNull]].
Definition null_old : DataFrame := mkDataFrame ["x"] [mkRow "A" [VNull]].

(** Three non-key columns against four. *)
Definition three_columns : DataFrame :=
  mkDataFrame ["a"; "b"; "c"] [mkRow "A" [VInt 1; VInt 2; VInt 3]].
Definition four_columns : DataFrame :=
  mkDataFrame ["a"; "b"; "c"; "d"] [mkRow "A" [VInt 1; VInt 2; VInt 3; VInt 4]].

(** A key that only the new frame has, its cell null. *)
Definition lone_new : DataFrame :=
  mkDataFrame ["x"] [mkRow "A" [VNull]; mkRow "B" [VInt 2]].
Definition lone_old : DataFrame := mkDataFrame ["x"] [mkRow "B" [VInt 2]].

(** Two columns; key A matches with a null on both sides, key D differs in
    its first cell, key C is new and key B is old. *)
Definition mixed_new : DataFrame :=
  mkDataFrame ["x"; "y"]
    [mkRow "A" [VInt 1; VNull]; mkRow "D" [VNull; VStr "d"];
     mkRow "C" [VInt 3; VNull]].
Definition mixed_old : DataFrame :=
  mkDataFrame ["x0"; "y0"]
    [mkRow "A" [VInt 1; VNull]; mkRow "D" [VInt 3; VStr "d"];
     mkRow "B" [VInt 2; VStr "b"]].

(** Python's [str] of a string or an integer, for the samples. *)
Definition sample_str (v : Value) : string :=
  match v with
  | VNull => "nan"
  | VStr s => s
  | VInt z => NilZero.string_of_int (Z.to_int z)
  end.

(** [astype(str)] as pandas has it on the integers that [float64] holds
    exactly: Python's [str] of the scalar, which is a real in a [float64]
    column. *)
Definition pandas_str (d : dtype) (v : Value) : string :=
  match d, v with
  | float64, VInt _ => (sample_str v ++ ".0")%string
  | _, _ => sample_str v
  end.

(** ** More vocabulary *)

(** An integer that [float64] holds exactly. *)
Definition float64_exact (v : Value) : bool :=
  match v with
  | VInt z => (Z.abs z <=? 2 ^ 53)%Z
  | _ => true
  end.

(** Every integer of the frame is one that [float64] holds exactly, so that
    the integer columns pandas turns into [float64], because they have or
    receive a missing value, compare as the integers do. *)
Definition exact_numbers (df : DataFrame) : Prop :=
  Forall (fun r => forallb float64_exact (cells r) = true) (rows df).

(** The sheet of the column [c]: for every pair of an old and a new row with
    one key, the key, the old cell and the new cell of the column as text,
    each in the string form of the dtype its column has in its frame, and
    the two side by side. *)
Definition sheet_of (astype_str : dtype -> Value -> string) (new old : DataFrame)
  (c : string) : DataFrame :=
  let i := position (columns new) c in
  let str_old := astype_str (dtype_of (frame_column old i)) in
  let str_new := astype_str (dtype_of (frame_column new i)) in
  mkDataFrame
    [(c ++ "_Expected")%string; (c ++ "_Actual")%string;
     (c ++ "_Comparison")%string]
    (map (fun p : Row * Row =>
            let e := fillna_null_str str_old (nth i (cells (fst p)) VNull) in
            let a := fillna_null_str str_new (nth i (cells (snd p)) VNull) in
            mkRow (Primary_Key (fst p))
                  [VStr e; VStr a; VStr ("E: " ++ e ++ ", A: " ++ a)%string])
         (inner_join old new)).

(** A name Excel takes: at most 31 characters, none of them invalid. *)
Definition valid_sheet_name (name : string) : bool :=
  Nat.leb (String.length name) 31
  && forallb (fun c => negb (char_in c invalid_sheet_characters))
             (list_ascii_of_string name).

Fixpoint no_underscore (s : string) : bool :=
  match s with
  | EmptyString => true
  | String c s' => negb (Ascii.eqb c "_") && no_underscore s'
  end.

(** * Properties *)

(** ** Strings *)

Lemma length_append (a b : string) :
  String.length (a ++ b) = String.length a + String.length b.
Proof. induction a as [|x a IH]; simpl; [reflexivity | now rewrite IH]. Qed.

Lemma append_same_length_inj (a b s t : string) :
  String.length s = String.length t ->
  (a ++ s)%string = (b ++ t)%string -> a = b /\ s = t.
Proof.
  intros Hlen. revert b.
  induction a as [|x a IH]; intros [|y b] H; simpl in H.
  - now split.
  - apply (f_equal String.length) in H. simpl in H.
    rewrite length_append in H. lia.
  - apply (f_equal String.length) in H. simpl in H.
    rewrite length_append in H. lia.
  - injection H as Hxy Hab. destruct (IH b Hab) as [-> ->]. now subst.
Qed.

Lemma append_suffix_inj (a b s : string) :
  (a ++ s)%string = (b ++ s)%string -> a = b.
Proof. intros H. now apply (append_same_length_inj a b s s eq_refl). Qed.

Lemma new_is_not_old (a b : string) : (a ++ "_new")%string <> (b ++ "_old")%string.
Proof.
  intros H. apply append_same_length_inj in H; [|reflexivity].
  destruct H as [_ H]. discriminate H.
Qed.

Lemma endswith_append (a s : string) : endswith (a ++ s) s = true.
Proof.
  induction a as [|x a IH]; cbn [append endswith].
  - destruct s; cbn [endswith]; now rewrite String.eqb_refl.
  - rewrite IH. apply orb_true_r.
Qed.

Lemma endswith_old_new (a : string) : endswith (a ++ "_old") "_new" = false.
Proof.
  induction a as [|x a IH]; [reflexivity|].
  cbn [append endswith]. rewrite IH, orb_false_r.
  apply String.eqb_neq. intros H.
  apply (f_equal String.length) in H. simpl in H.
  rewrite length_append in H. simpl in H. lia.
Qed.

(** ** Lists and masks *)

Lemma zip_with_map {A B C D : Type} (f : B -> C -> D) (g : A -> B) (h : A -> C)
  (l : list A) :
  zip_with f (map g l) (map h l) = map (fun x => f (g x) (h x)) l.
Proof. unfold zip_with. induction l; simpl; congruence. Qed.

Lemma mask_sum_map {A : Type} (f : A -> bool) (l : list A) :
  mask_sum (map f l) = count f l.
Proof.
  unfold mask_sum, count.
  induction l as [|x l IH]; simpl; [reflexivity|].
  destruct (f x); simpl; congruence.
Qed.

Lemma boolean_index_map {A B : Type} (g : A -> B) (f : A -> bool) (l : list A) :
  boolean_index (map g l) (map f l) = map g (filter f l).
Proof.
  unfold boolean_index.
  induction l as [|x l IH]; simpl; [reflexivity|].
  destruct (f x); simpl; congruence.
Qed.

Lemma boolean_index_filter {A : Type} (f : A -> bool) (l : list A) :
  boolean_index l (map f l) = filter f l.
Proof.
  rewrite <- (map_id l) at 1. rewrite boolean_index_map. apply map_id.
Qed.

Lemma repeat_as_map {A : Type} (b : bool) (l : list A) :
  repeat b (length l) = map (fun _ => b) l.
Proof. induction l; simpl; congruence. Qed.

Lemma fold_left_ext_in {A B : Type} (f g : A -> B -> A) (l : list B) :
  (forall a b, In b l -> f a b = g a b) ->
  forall a, fold_left f l a = fold_left g l a.
Proof.
  induction l as [|b l IH]; intros H a; simpl; [reflexivity|].
  rewrite (H a b (or_introl eq_refl)). apply IH.
  intros a' b' Hin. apply H. now right.
Qed.

(** A mask that a loop narrows with [&=], one column at a time. *)
Lemma fold_mask_and {A : Type} (h : string -> A -> bool) (rs : list A)
  (cs : list string) (f0 : A -> bool) :
  fold_left (fun mask c => mask_and mask (map (h c) rs)) cs (map f0 rs)
  = map (fun r => f0 r && forallb (fun c => h c r) cs) rs.
Proof.
  revert f0. induction cs as [|c cs IH]; intros f0; simpl.
  - apply map_ext. intros r. now rewrite andb_true_r.
  - unfold mask_and at 2. rewrite zip_with_map, IH.
    apply map_ext. intros r. now rewrite andb_assoc.
Qed.

Lemma count_split {A : Type} (f : A -> bool) (l : list A) :
  count f l + count (fun x => negb (f x)) l = length l.
Proof.
  unfold count. induction l as [|x l IH]; simpl; [reflexivity|].
  destruct (f x); simpl; lia.
Qed.

Lemma count_ext {A : Type} (f g : A -> bool) (l : list A) :
  (forall x, In x l -> f x = g x) -> count f l = count g l.
Proof.
  unfold count. induction l as [|x l IH]; intros H; simpl; [reflexivity|].
  rewrite (H x (or_introl eq_refl)).
  destruct (g x); simpl; rewrite IH; auto; intros y Hy; apply H; now right.
Qed.

Lemma count_Permutation {A : Type} (f : A -> bool) (l l' : list A) :
  Permutation l l' -> count f l = count f l'.
Proof.
  unfold count. induction 1 as [|x l l' _ IH|x y l|l l' l'' _ IH1 _ IH2]; simpl.
  - reflexivity.
  - destruct (f x); simpl; congruence.
  - destruct (f x), (f y); reflexivity.
  - congruence.
Qed.

Lemma forallb_map {A B : Type} (g : B -> bool) (k : A -> B) (l : list A) :
  forallb g (map k l) = forallb (fun x => g (k x)) l.
Proof. induction l; simpl; congruence. Qed.

Lemma map_nth_seq {A : Type} (l : list A) (d : A) :
  map (fun i => nth i l d) (seq 0 (length l)) = l.
Proof.
  induction l as [|x l IH]; simpl; [reflexivity|].
  f_equal. rewrite <- seq_shift, map_map. exact IH.
Qed.

(** ** The cell rule *)

Lemma value_eq_iff (a b : Value) :
  value_eq a b = true <-> a = b /\ a <> VNull.
Proof.
  destruct a as [|s|x], b as [|t|y]; simpl; split;
    try discriminate; try (intros [H1 H2]; try discriminate H1; now elim H2).
  - intros H. apply String.eqb_eq in H. subst. split; [reflexivity | discriminate].
  - intros [H _]. injection H as ->. apply String.eqb_refl.
  - intros H. apply Z.eqb_eq in H. subst. split; [reflexivity | discriminate].
  - intros [H _]. injection H as ->. apply Z.eqb_refl.
Qed.

(** Two cells match when they are equal under [==], or both null. *)
Lemma null_aware_eq_iff (a b : Value) :
  null_aware_eq a b = true
  <-> value_eq a b = true \/ (a = VNull /\ b = VNull).
Proof.
  unfold null_aware_eq. rewrite orb_true_iff, andb_true_iff.
  split; (intros [H|H]; [now left | right]).
  - destruct a, b; simpl in H; destruct H; try discriminate. now split.
  - destruct H as [-> ->]. now split.
Qed.

(** With null a value of its own, that is the equality of the two cells. *)
Lemma null_aware_eq_eq (a b : Value) : null_aware_eq a b = true <-> a = b.
Proof.
  rewrite null_aware_eq_iff, value_eq_iff. split.
  - intros [[H _]|[-> ->]]; [exact H | reflexivity].
  - intros ->. destruct b; [right; now split | left | left];
      (split; [reflexivity | discriminate]).
Qed.

Lemma all_cells_eq (news olds : list Value) :
  length news = length olds ->
  all_cells null_aware_eq news olds = true <-> news = olds.
Proof.
  unfold all_cells. revert olds.
  induction news as [|x news IH]; intros [|y olds] Hlen; try discriminate.
  - now split.
  - simpl. rewrite andb_true_iff, null_aware_eq_eq, (IH olds) by (simpl in Hlen; lia).
    split; [intros [-> ->]; reflexivity | intros H; injection H as -> ->; now split].
Qed.

(** A full match under the null-aware rule: the two sides carry the same
    cells. *)
Lemma full_match_iff (n : nat) (r : MergedRow) :
  length (m_cells r) = n + n ->
  full_match n r = true <-> new_values n r = old_values n r.
Proof.
  intros Hlen. unfold full_match. apply all_cells_eq.
  unfold new_values, old_values. rewrite length_firstn, length_skipn. lia.
Qed.

(** What plain [==] accepts on every cell, the null-aware rule accepts. *)
Lemma metrics_match_full_match (n : nat) (r : MergedRow) :
  metrics_match n r = true -> full_match n r = true.
Proof.
  unfold metrics_match, full_match, all_cells. rewrite !forallb_forall.
  intros H p Hp. unfold null_aware_eq. now rewrite (H p Hp).
Qed.

(** ** Labels *)

Lemma label_in_iff (c : string) (l : list string) : label_in c l = true <-> In c l.
Proof.
  unfold label_in. rewrite existsb_exists. split.
  - intros [x [Hin Heq]]. apply String.eqb_eq in Heq. now subst.
  - intros Hin. exists c. split; [assumption | apply String.eqb_refl].
Qed.

Lemma label_in_false (c : string) (l : list string) :
  label_in c l = false <-> ~ In c l.
Proof.
  rewrite <- label_in_iff. destruct (label_in c l); split; intros H;
    try reflexivity; try discriminate; try (intros H'; discriminate H').
  now elim H.
Qed.

Lemma non_key_cols_eq (df : DataFrame) :
  NoDup (columns_tolist df) -> non_key_cols df = columns df.
Proof.
  unfold non_key_cols, columns_tolist. intros Hnd.
  assert (Hin : label_in "Primary_Key" (columns df ++ ["Primary_Key"]) = true).
  { apply label_in_iff, in_or_app. right. now left. }
  rewrite Hin, filter_app. simpl. rewrite app_nil_r.
  apply forallb_filter_id, forallb_forall. intros c Hc.
  apply negb_true_iff, String.eqb_neq. intros ->.
  apply NoDup_remove_2 in Hnd. rewrite app_nil_r in Hnd. contradiction.
Qed.

Lemma NoDup_columns (df : DataFrame) :
  NoDup (columns_tolist df) -> NoDup (columns df).
Proof.
  unfold columns_tolist. intros H.
  apply NoDup_remove_1 in H. now rewrite app_nil_r in H.
Qed.

(** ** The rename by position *)

Lemma dict_set_fresh {V : Type} (d : dict V) (k : string) (v : V) :
  dict_get d k = None -> dict_set d k v = d ++ [(k, v)].
Proof.
  induction d as [|[k' v'] d IH]; simpl; [reflexivity|].
  destruct (String.eqb k' k); [discriminate|].
  intros H. now rewrite IH.
Qed.

Lemma dict_get_app_fresh {V : Type} (d : dict V) (k k' : string) (v : V) :
  k <> k' -> dict_get (d ++ [(k, v)]) k' = dict_get d k'.
Proof.
  intros Hne. induction d as [|[k0 v0] d IH]; simpl.
  - apply String.eqb_neq in Hne. now rewrite Hne.
  - now rewrite IH.
Qed.

Lemma dict_of_zip_fresh (ks vs : list string) (d : dict string) :
  NoDup ks -> (forall k, In k ks -> dict_get d k = None) ->
  fold_left (fun d p => dict_set d (fst p) (snd p)) (combine ks vs) d
  = d ++ combine ks vs.
Proof.
  revert vs d. induction ks as [|k ks IH]; intros vs d Hnd Hd; simpl.
  - now rewrite app_nil_r.
  - destruct vs as [|v vs]; simpl; [now rewrite app_nil_r|].
    inversion Hnd as [|? ? Hk Hnd']; subst.
    rewrite dict_set_fresh by (apply Hd; now left).
    rewrite IH; [now rewrite <- app_assoc | assumption |].
    intros k' Hk'. rewrite dict_get_app_fresh.
    + apply Hd. now right.
    + intros ->. contradiction.
Qed.

Lemma rename_combine (ks vs : list string) :
  NoDup ks -> length ks = length vs ->
  map (fun c => match dict_get (combine ks vs) c with Some c' => c' | None => c end) ks
  = vs.
Proof.
  revert vs. induction ks as [|k ks IH]; intros [|v vs] Hnd Hlen;
    try discriminate; [reflexivity|].
  inversion Hnd as [|? ? Hk Hnd']; subst.
  simpl. rewrite String.eqb_refl. f_equal.
  etransitivity; [|apply (IH vs Hnd'); simpl in Hlen; lia].
  apply map_ext_in. intros c Hc.
  destruct (String.eqb_spec k c) as [->|_]; [contradiction | reflexivity].
Qed.

Lemma rename_by_position (df : DataFrame) (vs : list string) :
  NoDup (columns df) -> length (columns df) = length vs ->
  rename df (dict_of_zip (columns df) vs) = mkDataFrame vs (rows df).
Proof.
  intros Hnd Hlen. unfold rename, dict_of_zip.
  rewrite dict_of_zip_fresh by (assumption || reflexivity).
  simpl. now rewrite rename_combine.
Qed.

(** ** Looking a label up in a merged frame *)

Lemma index_of_suffix (c s : string) (cs : list string) :
  index_of (c ++ s) (map (fun x => (x ++ s)%string) cs) = index_of c cs.
Proof.
  induction cs as [|x cs IH]; simpl; [reflexivity|].
  destruct (String.eqb_spec x c) as [->|Hne].
  - now rewrite String.eqb_refl.
  - rewrite IH.
    destruct (String.eqb_spec (x ++ s) (c ++ s)) as [H|_]; [|reflexivity].
    apply append_suffix_inj in H. contradiction.
Qed.

Lemma index_of_app_found (c : string) (l1 l2 : list string) (i : nat) :
  index_of c l1 = Some i -> index_of c (l1 ++ l2) = Some i.
Proof.
  revert i. induction l1 as [|x l1 IH]; intros i; simpl; [discriminate|].
  destruct (String.eqb x c); [trivial|].
  destruct (index_of c l1) as [j|]; [|discriminate].
  now rewrite (IH j eq_refl).
Qed.

Lemma index_of_app_missing (c : string) (l1 l2 : list string) :
  ~ In c l1 ->
  index_of c (l1 ++ l2) = option_map (Nat.add (length l1)) (index_of c l2).
Proof.
  induction l1 as [|x l1 IH]; intros Hnot; simpl.
  - now destruct (index_of c l2).
  - destruct (String.eqb_spec x c) as [->|_]; [elim Hnot; now left|].
    rewrite IH by (intros H; apply Hnot; now right).
    now destruct (index_of c l2).
Qed.

Lemma index_of_In (c : string) (cs : list string) :
  In c cs -> exists i, index_of c cs = Some i /\ i < length cs.
Proof.
  induction cs as [|x cs IH]; intros Hin; [contradiction|]. simpl.
  destruct (String.eqb_spec x c) as [->|Hne].
  - exists 0. split; [reflexivity | lia].
  - destruct Hin as [->|Hin]; [contradiction|].
    destruct (IH Hin) as [i [-> Hi]]. exists (S i). split; [reflexivity | lia].
Qed.

Lemma index_of_NoDup (cs : list string) :
  NoDup cs -> map (fun c => index_of c cs) cs = map Some (seq 0 (length cs)).
Proof.
  induction 1 as [|x cs Hx Hnd IH]; simpl; [reflexivity|].
  rewrite String.eqb_refl. f_equal.
  rewrite <- seq_shift, map_map.
  transitivity (map (option_map S) (map (fun c => index_of c cs) cs)).
  - rewrite map_map. apply map_ext_in. intros c Hc.
    destruct (String.eqb_spec x c) as [->|_]; [contradiction | reflexivity].
  - rewrite IH, map_map. reflexivity.
Qed.

Lemma position_NoDup (cs : list string) :
  NoDup cs -> map (position cs) cs = seq 0 (length cs).
Proof.
  intros Hnd. unfold position.
  rewrite <- (map_map (fun c => index_of c cs)
                      (fun o => match o with Some i => i | None => 0 end)).
  rewrite (index_of_NoDup cs Hnd), map_map. apply map_id.
Qed.

Lemma position_lt (cs : list string) (c : string) :
  In c cs -> position cs c < length cs.
Proof.
  intros Hin. unfold position.
  destruct (index_of_In c cs Hin) as [i [-> Hi]]. exact Hi.
Qed.

Lemma suffixed_same (cs : list string) (suffix : string) :
  suffixed cs cs suffix = map (fun c => (c ++ suffix)%string) cs.
Proof.
  unfold suffixed. apply map_ext_in. intros c Hc.
  now rewrite (proj2 (label_in_iff c cs) Hc).
Qed.

Lemma index_of_new (cs : list string) (c : string) :
  In c cs -> index_of (c ++ "_new") (merged_labels cs) = Some (position cs c).
Proof.
  intros Hin. unfold merged_labels, position.
  destruct (index_of_In c cs Hin) as [i [Hi _]].
  apply index_of_app_found. now rewrite index_of_suffix, Hi.
Qed.

Lemma index_of_old (cs : list string) (c : string) :
  In c cs ->
  index_of (c ++ "_old") (merged_labels cs) = Some (length cs + position cs c).
Proof.
  intros Hin. unfold merged_labels, position.
  destruct (index_of_In c cs Hin) as [i [Hi _]].
  rewrite index_of_app_missing.
  - now rewrite index_of_suffix, Hi, length_map.
  - intros H. apply in_map_iff in H. destruct H as [x [H _]].
    exact (new_is_not_old x c H).
Qed.

Lemma label_in_merged (cs : list string) (c : string) :
  In c cs ->
  label_in (c ++ "_new") (merged_labels cs) = true
  /\ label_in (c ++ "_old") (merged_labels cs) = true.
Proof.
  intros Hin. unfold merged_labels.
  split; apply label_in_iff, in_or_app; [left | right];
    apply in_map_iff; exists c; now split.
Qed.

Lemma combine_nth_seq (L R : list Value) :
  length L = length R ->
  map (fun i => (nth i L VNull, nth i R VNull)) (seq 0 (length L)) = combine L R.
Proof.
  revert R. induction L as [|x L IH]; intros [|y R] Hlen; try discriminate;
    [reflexivity|].
  simpl. f_equal. rewrite <- seq_shift, map_map. apply IH.
  simpl in Hlen. lia.
Qed.

(** The cells of a merged row, read label by label, are its two sides read
    position by position. *)
Lemma cells_by_label (cs : list string) (cells : list Value) :
  NoDup cs -> length cells = length cs + length cs ->
  map (fun c => (nth (position cs c) cells VNull,
                 nth (length cs + position cs c) cells VNull)) cs
  = combine (firstn (length cs) cells) (skipn (length cs) cells).
Proof.
  intros Hnd Hlen. set (n := length cs) in *.
  assert (HL : length (firstn n cells) = n) by (rewrite length_firstn; lia).
  assert (HR : length (skipn n cells) = n) by (rewrite length_skipn; lia).
  rewrite <- (map_map (position cs)
    (fun i => (nth i cells VNull, nth (n + i) cells VNull))).
  rewrite (position_NoDup cs Hnd). fold n.
  rewrite <- combine_nth_seq by congruence. rewrite HL.
  apply map_ext_in. intros i Hi. apply in_seq in Hi.
  rewrite nth_firstn, nth_skipn.
  destruct (Nat.ltb_spec i n); [reflexivity | lia].
Qed.

Section MergedColumns.

Variable m : MergedFrame.
Variable cs : list string.
Hypothesis Hcols : m_columns m = merged_labels cs.

Lemma column_new (c : string) :
  In c cs ->
  column m (c ++ "_new")
  = map (fun r => nth (position cs c) (m_cells r) VNull) (m_rows m).
Proof.
  intros Hin. unfold column, get_column.
  now rewrite Hcols, (index_of_new cs c Hin).
Qed.

Lemma column_old (c : string) :
  In c cs ->
  column m (c ++ "_old")
  = map (fun r => nth (length cs + position cs c) (m_cells r) VNull) (m_rows m).
Proof.
  intros Hin. unfold column, get_column.
  now rewrite Hcols, (index_of_old cs c Hin).
Qed.

Lemma null_aware_columns (c : string) :
  In c cs ->
  mask_or (series_eq (column m (c ++ "_new")) (column m (c ++ "_old")))
          (mask_and (series_isnull (column m (c ++ "_new")))
                    (series_isnull (column m (c ++ "_old"))))
  = map (fun r => null_aware_eq (nth (position cs c) (m_cells r) VNull)
                    (nth (length cs + position cs c) (m_cells r) VNull))
        (m_rows m).
Proof.
  intros Hin. rewrite (column_new c Hin), (column_old c Hin).
  unfold series_eq, series_isnull, mask_and, mask_or.
  rewrite zip_with_map, !map_map, zip_with_map, zip_with_map.
  reflexivity.
Qed.

Hypothesis Hnd : NoDup cs.
Hypothesis Hshape :
  Forall (fun r => length (m_cells r) = length cs + length cs) (m_rows m).

Lemma forallb_by_label (f : Value -> Value -> bool) (r : MergedRow) :
  In r (m_rows m) ->
  forallb (fun c => f (nth (position cs c) (m_cells r) VNull)
                      (nth (length cs + position cs c) (m_cells r) VNull)) cs
  = all_cells f (new_values (length cs) r) (old_values (length cs) r).
Proof.
  intros Hr. unfold all_cells, new_values, old_values.
  rewrite <- cells_by_label.
  - now rewrite forallb_map.
  - exact Hnd.
  - rewrite Forall_forall in Hshape. now apply Hshape.
Qed.

(** The mask of the metrics function, row by row. *)
Lemma metrics_full_match_mask_rows :
  metrics_full_match_mask m cs = map (metrics_match (length cs)) (m_rows m).
Proof.
  unfold metrics_full_match_mask.
  rewrite (fold_left_ext_in _
    (fun mask c => mask_and mask
       (map (fun r => value_eq (nth (position cs c) (m_cells r) VNull)
                        (nth (length cs + position cs c) (m_cells r) VNull))
            (m_rows m)))).
  - unfold full. rewrite repeat_as_map, fold_mask_and.
    apply map_ext_in. intros r Hr. simpl.
    now rewrite forallb_by_label.
  - intros mask c Hin. cbv zeta.
    destruct (label_in_merged cs c Hin) as [H1 H2].
    rewrite Hcols, H1, H2. simpl.
    rewrite (column_new c Hin), (column_old c Hin).
    unfold series_eq. now rewrite zip_with_map.
Qed.

(** The mask of the matching-records function, row by row. *)
Lemma matching_full_match_mask_rows :
  matching_full_match_mask m cs = map (full_match (length cs)) (m_rows m).
Proof.
  unfold matching_full_match_mask.
  rewrite (fold_left_ext_in _
    (fun mask c => mask_and mask
       (map (fun r => null_aware_eq (nth (position cs c) (m_cells r) VNull)
                        (nth (length cs + position cs c) (m_cells r) VNull))
            (m_rows m)))).
  - unfold full. rewrite repeat_as_map, fold_mask_and.
    apply map_ext_in. intros r Hr. simpl.
    now rewrite forallb_by_label.
  - intros mask c Hin. cbv zeta.
    destruct (label_in_merged cs c Hin) as [H1 H2].
    rewrite Hcols, H1, H2. simpl.
    now rewrite (null_aware_columns c Hin).
Qed.

End MergedColumns.

(** ** The rows of a merge *)

Lemma insert_on_key_Permutation (x : MergedRow) (l : list MergedRow) :
  Permutation (insert_on_key x l) (x :: l).
Proof.
  induction l as [|y l IH]; simpl; [apply Permutation_refl|].
  destruct (String.leb (m_Primary_Key x) (m_Primary_Key y)).
  - apply Permutation_refl.
  - eapply perm_trans; [apply perm_skip, IH | apply perm_swap].
Qed.

Lemma sort_on_key_Permutation (l : list MergedRow) :
  Permutation (sort_on_key l) l.
Proof.
  induction l as [|x l IH]; simpl; [apply perm_nil|].
  eapply perm_trans; [apply insert_on_key_Permutation | now apply perm_skip].
Qed.

Lemma left_rows_as_map (l r : DataFrame) :
  left_rows false l r
  = map (fun p => mkMergedRow (Primary_Key (fst p))
                              (cells (fst p) ++ cells (snd p)) both)
        (inner_join l r).
Proof.
  unfold left_rows, inner_join, matches_of.
  induction (rows l) as [|lr lrs IH]; simpl; [reflexivity|].
  rewrite map_app, <- IH. f_equal.
  destruct (filter _ (rows r)); [reflexivity|].
  now rewrite map_map.
Qed.

Lemma left_rows_shape (k : bool) (l r : DataFrame) (a b : nat) :
  Forall (fun x => length (cells x) = a) (rows l) ->
  Forall (fun x => length (cells x) = b) (rows r) ->
  length (columns r) = b ->
  Forall (fun x => length (m_cells x) = a + b) (left_rows k l r).
Proof.
  intros Hl Hr Hb. unfold left_rows. apply Forall_flat_map.
  rewrite Forall_forall in Hl |- *. intros lr Hlr.
  assert (Hms : Forall (fun x => length (cells x) = b)
                       (matches_of (Primary_Key lr) (rows r))).
  { rewrite Forall_forall in Hr |- *. intros x Hx.
    apply Hr. unfold matches_of in Hx. now apply filter_In in Hx. }
  destruct (matches_of (Primary_Key lr) (rows r)) as [|m ms].
  - destruct k; constructor; [|constructor].
    simpl. unfold nulls. rewrite length_app, repeat_length, (Hl lr Hlr). lia.
  - apply Forall_map. revert Hms. apply Forall_impl. intros x Hx. simpl.
    rewrite length_app, (Hl lr Hlr). lia.
Qed.

Lemma right_rows_shape (l r : DataFrame) (a b : nat) :
  Forall (fun x => length (cells x) = b) (rows r) ->
  length (columns l) = a ->
  Forall (fun x => length (m_cells x) = a + b) (right_rows l r).
Proof.
  intros Hr Ha. unfold right_rows. apply Forall_map.
  rewrite Forall_forall in Hr |- *. intros x Hx. simpl.
  apply filter_In in Hx. unfold nulls.
  rewrite length_app, repeat_length, (Hr x (proj1 Hx)). lia.
Qed.

Lemma merge_shape (l r : DataFrame) (how : How) (ls rs : string) (a : nat) :
  Forall (fun x => length (cells x) = a) (rows l) ->
  Forall (fun x => length (cells x) = a) (rows r) ->
  length (columns l) = a -> length (columns r) = a ->
  Forall (fun x => length (m_cells x) = a + a) (m_rows (merge l r how ls rs)).
Proof.
  intros Hl Hr Ha Hb. destruct how; simpl.
  - now apply left_rows_shape.
  - eapply Permutation_Forall.
    + apply Permutation_sym, sort_on_key_Permutation.
    + apply Forall_app. split;
        [now apply left_rows_shape | now apply right_rows_shape].
  - now apply left_rows_shape.
Qed.

Lemma merge_labels (l : DataFrame) (rs : list Row) (how : How) :
  m_columns (merge l (mkDataFrame (columns l) rs) how "_new" "_old")
  = merged_labels (columns l).
Proof. simpl. now rewrite !suffixed_same. Qed.

(** The frame the engine compares the new frame with: the old rows under
    the new labels. *)
Lemma old_renamed (new old : DataFrame) :
  well_formed new -> well_formed old ->
  length (columns new) = length (columns old) ->
  rename old (dict_of_zip (non_key_cols old) (non_key_cols new))
  = mkDataFrame (columns new) (rows old).
Proof.
  intros [Hn _] [Ho _] Hlen.
  rewrite (non_key_cols_eq new Hn), (non_key_cols_eq old Ho).
  apply rename_by_position; [now apply NoDup_columns | now symmetry].
Qed.

Lemma lengths_agree (new old : DataFrame) :
  well_formed new -> well_formed old ->
  length (columns new) = length (columns old) ->
  Nat.eqb (length (non_key_cols new)) (length (non_key_cols old)) = true.
Proof.
  intros [Hn _] [Ho _] Hlen.
  rewrite (non_key_cols_eq new Hn), (non_key_cols_eq old Ho).
  now apply Nat.eqb_eq.
Qed.

(** The rows of the merge do not depend on the labels of the right frame. *)
Lemma merge_rows_labels (l r : DataFrame) (cs : list string) (how : How)
  (ls rs : string) :
  length cs = length (columns r) ->
  m_rows (merge l (mkDataFrame cs (rows r)) how ls rs)
  = m_rows (merge l r how ls rs).
Proof.
  intros Hlen. unfold merge, left_rows, right_rows. simpl. now rewrite Hlen.
Qed.

(** ** From columns back to rows *)

Lemma rows_of_columns_map {A B : Type} (key : A -> string) (f : B -> A -> Value)
  (rs : list A) (cs : list B) :
  rows_of_columns (map key rs) (map (fun c => map (f c) rs) cs)
  = map (fun r => mkRow (key r) (map (fun c => f c r) cs)) rs.
Proof.
  induction rs as [|r rs IH]; simpl; [reflexivity|].
  rewrite !map_map. simpl. now rewrite IH.
Qed.

Lemma new_values_by_label (cs : list string) (r : MergedRow) :
  NoDup cs -> length (m_cells r) = length cs + length cs ->
  map (fun c => nth (position cs c) (m_cells r) VNull) cs
  = new_values (length cs) r.
Proof.
  intros Hnd Hlen. unfold new_values.
  pose proof (cells_by_label cs (m_cells r) Hnd Hlen) as H.
  apply (f_equal (map fst)) in H. rewrite map_map in H. simpl in H.
  rewrite H. clear H.
  assert (HL : length (firstn (length cs) (m_cells r))
               = length (skipn (length cs) (m_cells r))).
  { rewrite length_firstn, length_skipn. lia. }
  revert HL. generalize (firstn (length cs) (m_cells r)).
  generalize (skipn (length cs) (m_cells r)).
  intros R L. revert R.
  induction L as [|x L IH]; intros [|y R] HL; try discriminate; [reflexivity|].
  simpl. f_equal. apply IH. simpl in HL. lia.
Qed.

Lemma select_columns_new (m : MergedFrame) (cs l : list string) :
  m_columns m = merged_labels cs -> incl l cs ->
  select_columns m (map (fun c => (c ++ "_new")%string) l)
  = inr (map (fun c => map (fun r => nth (position cs c) (m_cells r) VNull)
                           (m_rows m)) l).
Proof.
  intros Hcols. induction l as [|c l IH]; intros Hincl; simpl; [reflexivity|].
  unfold column_exn, get_column.
  rewrite Hcols, (index_of_new cs c) by (apply Hincl; now left).
  simpl. rewrite IH by (intros x Hx; apply Hincl; now right).
  reflexivity.
Qed.

Lemma old_is_not_key (c : string) :
  String.eqb (c ++ "_old") "Primary_Key" = false.
Proof.
  apply String.eqb_neq. intros H.
  change "Primary_Key" with ("Primary" ++ "_Key")%string in H.
  apply append_same_length_inj in H; [|reflexivity].
  destruct H as [_ H]. discriminate H.
Qed.

Lemma columns_to_keep_new (cs : list string) :
  filter (fun col => endswith col "_new" || String.eqb col "Primary_Key")
         (merged_labels cs)
  = map (fun c => (c ++ "_new")%string) cs.
Proof.
  unfold merged_labels. rewrite filter_app.
  rewrite (forallb_filter_id _ (map _ cs)).
  - rewrite filter_map_swap.
    rewrite (filter_ext _ (fun _ => false)), filter_false.
    + apply app_nil_r.
    + intros c. now rewrite endswith_old_new, old_is_not_key.
  - rewrite forallb_map. apply forallb_forall. intros c _.
    now rewrite endswith_append.
Qed.

Lemma full_match_pair (n : nat) (p : Row * Row) :
  length (cells (fst p)) = n ->
  full_match n (mkMergedRow (Primary_Key (fst p))
                            (cells (fst p) ++ cells (snd p)) both)
  = rows_match p.
Proof.
  intros Hn. unfold full_match, rows_match, new_values, old_values. simpl.
  subst n. rewrite firstn_app, skipn_app, Nat.sub_diag.
  rewrite firstn_all, skipn_all. simpl. now rewrite app_nil_r.
Qed.

Lemma inner_join_new_rows (new old : DataFrame) (p : Row * Row) :
  In p (inner_join new old) -> In (fst p) (rows new).
Proof.
  unfold inner_join. intros H. apply in_flat_map in H.
  destruct H as [nr [Hnr H]]. apply in_map_iff in H.
  destruct H as [orow [<- _]]. exact Hnr.
Qed.


(** The first scenario of the specification: key A on both sides and equal,
    key B old only, key C new only. *)
Example first_scenario :
  compare_primary_keys_and_rows_by_position sample_new sample_old
  = inr (mkMetrics 2 2 1 1 0 0 1 2)
  /\ generate_column_summary sample_new sample_old
     = inr [mkSummaryRow "x" 1 2 0 1 1 0]
  /\ get_matching_records sample_new sample_old
     = inr (mkDataFrame ["x"] [mkRow "A" [VInt 1]])
  /\ get_detailed_mismatched_records pandas_str sample_new sample_old
     = inr (mkDataFrame ["x"] [mkRow "B" [VStr "O: 2.0, N: null"];
                               mkRow "C" [VStr "O: null, N: 3.0"]]).
Proof. repeat split. Qed.

(** ** Counting the rows of a merge by tag *)

Lemma merge_is_rows (tag : Indicator) (m : MergedFrame) :
  merge_is tag m = map (is_tag tag) (m_rows m).
Proof. reflexivity. Qed.

Lemma count_tags (l : list MergedRow) :
  length l
  = count (is_tag both) l + count (is_tag left_only) l
    + count (is_tag right_only) l.
Proof.
  unfold count, is_tag. induction l as [|r l IH]; simpl; [reflexivity|].
  destruct (_merge r); simpl; lia.
Qed.

Lemma count_and_split {A : Type} (g f : A -> bool) (l : list A) :
  count g l
  = count (fun x => g x && f x) l + count (fun x => g x && negb (f x)) l.
Proof.
  unfold count. induction l as [|x l IH]; simpl; [reflexivity|].
  destruct (g x), (f x); simpl; lia.
Qed.

Lemma count_app {A : Type} (f : A -> bool) (l l' : list A) :
  count f (l ++ l') = count f l + count f l'.
Proof. unfold count. now rewrite filter_app, length_app. Qed.

Lemma matches_of_keys (k : string) (df : DataFrame) :
  match matches_of k (rows df) with
  | [] => label_in k (keys df) = false
  | _ :: _ => label_in k (keys df) = true
  end.
Proof.
  unfold matches_of, keys, label_in.
  induction (rows df) as [|r rs IH]; simpl; [reflexivity|].
  rewrite (String.eqb_sym k (Primary_Key r)).
  destruct (String.eqb (Primary_Key r) k); simpl; [reflexivity | exact IH].
Qed.

Lemma count_tag_map {A : Type} (tag t : Indicator) (k : A -> string)
  (f : A -> list Value) (l : list A) :
  count (is_tag tag) (map (fun x => mkMergedRow (k x) (f x) t) l)
  = if Indicator_eqb t tag then length l else 0.
Proof.
  unfold count, is_tag. induction l as [|x l IH]; simpl.
  - now destruct (Indicator_eqb t tag).
  - destruct (Indicator_eqb t tag); simpl; now rewrite IH.
Qed.

Lemma left_rows_by_tag (tag : Indicator) (new old : DataFrame) :
  count (is_tag tag) (left_rows true new old)
  = match tag with
    | both => length (inner_join new old)
    | left_only => length (extra_rows new old)
    | right_only => 0
    end.
Proof.
  unfold left_rows, inner_join, extra_rows.
  induction (rows new) as [|nr nrs IH]; [now destruct tag|].
  cbn [flat_map filter]. rewrite count_app, IH. clear IH.
  pose proof (matches_of_keys (Primary_Key nr) old) as Hm.
  fold (matches_of (Primary_Key nr) (rows old)).
  destruct (matches_of (Primary_Key nr) (rows old)) as [|x ms]; rewrite Hm.
  - destruct tag; reflexivity.
  - rewrite (count_tag_map tag both (fun _ => Primary_Key nr)
               (fun rr => cells nr ++ cells rr)).
    rewrite length_app, length_map. destruct tag; reflexivity.
Qed.

(** The Joined Records by tag, counted on the two frames: the pairs of the
    inner join, the new rows whose key the old frame lacks, and the old rows
    whose key the new frame lacks. *)
Lemma joined_records_by_tag (new old : DataFrame) :
  count (is_tag both) (joined_records new old) = length (inner_join new old)
  /\ count (is_tag left_only) (joined_records new old)
     = length (extra_rows new old)
  /\ count (is_tag right_only) (joined_records new old)
     = length (extra_rows old new).
Proof.
  unfold joined_records. cbn [merge m_rows].
  rewrite !(count_Permutation _ _ _ (sort_on_key_Permutation _)), !count_app.
  rewrite !left_rows_by_tag. unfold right_rows.
  rewrite !(count_tag_map _ right_only Primary_Key
              (fun rr => nulls (length (columns new)) ++ cells rr)).
  fold (extra_rows old new). simpl. repeat split; lia.
Qed.

Ltac well_formed_sample :=
  split; [repeat constructor; simpl; intuition discriminate | repeat constructor].

Ltac exact_numbers_sample := repeat (constructor; try reflexivity).


(** C3.  With one key on both sides and the only cell null on both, the
    outer merge gives one Joined Record, tagged both, which is a full match
    under the null-aware rule: no record tagged both fails to be a full
    match and no record is one-sided, so the records that are not full
    matches, the new-only and the old-only ones are 0 together.  The
    metrics function returns Match 0 and Mismatch 1: the two add up to the
    number of Joined Records, but Mismatch counts a full match. *)
Theorem metrics_mismatch_counts_full_match :
  length (joined_records null_new null_old) = 1
  /\ count (fun r => is_tag both r && negb (full_match 1 r))
           (joined_records null_new null_old)
     + count (is_tag left_only) (joined_records null_new null_old)
     + count (is_tag right_only) (joined_records null_new null_old)
     = 0
  /\ exists m : Metrics,
       compare_primary_keys_and_rows_by_position null_new null_old = inr m
       /\ Match_Record_Count m = 0
       /\ Mismatch_Record_Count m = 1
       /\ Match_Record_Count m + Mismatch_Record_Count m
          = length (joined_records null_new null_old).
Proof.
  split; [reflexivity|]. split; [reflexivity|].
  eexists. split; [reflexivity|]. repeat split.
Qed.

(** ** The Column Summary, row by row *)

Lemma nth_position (cs : list string) (c : string) :
  In c cs -> nth (position cs c) cs "" = c.
Proof.
  unfold position. induction cs as [|x cs IH]; intros Hin; [contradiction|].
  simpl. destruct (String.eqb_spec x c) as [->|Hne]; [reflexivity|].
  destruct Hin as [->|Hin]; [contradiction|].
  destruct (index_of_In c cs Hin) as [i [Hi _]].
  specialize (IH Hin). rewrite Hi in IH |- *. exact IH.
Qed.

Lemma cells_of_position (n i : nat) (r : MergedRow) :
  i < n ->
  nth i (m_cells r) VNull = new_cell n i r
  /\ nth (n + i) (m_cells r) VNull = old_cell n i r.
Proof.
  intros Hi. unfold new_cell, old_cell, new_values, old_values.
  rewrite nth_firstn, nth_skipn.
  destruct (Nat.ltb_spec i n); [now split | lia].
Qed.

Lemma summary_row_counts (m : MergedFrame) (cs : list string) (c : string) :
  m_columns m = merged_labels cs -> In c cs ->
  summary_row m c = summary_of (length cs) (m_rows m) (position cs c) c.
Proof.
  intros Hcols Hin. unfold summary_row, summary_of.
  destruct (label_in_merged cs c Hin) as [H1 H2].
  rewrite Hcols, H1, H2. simpl negb. simpl orb. cbv iota zeta.
  rewrite (null_aware_columns m cs Hcols c Hin).
  assert (Hcols' : forall mask, m_columns (frame_index m mask) = merged_labels cs)
    by (intros mask; exact Hcols).
  rewrite !(column_new _ cs (Hcols' _) c Hin), !(column_old _ cs (Hcols' _) c Hin).
  rewrite (column_new m cs Hcols c Hin), (column_old m cs Hcols c Hin).
  unfold frame_index, mask_not, mask_and, series_notnull, series_isnull.
  cbn [m_rows]. rewrite !map_map, boolean_index_filter, !zip_with_map.
  rewrite !mask_sum_map.
  pose proof (position_lt cs c Hin) as Hlt.
  assert (HN : forall r, nth (position cs c) (m_cells r) VNull
                         = new_cell (length cs) (position cs c) r)
    by (intros r; apply (cells_of_position _ _ r Hlt)).
  assert (HO : forall r, nth (length cs + position cs c) (m_cells r) VNull
                         = old_cell (length cs) (position cs c) r)
    by (intros r; apply (cells_of_position _ _ r Hlt)).
  unfold cell_matches.
  rewrite (filter_ext _
    (fun r => negb (null_aware_eq (new_cell (length cs) (position cs c) r)
                                  (old_cell (length cs) (position cs c) r))))
    by (intros r; now rewrite HN, HO).
  f_equal; apply count_ext; intros r _; now rewrite HN, HO.
Qed.

Lemma generate_column_summary_rows (new old : DataFrame) :
  well_formed new -> well_formed old ->
  length (columns new) = length (columns old) ->
  generate_column_summary new old
  = inr (map (fun i => summary_of (length (columns new)) (joined_records new old)
                         i (nth i (columns new) ""))
             (seq 0 (length (columns new)))).
Proof.
  intros Hn Ho Hlen. unfold generate_column_summary.
  rewrite (lengths_agree new old Hn Ho Hlen). cbv zeta. simpl negb. cbv iota.
  rewrite (old_renamed new old Hn Ho Hlen).
  rewrite (non_key_cols_eq new (proj1 Hn)).
  set (m := merge new (mkDataFrame (columns new) (rows old)) how_outer "_new" "_old").
  assert (Hcols : m_columns m = merged_labels (columns new))
    by apply merge_labels.
  assert (HJ : m_rows m = joined_records new old).
  { unfold m, joined_records. now apply merge_rows_labels. }
  f_equal.
  rewrite <- (position_NoDup (columns new)) by apply NoDup_columns, Hn.
  rewrite map_map. apply map_ext_in. intros c Hc.
  rewrite (summary_row_counts m (columns new) c Hcols Hc), HJ.
  now rewrite (nth_position (columns new) c Hc).
Qed.

(** Case analysis on the two cells of the head of the list. *)
Ltac by_cells a b x IH :=
  destruct (a x) as [|?s|?z] eqn:?Ha, (b x) as [|?t|?y] eqn:?Hb;
  repeat (simpl; rewrite ?Ha, ?Hb);
  try (destruct (String.eqb _ _));
  try (destruct (Z.eqb _ _));
  repeat (simpl; rewrite ?Ha, ?Hb);
  first [exact IH | lia].

Lemma mismatches_three_ways {A : Type} (a b : A -> Value) (l : list A) :
  count (fun x => negb (null_aware_eq (a x) (b x))) l
  = count (fun x => notnull (a x) && notnull (b x))
          (filter (fun x => negb (null_aware_eq (a x) (b x))) l)
    + count (fun x => notnull (a x) && isnull (b x))
            (filter (fun x => negb (null_aware_eq (a x) (b x))) l)
    + count (fun x => isnull (a x) && notnull (b x))
            (filter (fun x => negb (null_aware_eq (a x) (b x))) l).
Proof.
  unfold count, null_aware_eq.
  induction l as [|x l IH]; simpl; [reflexivity|].
  by_cells a b x IH.
Qed.

Lemma null_null_are_matches {A : Type} (a b : A -> Value) (l : list A) :
  count (fun x => isnull (a x) && isnull (b x)) l
  <= count (fun x => null_aware_eq (a x) (b x)) l.
Proof.
  unfold count, null_aware_eq.
  induction l as [|x l IH]; simpl; [lia|].
  by_cells a b x IH.
Qed.

(** No pair of nulls is among the mismatched rows. *)
Lemma null_null_not_mismatches {A : Type} (a b : A -> Value) (l : list A) :
  count (fun x => isnull (a x) && isnull (b x))
        (filter (fun x => negb (null_aware_eq (a x) (b x))) l) = 0.
Proof.
  unfold count, null_aware_eq.
  induction l as [|x l IH]; simpl; [reflexivity|].
  by_cells a b x IH.
Qed.

Lemma null_null_among_matches {A : Type} (a b : A -> Value) (l : list A) :
  count (fun x => isnull (a x) && isnull (b x)) l
  = count (fun x => null_aware_eq (a x) (b x) && (isnull (a x) && isnull (b x))) l.
Proof.
  apply count_ext. intros x _. unfold null_aware_eq.
  destruct (a x), (b x); simpl; try reflexivity; now rewrite andb_false_r.
Qed.

(** C10.  For two well-formed frames with as many non-key columns each, the
    Column Summary has one row per non-key column of the new frame, in
    order, and in the row of the column of position [i]: Mismatches counts
    the Joined Records whose two cells in that column do not match and is
    the sum of 'Not Null - Not Null', 'Not Null - Null' and
    'Null - Not Null'; 'Null - Null' counts Joined Records that Matches
    counts, those whose two cells are both null, so it is at most Matches
    and, with Mismatches, at most the number of Joined Records. *)
Theorem column_summary_partition (new old : DataFrame) :
  well_formed new -> well_formed old ->
  length (columns new) = length (columns old) ->
  exists summary : list SummaryRow,
    generate_column_summary new old = inr summary
    /\ map Column_Name summary = columns new
    /\ forall (i : nat) (row : SummaryRow),
         nth_error summary i = Some row ->
         let n := length (columns new) in
         let J := joined_records new old in
         Mismatches row
         = Not_Null_Not_Null row + Not_Null_Null row + Null_Not_Null row
         /\ Mismatches row = count (fun r => negb (cell_matches n i r)) J
         /\ Matches row = count (cell_matches n i) J
         /\ Null_Null row
            = count (fun r => cell_matches n i r
                              && (isnull (new_cell n i r) && isnull (old_cell n i r)))
                    J
         /\ Null_Null row <= Matches row
         /\ Null_Null row + Mismatches row <= length J.
Proof.
  intros Hn Ho Hlen.
  rewrite (generate_column_summary_rows new old Hn Ho Hlen).
  eexists. split; [reflexivity|]. split.
  - rewrite map_map. cbn [summary_of Column_Name]. apply map_nth_seq.
  - intros i row Hrow. cbv zeta.
    rewrite nth_error_map, nth_error_seq in Hrow.
    destruct (Nat.ltb i (length (columns new))); [|discriminate].
    simpl in Hrow. injection Hrow as <-.
    set (n := length (columns new)). set (J := joined_records new old).
    cbn [summary_of Mismatches Matches Not_Null_Not_Null Not_Null_Null
         Null_Not_Null Null_Null].
    pose proof (mismatches_three_ways (new_cell n i) (old_cell n i) J) as H3.
    pose proof (null_null_are_matches (new_cell n i) (old_cell n i) J) as Hle.
    pose proof (null_null_among_matches (new_cell n i) (old_cell n i) J) as Hin.
    pose proof (count_split (cell_matches n i) J) as Hsplit.
    unfold cell_matches in *. repeat split; lia.
Qed.

Lemma column_summary_partition_witness :
  exists summary : list SummaryRow,
    generate_column_summary mixed_new mixed_old = inr summary
    /\ map Column_Name summary = columns mixed_new
    /\ forall (i : nat) (row : SummaryRow),
         nth_error summary i = Some row ->
         let n := length (columns mixed_new) in
         let J := joined_records mixed_new mixed_old in
         Mismatches row
         = Not_Null_Not_Null row + Not_Null_Null row + Null_Not_Null row
         /\ Mismatches row = count (fun r => negb (cell_matches n i r)) J
         /\ Matches row = count (cell_matches n i) J
         /\ Null_Null row
            = count (fun r => cell_matches n i r
                              && (isnull (new_cell n i r) && isnull (old_cell n i r)))
                    J
         /\ Null_Null row <= Matches row
         /\ Null_Null row + Mismatches row <= length J.
Proof.
  apply (column_summary_partition mixed_new mixed_old).
  - well_formed_sample.
  - well_formed_sample.
  - reflexivity.
Defined.

(** On the mixed frames: key A matches in both columns, with a null pair in
    the second; key B is old only, key C new only, with a null pair in the
    second column; key D differs in the first column. *)
Example mixed_summary :
  generate_column_summary mixed_new mixed_old
  = inr [mkSummaryRow "x" 1 3 0 1 2 0; mkSummaryRow "y" 3 1 0 0 1 2].
Proof. reflexivity. Qed.

(** ** Where a Joined Record comes from *)

Lemma joined_records_inv (new old : DataFrame) (r : MergedRow) :
  In r (joined_records new old) ->
  (exists nr orow,
      In nr (rows new) /\ In orow (rows old)
      /\ Primary_Key orow = Primary_Key nr
      /\ r = mkMergedRow (Primary_Key nr) (cells nr ++ cells orow) both)
  \/ (exists nr,
         In nr (rows new)
         /\ r = mkMergedRow (Primary_Key nr)
                            (cells nr ++ nulls (length (columns old))) left_only)
  \/ (exists orow,
         In orow (rows old)
         /\ r = mkMergedRow (Primary_Key orow)
                            (nulls (length (columns new)) ++ cells orow) right_only).
Proof.
  unfold joined_records. cbn [merge m_rows]. intros Hin.
  apply (Permutation_in _ (sort_on_key_Permutation _)) in Hin.
  apply in_app_or in Hin. destruct Hin as [Hin|Hin].
  - unfold left_rows in Hin. apply in_flat_map in Hin.
    destruct Hin as [nr [Hnr Hin]].
    destruct (matches_of (Primary_Key nr) (rows old)) as [|x ms] eqn:Hms.
    + right. left. exists nr. split; [exact Hnr|].
      destruct Hin as [<-|[]]. reflexivity.
    + left. apply in_map_iff in Hin. destruct Hin as [orow [<- Horow]].
      rewrite <- Hms in Horow. unfold matches_of in Horow.
      apply filter_In in Horow. destruct Horow as [Horow Hkey].
      apply String.eqb_eq in Hkey. exists nr, orow. now repeat split.
  - right. right. unfold right_rows in Hin. apply in_map_iff in Hin.
    destruct Hin as [orow [<- Horow]]. apply filter_In in Horow.
    exists orow. now split.
Qed.

Lemma one_sided_values (new old : DataFrame) (r : MergedRow) :
  well_formed new -> In r (joined_records new old) ->
  match _merge r with
  | left_only => old_values (length (columns new)) r
                 = nulls (length (columns old))
  | right_only => new_values (length (columns new)) r
                  = nulls (length (columns new))
  | both => True
  end.
Proof.
  intros [_ Hn] Hin. rewrite Forall_forall in Hn.
  destruct (joined_records_inv new old r Hin)
    as [[nr [orow [_ [_ [_ ->]]]]] | [[nr [Hnr ->]] | [orow [_ ->]]]];
    cbn [_merge]; [exact I | |].
  - unfold old_values. cbn [m_cells].
    rewrite skipn_app, <- (Hn nr Hnr), Nat.sub_diag, skipn_all. reflexivity.
  - unfold new_values, nulls. cbn [m_cells].
    rewrite firstn_app, repeat_length, Nat.sub_diag, firstn_all2
      by (rewrite repeat_length; lia).
    simpl. apply app_nil_r.
Qed.

Lemma one_sided_null_matches (new old : DataFrame) (i : nat) (r : MergedRow) :
  well_formed new -> In r (joined_records new old) ->
  one_sided_null (length (columns new)) i r = true ->
  cell_matches (length (columns new)) i r = true.
Proof.
  intros Hn Hin. pose proof (one_sided_values new old r Hn Hin) as Hside.
  unfold one_sided_null, cell_matches, null_aware_eq.
  unfold new_cell, old_cell in *.
  destruct (_merge r); [| | discriminate]; rewrite Hside; unfold nulls;
    rewrite nth_repeat; destruct (nth i _ VNull); simpl; intros H;
    try discriminate H; reflexivity.
Qed.

(** C9.  For two well-formed frames with as many non-key columns each, the
    Column Summary returns, and in its row for the non-key column of
    position [i]: Matches counts the Joined Records whose two cells in that
    column are equal or both null, Mismatches counts the others, and a
    Joined Record that is on one side only and whose cell on that side is
    null is among the records Matches counts, since its cell on the absent
    side is null as well; it is not among those Mismatches counts. *)
Theorem column_summary_one_sided_null (new old : DataFrame) :
  well_formed new -> well_formed old ->
  length (columns new) = length (columns old) ->
  exists summary : list SummaryRow,
    generate_column_summary new old = inr summary
    /\ length summary = length (columns new)
    /\ forall (i : nat) (row : SummaryRow),
         nth_error summary i = Some row ->
         let n := length (columns new) in
         let J := joined_records new old in
         Matches row = count (cell_matches n i) J
         /\ Mismatches row = count (fun r => negb (cell_matches n i r)) J
         /\ forall r : MergedRow,
              In r J -> one_sided_null n i r = true ->
              cell_matches n i r = true /\ negb (cell_matches n i r) = false.
Proof.
  intros Hn Ho Hlen.
  rewrite (generate_column_summary_rows new old Hn Ho Hlen).
  eexists. split; [reflexivity|]. split.
  - now rewrite length_map, length_seq.
  - intros i row Hrow. cbv zeta.
    rewrite nth_error_map, nth_error_seq in Hrow.
    destruct (Nat.ltb i (length (columns new))); [|discriminate].
    simpl in Hrow. injection Hrow as <-.
    cbn [summary_of Matches Mismatches]. repeat split.
    + now apply (one_sided_null_matches new old).
    + apply negb_false_iff. now apply (one_sided_null_matches new old).
Qed.

Lemma column_summary_one_sided_null_witness :
  exists summary : list SummaryRow,
    generate_column_summary lone_new lone_old = inr summary
    /\ length summary = length (columns lone_new)
    /\ forall (i : nat) (row : SummaryRow),
         nth_error summary i = Some row ->
         let n := length (columns lone_new) in
         let J := joined_records lone_new lone_old in
         Matches row = count (cell_matches n i) J
         /\ Mismatches row = count (fun r => negb (cell_matches n i r)) J
         /\ forall r : MergedRow,
              In r J -> one_sided_null n i r = true ->
              cell_matches n i r = true /\ negb (cell_matches n i r) = false.
Proof.
  apply (column_summary_one_sided_null lone_new lone_old).
  - well_formed_sample.
  - well_formed_sample.
  - reflexivity.
Defined.

(** The new-only record of key A, whose cell is null, is one of the two
    Matches of the only column. *)
Example lone_new_summary :
  generate_column_summary lone_new lone_old
  = inr [mkSummaryRow "x" 2 0 0 0 0 1]
  /\ joined_records lone_new lone_old
     = [mkMergedRow "A" [VNull; VNull] left_only;
        mkMergedRow "B" [VInt 2; VInt 2] both].
Proof. split; reflexivity. Qed.

(** ** Extra and duplicate records *)

Lemma extra_records_of_merge (side other : DataFrame) :
  let extra_records := merge side (only_key other) how_left "_x" "_y" in
  drop_merge (frame_index extra_records (merge_is left_only extra_records))
  = mkDataFrame (columns side) (extra_rows side other).
Proof.
  cbv zeta. unfold drop_merge, frame_index. cbn [m_columns m_rows merge].
  f_equal.
  - unfold suffixed. cbn [only_key columns map]. rewrite app_nil_r.
    rewrite <- (map_id (columns side)) at 2. apply map_ext. reflexivity.
  - rewrite merge_is_rows. cbn [merge m_rows].
    rewrite boolean_index_filter. unfold left_rows, extra_rows.
    induction (rows side) as [|lr lrs IH]; [reflexivity|].
    cbn [flat_map filter]. rewrite filter_app, map_app, IH. clear IH.
    pose proof (matches_of_keys (Primary_Key lr) (only_key other)) as Hm.
    replace (keys (only_key other)) with (keys other) in Hm
      by (unfold keys, only_key; cbn [rows]; now rewrite map_map).
    destruct (matches_of (Primary_Key lr) (rows (only_key other))) as [|x ms].
    + rewrite Hm. simpl. rewrite app_nil_r. now destruct lr.
    + rewrite Hm. simpl. clear Hm.
      replace (filter _ (map _ ms)) with (@nil MergedRow); [reflexivity|].
      induction ms as [|y ms IH]; [reflexivity | exact IH].
Qed.

Lemma duplicate_records_of_mask (side : DataFrame) :
  df_index side (duplicated side) = mkDataFrame (columns side) (duplicate_rows side).
Proof.
  unfold df_index, duplicated, duplicate_rows.
  now rewrite boolean_index_filter.
Qed.

(** C4.  For each side, the detector returns as Extra_Records the rows of
    that side whose key no row of the other side has, in order and each
    once, and as Duplicate_Records the rows of that side whose key the side
    has at least twice, every one of them; a row is extra exactly when it
    is a row of the side and its key is not a key of the other side, so a
    key the other side has gives no extra row however often the side has
    it. *)
Theorem extra_and_duplicate_records_spec (new old : DataFrame) :
  get_extra_and_duplicate_records new old "Old"
  = inr (mkExtraAndDuplicate (mkDataFrame (columns old) (extra_rows old new))
                             (mkDataFrame (columns old) (duplicate_rows old)))
  /\ get_extra_and_duplicate_records new old "New"
     = inr (mkExtraAndDuplicate (mkDataFrame (columns new) (extra_rows new old))
                                (mkDataFrame (columns new) (duplicate_rows new)))
  /\ (forall (side other : DataFrame) (r : Row),
        In r (extra_rows side other)
        <-> In r (rows side) /\ ~ In (Primary_Key r) (keys other))
  /\ (forall (side : DataFrame) (r : Row),
        In r (duplicate_rows side)
        <-> In r (rows side)
            /\ 2 <= count_occ string_dec (keys side) (Primary_Key r)).
Proof.
  split; [|split; [|split]].
  - unfold get_extra_and_duplicate_records. cbn [label_in existsb].
    simpl String.eqb. cbv iota. simpl negb. cbv iota.
    now rewrite extra_records_of_merge, duplicate_records_of_mask.
  - unfold get_extra_and_duplicate_records. cbn [label_in existsb].
    simpl String.eqb. cbv iota. simpl negb. cbv iota.
    now rewrite extra_records_of_merge, duplicate_records_of_mask.
  - intros side other r. unfold extra_rows.
    rewrite filter_In, negb_true_iff, label_in_false. reflexivity.
  - intros side r. unfold duplicate_rows.
    rewrite filter_In, Nat.ltb_lt. reflexivity.
Qed.

(** C8.  When the side selector is 'Old' the detector returns the two lists
    of the old side, its rows whose key the new side lacks as Extra_Records
    and its rows whose key it has at least twice as Duplicate_Records; when
    the selector is 'New', the two lists of the new side.  It fails with the
    ValueError on its parameter, and returns nothing, exactly when the
    selector is neither, and returns a result exactly when it is one of the
    two. *)
Theorem side_selector_checked (new old : DataFrame) (table : string) :
  (table = "Old" ->
   get_extra_and_duplicate_records new old table
   = inr (mkExtraAndDuplicate (mkDataFrame (columns old) (extra_rows old new))
                              (mkDataFrame (columns old) (duplicate_rows old))))
  /\ (table = "New" ->
      get_extra_and_duplicate_records new old table
      = inr (mkExtraAndDuplicate (mkDataFrame (columns new) (extra_rows new old))
                                 (mkDataFrame (columns new) (duplicate_rows new))))
  /\ ((table <> "Old" /\ table <> "New")
      <-> get_extra_and_duplicate_records new old table
          = inl (ValueError "Parameter 'table' must be either 'Old' or 'New'."))
  /\ ((table = "Old" \/ table = "New")
      <-> exists both_lists : ExtraAndDuplicate,
            get_extra_and_duplicate_records new old table = inr both_lists).
Proof.
  assert (HOld : get_extra_and_duplicate_records new old "Old"
                 = inr (mkExtraAndDuplicate
                          (mkDataFrame (columns old) (extra_rows old new))
                          (mkDataFrame (columns old) (duplicate_rows old)))).
  { unfold get_extra_and_duplicate_records. cbn [label_in existsb].
    simpl String.eqb. cbv iota. simpl negb. cbv iota.
    now rewrite extra_records_of_merge, duplicate_records_of_mask. }
  assert (HNew : get_extra_and_duplicate_records new old "New"
                 = inr (mkExtraAndDuplicate
                          (mkDataFrame (columns new) (extra_rows new old))
                          (mkDataFrame (columns new) (duplicate_rows new)))).
  { unfold get_extra_and_duplicate_records. cbn [label_in existsb].
    simpl String.eqb. cbv iota. simpl negb. cbv iota.
    now rewrite extra_records_of_merge, duplicate_records_of_mask. }
  split; [intros ->; exact HOld|]. split; [intros ->; exact HNew|].
  destruct (String.eqb_spec table "Old") as [->|HO].
  - rewrite HOld. split; split.
    + intros [H _]. now elim H.
    + discriminate.
    + intros _. eexists. reflexivity.
    + intros _. now left.
  - destruct (String.eqb_spec table "New") as [->|HN].
    + rewrite HNew. split; split.
      * intros [_ H]. now elim H.
      * discriminate.
      * intros _. eexists. reflexivity.
      * intros _. now right.
    + assert (Herr : get_extra_and_duplicate_records new old table
                     = inl (ValueError
                              "Parameter 'table' must be either 'Old' or 'New'.")).
      { unfold get_extra_and_duplicate_records. cbn [label_in existsb].
        apply String.eqb_neq in HO, HN. now rewrite HO, HN. }
      rewrite Herr. split; split.
      * reflexivity.
      * intros _. now split.
      * intros [H|H]; contradiction.
      * intros [r H]. discriminate H.
Qed.

(** ** A key that one side has twice *)

(** C5.  With old = [{A, y:5}, {A, y:6}] and new = [{A, y:5}]: the
    duplicate records of the old side are its two rows, it has no extra
    record, the outer merge gives two Joined Records of key A, both tagged
    both, the first a full match and the second not, and the metrics report
    one match and one mismatch. *)
Theorem duplicated_key_scenario :
  get_extra_and_duplicate_records twice_new twice_old "Old"
  = inr (mkExtraAndDuplicate
           (mkDataFrame ["y"] [])
           (mkDataFrame ["y"] [mkRow "A" [VInt 5]; mkRow "A" [VInt 6]]))
  /\ joined_records twice_new twice_old
     = [mkMergedRow "A" [VInt 5; VInt 5] both;
        mkMergedRow "A" [VInt 5; VInt 6] both]
  /\ map (full_match 1) (joined_records twice_new twice_old) = [true; false]
  /\ (exists m : Metrics,
        compare_primary_keys_and_rows_by_position twice_new twice_old = inr m
        /\ Match_Record_Count m = 1
        /\ Mismatch_Record_Count m = 1
        /\ OldDataTable_Duplicate_Records m = 2
        /\ OldDataTable_Extra_Records m = 0).
Proof.
  repeat split. eexists. repeat split.
Qed.

(** ** Nulls on both sides in the metrics *)

(** C1.  With one key on both sides and the only cell null on both, the
    Joined Record is a full match under the null-aware rule, the
    Matching-Records view returns it and the Column Summary counts its cell
    in Matches, but the metrics count no match and one mismatch. *)
Theorem metrics_count_null_null_as_mismatch :
  joined_records null_new null_old = [mkMergedRow "A" [VNull; VNull] both]
  /\ map (full_match 1) (joined_records null_new null_old) = [true]
  /\ get_matching_records null_new null_old
     = inr (mkDataFrame ["x"] [mkRow "A" [VNull]])
  /\ generate_column_summary null_new null_old
     = inr [mkSummaryRow "x" 1 0 0 0 0 1]
  /\ compare_primary_keys_and_rows_by_position null_new null_old
     = inr (mkMetrics 1 1 0 0 0 0 0 1).
Proof. repeat split. Qed.

(** ** Frames whose column counts differ *)

Lemma non_key_cols_filter (df : DataFrame) :
  filter (fun col => negb (String.eqb col "Primary_Key")) (columns_tolist df)
  = non_key_cols df.
Proof.
  unfold non_key_cols.
  assert (Hin : label_in "Primary_Key" (columns_tolist df) = true).
  { apply label_in_iff, in_or_app. right. now left. }
  now rewrite Hin.
Qed.

(** C2, as the code has it.  When the two frames differ in their number of
    non-key columns, the metrics, the Column Summary, the Matching-Records
    view and the Detailed-Mismatch view each fail with the ValueError on the
    column counts, whatever the rows are; the Per-Column Comparison sheets
    compare nothing either, and return an empty mapping of sheets instead of
    failing. *)
Theorem column_counts_checked (astype_str : dtype -> Value -> string)
  (new old : DataFrame) :
  length (non_key_cols new) <> length (non_key_cols old) ->
  compare_primary_keys_and_rows_by_position new old
  = inl (ValueError
      "Number of non-key columns differ between NewDataTable and OldDataTable filtered DataFrames.")
  /\ generate_column_summary new old
     = inl (ValueError
         "Number of non-key columns differ between NewDataTable and OldDataTable.")
  /\ get_matching_records new old
     = inl (ValueError
         "Number of non-key columns differ between NewDataTable and OldDataTable.")
  /\ get_detailed_mismatched_records astype_str new old
     = inl (ValueError
         "Number of non-key columns differ between NewDataTable and OldDataTable.")
  /\ compare_columns_and_generate_sheets astype_str new old = inr [].
Proof.
  intros Hne. apply Nat.eqb_neq in Hne.
  unfold compare_primary_keys_and_rows_by_position, generate_column_summary,
    get_matching_records, get_detailed_mismatched_records,
    compare_columns_and_generate_sheets.
  rewrite !non_key_cols_filter, Hne. repeat split.
Qed.

Lemma column_counts_checked_witness :
  compare_primary_keys_and_rows_by_position three_columns four_columns
  = inl (ValueError
      "Number of non-key columns differ between NewDataTable and OldDataTable filtered DataFrames.")
  /\ generate_column_summary three_columns four_columns
     = inl (ValueError
         "Number of non-key columns differ between NewDataTable and OldDataTable.")
  /\ get_matching_records three_columns four_columns
     = inl (ValueError
         "Number of non-key columns differ between NewDataTable and OldDataTable.")
  /\ get_detailed_mismatched_records pandas_str three_columns four_columns
     = inl (ValueError
         "Number of non-key columns differ between NewDataTable and OldDataTable.")
  /\ compare_columns_and_generate_sheets pandas_str three_columns four_columns
     = inr [].
Proof.
  apply (column_counts_checked pandas_str three_columns four_columns).
  simpl. lia.
Defined.

(** With three non-key columns against four, the Per-Column Comparison
    sheets do not fail: they return without an error, and without a sheet. *)
Lemma sheets_do_not_fail_on_column_counts :
  length (non_key_cols three_columns) = 3
  /\ length (non_key_cols four_columns) = 4
  /\ compare_columns_and_generate_sheets pandas_str three_columns four_columns
     = inr [].
Proof. repeat split. Qed.

(** ** The store of columns *)

Lemma dict_get_set_same {V : Type} (d : dict V) (k : string) (v : V) :
  dict_get (dict_set d k v) k = Some v.
Proof.
  induction d as [|[k' v'] d IH]; simpl.
  - now rewrite String.eqb_refl.
  - destruct (String.eqb k' k) eqn:Hk; simpl; rewrite Hk; [reflexivity | exact IH].
Qed.

Lemma dict_get_set_other {V : Type} (d : dict V) (k k' : string) (v : V) :
  k <> k' -> dict_get (dict_set d k v) k' = dict_get d k'.
Proof.
  intros Hne. induction d as [|[k0 v0] d IH]; simpl.
  - apply String.eqb_neq in Hne. now rewrite Hne.
  - destruct (String.eqb_spec k0 k) as [->|Hk]; simpl.
    + apply String.eqb_neq in Hne. now rewrite Hne.
    + now rewrite IH.
Qed.

Lemma dict_get_map_values {V W : Type} (f : V -> W) (d : dict V) (k : string) :
  dict_get (map (fun p => (fst p, f (snd p))) d) k = option_map f (dict_get d k).
Proof.
  induction d as [|[k' v'] d IH]; simpl; [reflexivity|].
  destruct (String.eqb k' k); [reflexivity | exact IH].
Qed.

Lemma dict_get_In {V : Type} (d : dict V) (k : string) (v : V) :
  dict_get d k = Some v -> In (k, v) d.
Proof.
  induction d as [|[k' v'] d IH]; simpl; [discriminate|].
  destruct (String.eqb_spec k' k) as [->|_].
  - intros H. injection H as ->. now left.
  - intros H. right. now apply IH.
Qed.

Lemma copy_lengths (m : MergedFrame) (c : string) (s : Series) :
  dict_get (copy m) c = Some s -> length s = length (m_rows m).
Proof.
  intros H. apply dict_get_In in H. unfold copy in H.
  apply in_combine_r in H. apply in_map_iff in H.
  destruct H as [i [<- _]]. apply length_map.
Qed.

Lemma loc_set_same (st : Store) (n : nat) (mask : Mask) (c : string) (s : Series) :
  dict_get (loc_set st n mask c s) c
  = Some (where_mask mask s
            (match dict_get st c with Some old => old | None => nulls n end)).
Proof.
  unfold loc_set. destruct (dict_get st c); apply dict_get_set_same.
Qed.

Lemma loc_set_other (st : Store) (n : nat) (mask : Mask) (c c' : string)
  (s : Series) :
  c <> c' -> dict_get (loc_set st n mask c s) c' = dict_get st c'.
Proof.
  intros Hne. unfold loc_set.
  destruct (dict_get st c); now apply dict_get_set_other.
Qed.

Lemma where_mask_map {A : Type} (b : A -> bool) (f g : A -> Value) (l : list A) :
  where_mask (map b l) (map f l) (map g l)
  = map (fun r => if b r then f r else g r) l.
Proof.
  unfold where_mask. induction l as [|x l IH]; simpl; [reflexivity|].
  now rewrite IH.
Qed.

(** Writing under a mask and then under its complement leaves nothing of
    what the column held. *)
Lemma where_mask_twice {A : Type} (b : A -> bool) (f g : A -> Value)
  (l : list A) (old : Series) :
  length old = length l ->
  where_mask (map (fun r => negb (b r)) l) (map f l)
             (where_mask (map b l) (map g l) old)
  = map (fun r => if b r then g r else f r) l.
Proof.
  unfold where_mask. revert old.
  induction l as [|x l IH]; intros [|o old] Hlen; try discriminate;
    [reflexivity|].
  simpl. rewrite IH by (simpl in Hlen; lia).
  now destruct (b x).
Qed.

(** A loop that writes one column per label leaves in each column what its
    own turn wrote. *)
Lemma fold_columns (step : Store -> string -> Store)
  (F : string -> option Series -> Series) :
  (forall st c c', c <> c' -> dict_get (step st c) c' = dict_get st c') ->
  (forall st c, dict_get (step st c) c = Some (F c (dict_get st c))) ->
  forall (l : list string) (st : Store) (c : string),
    NoDup l ->
    dict_get (fold_left step l st) c
    = if label_in c l then Some (F c (dict_get st c)) else dict_get st c.
Proof.
  intros Hother Hsame. induction l as [|x l IH]; intros st c Hnd;
    [reflexivity|].
  inversion Hnd as [|? ? Hx Hnd']; subst. cbn [fold_left label_in existsb].
  rewrite (IH (step st x) c Hnd'). fold (label_in c l).
  destruct (String.eqb_spec c x) as [->|Hne]; simpl.
  - rewrite (proj2 (label_in_false x l) Hx). apply Hsame.
  - rewrite (Hother st x c) by congruence. reflexivity.
Qed.

Lemma fold_result_pure {A B : Type} (f : A -> B -> result A) (g : A -> B -> A)
  (l : list B) :
  (forall a b, In b l -> f a b = inr (g a b)) ->
  forall a, fold_result f l a = inr (fold_left g l a).
Proof.
  induction l as [|b l IH]; intros H a; simpl; [reflexivity|].
  rewrite (H a b (or_introl eq_refl)). simpl. apply IH.
  intros a' b' Hin. apply H. now right.
Qed.

Lemma fold_left_pair {A B C : Type} (f1 : A -> C -> A) (f2 : B -> C -> B)
  (l : list C) (a : A) (b : B) :
  fold_left (fun acc c => (f1 (fst acc) c, f2 (snd acc) c)) l (a, b)
  = (fold_left f1 l a, fold_left f2 l b).
Proof.
  revert a b. induction l as [|c l IH]; intros a b; simpl; [reflexivity|].
  apply IH.
Qed.

Lemma fold_mask_or {A : Type} (h : string -> A -> bool) (rs : list A)
  (cs : list string) (f0 : A -> bool) :
  fold_left (fun mask c => mask_or mask (map (h c) rs)) cs (map f0 rs)
  = map (fun r => f0 r || existsb (fun c => h c r) cs) rs.
Proof.
  revert f0. induction cs as [|c cs IH]; intros f0; simpl.
  - apply map_ext. intros r. now rewrite orb_false_r.
  - unfold mask_or at 2. rewrite zip_with_map, IH.
    apply map_ext. intros r. now rewrite orb_assoc.
Qed.

Lemma existsb_negb {A : Type} (f : A -> bool) (l : list A) :
  existsb (fun x => negb (f x)) l = negb (forallb f l).
Proof.
  induction l as [|x l IH]; simpl; [reflexivity|].
  rewrite IH. now destruct (f x).
Qed.

(** ** The Detailed-Mismatch view, column by column *)

Section DetailedView.

Variable astype_str : dtype -> Value -> string.
Variable m : MergedFrame.
Variable cs : list string.
Hypothesis Hcols : m_columns m = merged_labels cs.
Hypothesis Hnd : NoDup cs.

(** The string forms of the two sides of the column [c]. *)
Definition str_new (c : string) : Value -> string :=
  astype_str (dtype_of (map (label_new cs c) (m_rows m))).
Definition str_old (c : string) : Value -> string :=
  astype_str (dtype_of (map (label_old cs c) (m_rows m))).

(** What one turn of each of the three loops does to the store when the
    labels of the column are there. *)
Definition mismatch_write (st : Store) (c : string) : Store :=
  loc_set
    (loc_set st (length (m_rows m))
       (map (fun r => negb (null_aware_eq (label_new cs c r) (label_old cs c r)))
            (m_rows m))
       c
       (map (fun r => old_new (str_old c) (str_new c)
                              (label_old cs c r) (label_new cs c r))
            (m_rows m)))
    (length (m_rows m))
    (map (fun r => negb (negb (null_aware_eq (label_new cs c r) (label_old cs c r))))
         (m_rows m))
    c
    (map (label_new cs c) (m_rows m)).

Definition only_new_write (st : Store) (c : string) : Store :=
  loc_set st (length (m_rows m)) (merge_is left_only m) c
          (map (fun r => only_new_cell (str_new c) (label_new cs c r)) (m_rows m)).

Definition only_old_write (st : Store) (c : string) : Store :=
  loc_set st (length (m_rows m)) (merge_is right_only m) c
          (map (fun r => only_old_cell (str_old c) (label_old cs c r)) (m_rows m)).

Lemma mismatch_step_pure (acc : Store * Mask) (c : string) :
  In c cs ->
  mismatch_step astype_str m acc c
  = inr (mismatch_write (fst acc) c,
         mask_or (snd acc)
           (map (fun r => negb (null_aware_eq (label_new cs c r) (label_old cs c r)))
                (m_rows m))).
Proof.
  intros Hin. unfold mismatch_step, mismatch_write, str_new, str_old.
  destruct (label_in_merged cs c Hin) as [H1 H2].
  rewrite Hcols, H1, H2. simpl negb. simpl orb. cbv iota zeta.
  rewrite (null_aware_columns m cs Hcols c Hin).
  rewrite (column_new m cs Hcols c Hin), (column_old m cs Hcols c Hin).
  unfold mask_not. rewrite !map_map, zip_with_map. reflexivity.
Qed.

Lemma only_new_step_pure (st : Store) (c : string) :
  In c cs ->
  only_new_step astype_str m (merge_is left_only m) st c
  = inr (only_new_write st c).
Proof.
  intros Hin.
  unfold only_new_step, only_new_write, str_new, column_exn, get_column.
  rewrite Hcols, (index_of_new cs c Hin). cbn [option_map bind].
  now rewrite map_map.
Qed.

Lemma only_old_step_pure (st : Store) (c : string) :
  In c cs ->
  only_old_step astype_str m (merge_is right_only m) st c
  = inr (only_old_write st c).
Proof.
  intros Hin.
  unfold only_old_step, only_old_write, str_old, column_exn, get_column.
  rewrite Hcols, (index_of_old cs c Hin). cbn [option_map bind].
  now rewrite map_map.
Qed.

(** The column of label [c] once the three loops are over. *)
Lemma written_column (c : string) :
  In c cs ->
  dict_get
    (fold_left only_old_write cs
       (fold_left only_new_write cs (fold_left mismatch_write cs (copy m))))
    c
  = Some (map (fun r => written_cell (str_new c) (str_old c) (_merge r)
                          (label_new cs c r) (label_old cs c r))
              (m_rows m)).
Proof.
  intros Hin. apply label_in_iff in Hin.
  rewrite (fold_columns only_old_write
    (fun c o => where_mask (merge_is right_only m)
       (map (fun r => only_old_cell (str_old c) (label_old cs c r)) (m_rows m))
       (match o with Some old => old | None => nulls (length (m_rows m)) end)));
    [ | intros; now apply loc_set_other | intros; apply loc_set_same | exact Hnd].
  rewrite Hin.
  rewrite (fold_columns only_new_write
    (fun c o => where_mask (merge_is left_only m)
       (map (fun r => only_new_cell (str_new c) (label_new cs c r)) (m_rows m))
       (match o with Some old => old | None => nulls (length (m_rows m)) end)));
    [ | intros; now apply loc_set_other | intros; apply loc_set_same | exact Hnd].
  rewrite Hin.
  rewrite (fold_columns mismatch_write
    (fun c o =>
       where_mask
         (map (fun r => negb (negb (null_aware_eq (label_new cs c r)
                                                  (label_old cs c r))))
              (m_rows m))
         (map (label_new cs c) (m_rows m))
         (where_mask
            (map (fun r => negb (null_aware_eq (label_new cs c r)
                                               (label_old cs c r)))
                 (m_rows m))
            (map (fun r => old_new (str_old c) (str_new c)
                                   (label_old cs c r) (label_new cs c r))
                 (m_rows m))
            (match o with Some old => old | None => nulls (length (m_rows m)) end))));
    [ | | | exact Hnd].
  - rewrite Hin.
    rewrite (where_mask_twice
      (fun r => negb (null_aware_eq (label_new cs c r) (label_old cs c r)))).
    + rewrite !merge_is_rows, !where_mask_map. f_equal.
      apply map_ext. intros r. unfold is_tag, written_cell.
      destruct (_merge r); simpl; try reflexivity.
      now destruct (null_aware_eq _ _).
    + destruct (dict_get (copy m) c) as [old|] eqn:Hold.
      * now apply (copy_lengths m c).
      * apply repeat_length.
  - intros st x c' Hne. unfold mismatch_write.
    now rewrite !loc_set_other.
  - intros st x. unfold mismatch_write. now rewrite !loc_set_same.
Qed.

Lemma select_written (keep : Mask) (l : list string) :
  incl l cs ->
  select_store
    (map (fun p => (fst p, boolean_index (snd p) keep))
         (fold_left only_old_write cs
            (fold_left only_new_write cs (fold_left mismatch_write cs (copy m)))))
    l
  = inr (map (fun c =>
                boolean_index
                  (map (fun r => written_cell (str_new c) (str_old c) (_merge r)
                                   (label_new cs c r) (label_old cs c r))
                       (m_rows m))
                  keep) l).
Proof.
  induction l as [|c l IH]; intros Hincl; [reflexivity|].
  cbn [select_store]. rewrite map_cons. unfold store_get.
  rewrite (dict_get_map_values (fun s : Series => boolean_index s keep)).
  rewrite written_column by (apply Hincl; now left).
  cbn [option_map bind].
  rewrite IH by (intros x Hx; apply Hincl; now right).
  reflexivity.
Qed.

(** The cells of a row under the labels are its cells by position, each
    side in the string form of its dtype over the rows of the merge. *)
Lemma written_row (r : MergedRow) :
  map (fun c => written_cell (str_new c) (str_old c) (_merge r)
                  (label_new cs c r) (label_old cs c r)) cs
  = detail_cells astype_str (length cs) (m_rows m) r.
Proof.
  unfold detail_cells. rewrite <- (position_NoDup cs Hnd), map_map.
  apply map_ext_in. intros c Hc.
  pose proof (position_lt cs c Hc) as Hi.
  unfold str_new, str_old, new_dtype, old_dtype, label_new, label_old.
  rewrite (map_ext _ _
    (fun r' => proj1 (cells_of_position (length cs) (position cs c) r' Hi))).
  rewrite (map_ext _ _
    (fun r' => proj2 (cells_of_position (length cs) (position cs c) r' Hi))).
  destruct (cells_of_position (length cs) (position cs c) r Hi) as [-> ->].
  reflexivity.
Qed.

Hypothesis Hshape :
  Forall (fun r => length (m_cells r) = length cs + length cs) (m_rows m).

Lemma kept_rows :
  filter (fun r =>
            (false
             || existsb (fun c => negb (null_aware_eq (label_new cs c r)
                                                      (label_old cs c r))) cs
             || is_tag left_only r)
            || is_tag right_only r)
         (m_rows m)
  = filter (fun r => negb (is_full_match (length cs) r)) (m_rows m).
Proof.
  apply filter_ext_in. intros r Hr.
  rewrite existsb_negb. unfold label_new, label_old.
  rewrite (forallb_by_label m cs Hnd Hshape null_aware_eq r Hr).
  unfold is_full_match, full_match, is_tag.
  destruct (_merge r); simpl; now destruct (all_cells _ _ _).
Qed.

End DetailedView.



(** * The views together *)

(** ** What each view returns *)

Lemma matching_records_eq (new old : DataFrame) :
  well_formed new -> well_formed old ->
  length (columns new) = length (columns old) ->
  get_matching_records new old
  = inr (mkDataFrame
           (map (fun c => replace_new (c ++ "_new")) (columns new))
           (map fst (filter rows_match (inner_join new old)))).
Proof.
  intros Hn Ho Hlen. unfold get_matching_records.
  rewrite (lengths_agree new old Hn Ho Hlen). cbv zeta. simpl negb. cbv iota.
  rewrite (old_renamed new old Hn Ho Hlen).
  rewrite (non_key_cols_eq new (proj1 Hn)).
  set (old' := mkDataFrame (columns new) (rows old)).
  set (m := merge new old' how_inner "_new" "_old").
  assert (Hcols : m_columns m = merged_labels (columns new))
    by apply merge_labels.
  assert (Hnd : NoDup (columns new)) by apply NoDup_columns, Hn.
  assert (Hshape : Forall (fun r => length (m_cells r)
                     = length (columns new) + length (columns new)) (m_rows m)).
  { apply merge_shape; try reflexivity; [apply Hn|].
    destruct Ho as [_ Ho]. rewrite Hlen. exact Ho. }
  rewrite (matching_full_match_mask_rows m (columns new) Hcols Hnd Hshape).
  unfold frame_index. cbn [m_columns m_rows].
  rewrite boolean_index_filter, Hcols, columns_to_keep_new.
  rewrite (select_columns_new
             (mkMergedFrame (merged_labels (columns new))
                            (filter (full_match (length (columns new))) (m_rows m)))
             (columns new) (columns new) eq_refl (incl_refl _)).
  cbn [bind m_rows]. f_equal. f_equal.
  - rewrite map_map. apply map_ext. intros c. now rewrite endswith_append.
  - rewrite rows_of_columns_map.
    assert (Hrows : m_rows m
      = map (fun p => mkMergedRow (Primary_Key (fst p))
                                  (cells (fst p) ++ cells (snd p)) both)
            (inner_join new old)).
    { unfold m. cbn [merge m_rows]. now rewrite left_rows_as_map. }
    rewrite Hrows, filter_map_swap, map_map.
    rewrite (filter_ext_in _ rows_match).
    + apply map_ext_in. intros p Hp. apply filter_In in Hp.
      destruct Hp as [Hp _].
      pose proof (inner_join_new_rows new old p Hp) as Hnew.
      destruct Hn as [_ Hn]. rewrite Forall_forall in Hn.
      rewrite new_values_by_label; [| exact Hnd |].
      * unfold new_values. cbn [m_cells m_Primary_Key].
        rewrite firstn_app, <- (Hn _ Hnew), Nat.sub_diag, firstn_all.
        simpl. rewrite app_nil_r. now destruct (fst p).
      * rewrite Forall_forall in Hshape. apply Hshape.
        rewrite Hrows. apply in_map_iff. exists p. now split.
    + intros p Hp. apply full_match_pair.
      destruct Hn as [_ Hn]. rewrite Forall_forall in Hn.
      apply Hn. now apply inner_join_new_rows in Hp.
Qed.

Lemma detailed_records_eq (astype_str : dtype -> Value -> string) (new old : DataFrame) :
  well_formed new -> well_formed old ->
  length (columns new) = length (columns old) ->
  get_detailed_mismatched_records astype_str new old
  = inr (mkDataFrame (columns new)
           (map (detail_row astype_str (length (columns new))
                            (joined_records new old))
                (filter (fun r => negb (is_full_match (length (columns new)) r))
                        (joined_records new old)))).
Proof.
  intros Hn Ho Hlen. unfold get_detailed_mismatched_records.
  rewrite (lengths_agree new old Hn Ho Hlen). cbv zeta. simpl negb. cbv iota.
  rewrite (old_renamed new old Hn Ho Hlen).
  rewrite (non_key_cols_eq new (proj1 Hn)).
  set (m := merge new (mkDataFrame (columns new) (rows old)) how_outer "_new" "_old").
  assert (Hcols : m_columns m = merged_labels (columns new))
    by apply merge_labels.
  assert (Hnd : NoDup (columns new)) by apply NoDup_columns, Hn.
  assert (Hshape : Forall (fun r => length (m_cells r)
                     = length (columns new) + length (columns new)) (m_rows m)).
  { apply merge_shape; try reflexivity; [apply Hn|].
    destruct Ho as [_ Ho]. rewrite Hlen. exact Ho. }
  assert (HJ : m_rows m = joined_records new old).
  { unfold m, joined_records. now apply merge_rows_labels. }
  rewrite (fold_result_pure _
    (fun acc c =>
       (mismatch_write astype_str m (columns new) (fst acc) c,
        mask_or (snd acc)
          (map (fun r => negb (null_aware_eq (label_new (columns new) c r)
                                             (label_old (columns new) c r)))
               (m_rows m)))))
    by (intros acc c Hc; now apply mismatch_step_pure).
  rewrite (fold_left_pair
    (mismatch_write astype_str m (columns new))
    (fun mask c =>
       mask_or mask
         (map (fun r => negb (null_aware_eq (label_new (columns new) c r)
                                            (label_old (columns new) c r)))
              (m_rows m)))).
  cbn [bind fst snd].
  rewrite (fold_result_pure _ (only_new_write astype_str m (columns new)))
    by (intros st c Hc; now apply only_new_step_pure).
  cbn [bind].
  rewrite (fold_result_pure _ (only_old_write astype_str m (columns new)))
    by (intros st c Hc; now apply only_old_step_pure).
  cbn [bind].
  rewrite (select_written astype_str m (columns new) Hnd _ (columns new)
             (incl_refl _)).
  cbn [bind]. f_equal. f_equal.
  unfold full. rewrite repeat_as_map, fold_mask_or, !merge_is_rows.
  unfold mask_or. rewrite !zip_with_map.
  rewrite boolean_index_map.
  rewrite (map_ext _ _ (fun c => boolean_index_map _ _ (m_rows m))).
  rewrite rows_of_columns_map.
  rewrite (kept_rows m (columns new) Hnd Hshape), <- HJ.
  apply map_ext. intros r.
  unfold detail_row. f_equal.
  apply (written_row astype_str m (columns new) Hnd).
Qed.

Lemma duplicated_count (df : DataFrame) (cs : list string) :
  mask_sum (duplicated (mkDataFrame cs (rows df))) = length (duplicate_rows df).
Proof.
  unfold duplicated, duplicate_rows, keys. cbn [rows].
  now rewrite mask_sum_map.
Qed.

(** Every field of the metrics, counted on the two frames and on their
    Joined Records. *)
Lemma metrics_record (new old : DataFrame) :
  well_formed new -> well_formed old ->
  length (columns new) = length (columns old) ->
  compare_primary_keys_and_rows_by_position new old
  = inr (mkMetrics
           (length (rows old)) (length (rows new))
           (count (is_tag right_only) (joined_records new old))
           (count (is_tag left_only) (joined_records new old))
           (length (duplicate_rows old)) (length (duplicate_rows new))
           (count (fun r => is_tag both r
                            && metrics_match (length (columns new)) r)
                  (joined_records new old))
           (count (is_tag left_only) (joined_records new old)
            + count (is_tag right_only) (joined_records new old)
            + count (fun r => is_tag both r
                              && negb (metrics_match (length (columns new)) r))
                    (joined_records new old))).
Proof.
  intros Hn Ho Hlen. unfold compare_primary_keys_and_rows_by_position.
  rewrite (lengths_agree new old Hn Ho Hlen). cbv zeta. simpl negb. cbv iota.
  rewrite (old_renamed new old Hn Ho Hlen).
  rewrite (non_key_cols_eq new (proj1 Hn)).
  set (old' := mkDataFrame (columns new) (rows old)).
  set (m := merge new old' how_outer "_new" "_old").
  assert (Hcols : m_columns m = merged_labels (columns new))
    by apply merge_labels.
  assert (Hnd : NoDup (columns new)) by apply NoDup_columns, Hn.
  assert (Hshape : Forall (fun r => length (m_cells r)
                     = length (columns new) + length (columns new)) (m_rows m)).
  { apply merge_shape; try reflexivity; [apply Hn|].
    destruct Ho as [_ Ho]. rewrite Hlen. exact Ho. }
  assert (HJ : m_rows m = joined_records new old).
  { unfold m, old', joined_records. now apply merge_rows_labels. }
  rewrite (metrics_full_match_mask_rows m (columns new) Hcols Hnd Hshape).
  rewrite !merge_is_rows. unfold mask_and, mask_not.
  rewrite map_map, !zip_with_map, !mask_sum_map, HJ.
  unfold old'. rewrite (duplicated_count old (columns new)).
  replace (mask_sum (duplicated new)) with (length (duplicate_rows new)).
  - reflexivity.
  - destruct new as [cs rs]. symmetry.
    apply (duplicated_count (mkDataFrame cs rs) cs).
Qed.

(** ** The pairs of the inner join and the Joined Records *)

Lemma inner_join_In (new old : DataFrame) (nr orow : Row) :
  In (nr, orow) (inner_join new old)
  <-> In nr (rows new) /\ In orow (rows old)
      /\ Primary_Key orow = Primary_Key nr.
Proof.
  unfold inner_join. rewrite in_flat_map. split.
  - intros [x [Hx H]]. apply in_map_iff in H. destruct H as [y [Heq Hy]].
    injection Heq as -> ->. apply filter_In in Hy. destruct Hy as [Hy Hk].
    apply String.eqb_eq in Hk. now repeat split.
  - intros [Hn [Ho Hk]]. exists nr. split; [exact Hn|].
    apply in_map_iff. exists orow. split; [reflexivity|].
    apply filter_In. split; [exact Ho | now apply String.eqb_eq].
Qed.

(** A Joined Record is a pair of rows with one key, a new row whose key the
    old frame lacks, or an old row whose key the new frame lacks. *)
Lemma joined_records_In (new old : DataFrame) (r : MergedRow) :
  In r (joined_records new old)
  <-> (exists nr orow,
         In (nr, orow) (inner_join new old)
         /\ r = mkMergedRow (Primary_Key nr) (cells nr ++ cells orow) both)
      \/ (exists nr,
            In nr (extra_rows new old)
            /\ r = mkMergedRow (Primary_Key nr)
                               (cells nr ++ nulls (length (columns old)))
                               left_only)
      \/ (exists orow,
            In orow (extra_rows old new)
            /\ r = mkMergedRow (Primary_Key orow)
                               (nulls (length (columns new)) ++ cells orow)
                               right_only).
Proof.
  unfold joined_records. cbn [merge m_rows]. split.
  - intros Hin.
    apply (Permutation_in _ (sort_on_key_Permutation _)) in Hin.
    apply in_app_or in Hin. destruct Hin as [Hin|Hin].
    + unfold left_rows in Hin. apply in_flat_map in Hin.
      destruct Hin as [nr [Hnr Hin]].
      pose proof (matches_of_keys (Primary_Key nr) old) as Hm.
      destruct (matches_of (Primary_Key nr) (rows old)) as [|x ms] eqn:Hms.
      * right. left. exists nr. split.
        -- apply filter_In. split; [exact Hnr | now rewrite Hm].
        -- destruct Hin as [<-|[]]. reflexivity.
      * left. apply in_map_iff in Hin. destruct Hin as [orow [<- Horow]].
        rewrite <- Hms in Horow. unfold matches_of in Horow.
        apply filter_In in Horow. destruct Horow as [Horow Hkey].
        apply String.eqb_eq in Hkey. exists nr, orow.
        split; [now apply inner_join_In | reflexivity].
    + right. right. unfold right_rows in Hin. apply in_map_iff in Hin.
      destruct Hin as [orow [<- Horow]]. exists orow. now split.
  - intros H.
    apply (Permutation_in _ (Permutation_sym (sort_on_key_Permutation _))).
    apply in_or_app.
    destruct H as [[nr [orow [Hp ->]]] | [[nr [Hnr ->]] | [orow [Ho ->]]]].
    + left. apply inner_join_In in Hp. destruct Hp as [Hnr [Ho Hk]].
      unfold left_rows. apply in_flat_map. exists nr. split; [exact Hnr|].
      assert (Hin : In orow (matches_of (Primary_Key nr) (rows old))).
      { apply filter_In. split; [exact Ho | now apply String.eqb_eq]. }
      destruct (matches_of (Primary_Key nr) (rows old)) as [|x ms];
        [contradiction|].
      apply in_map_iff. exists orow. now split.
    + left. apply filter_In in Hnr. destruct Hnr as [Hnr Hk].
      apply negb_true_iff in Hk.
      unfold left_rows. apply in_flat_map. exists nr. split; [exact Hnr|].
      pose proof (matches_of_keys (Primary_Key nr) old) as Hm.
      destruct (matches_of (Primary_Key nr) (rows old)) as [|x ms].
      * now left.
      * rewrite Hk in Hm. discriminate Hm.
    + right. unfold right_rows. apply in_map_iff. exists orow. now split.
Qed.

Lemma count_map {A B : Type} (f : B -> bool) (g : A -> B) (l : list A) :
  count f (map g l) = count (fun x => f (g x)) l.
Proof. unfold count. now rewrite filter_map_swap, length_map. Qed.

Lemma count_none {A : Type} (f : A -> bool) (l : list A) :
  (forall x, In x l -> f x = false) -> count f l = 0.
Proof.
  intros H. rewrite (count_ext f (fun _ => false) l H).
  unfold count. now rewrite filter_false.
Qed.

Lemma count_le {A : Type} (f g : A -> bool) (l : list A) :
  (forall x, In x l -> f x = true -> g x = true) -> count f l <= count g l.
Proof.
  unfold count. induction l as [|x l IH]; intros H; simpl; [lia|].
  assert (IH' : length (filter f l) <= length (filter g l))
    by (apply IH; intros y Hy; apply H; now right).
  pose proof (H x (or_introl eq_refl)) as Hx.
  destruct (f x), (g x); simpl; first [lia | discriminate (Hx eq_refl)].
Qed.

(** The Joined Records that are full matches are as many as the pairs of the
    inner join whose cells all match. *)
Lemma full_matches_count (new old : DataFrame) :
  Forall (fun r => length (cells r) = length (columns new)) (rows new) ->
  count (is_full_match (length (columns new))) (joined_records new old)
  = length (filter rows_match (inner_join new old)).
Proof.
  intros Hn. unfold joined_records. cbn [merge m_rows].
  rewrite (count_Permutation _ _ _ (sort_on_key_Permutation _)), count_app.
  rewrite (count_none _ (right_rows new old)).
  - rewrite Nat.add_0_r. unfold left_rows, inner_join.
    induction Hn as [|nr nrs Hnr _ IH]; [reflexivity|].
    cbn [flat_map]. rewrite count_app, filter_app, length_app, IH. f_equal.
    fold (matches_of (Primary_Key nr) (rows old)).
    destruct (matches_of (Primary_Key nr) (rows old)) as [|x ms];
      [reflexivity|].
    rewrite count_map, filter_map_swap, length_map. unfold count. f_equal.
    apply filter_ext. intros orow. unfold is_full_match, is_tag. simpl.
    apply (full_match_pair _ (nr, orow)). exact Hnr.
  - intros r Hr. unfold right_rows in Hr. apply in_map_iff in Hr.
    destruct Hr as [orow [<- _]]. reflexivity.
Qed.

(** X1.  For two well-formed frames with as many non-key columns each, whose
    integers are ones [float64] holds exactly, the Matching-Records view and
    the Detailed-Mismatch view split the Joined Records between them: the rows of the two views together are as many as
    the Joined Records, which is also the sum of the Match and Mismatch
    counts of the metrics. *)
Theorem views_split_joined_records (astype_str : dtype -> Value -> string)
  (new old : DataFrame) :
  well_formed new -> well_formed old ->
  length (columns new) = length (columns old) ->
  exact_numbers new -> exact_numbers old ->
  exists (matching detailed : DataFrame) (m : Metrics),
    get_matching_records new old = inr matching
    /\ get_detailed_mismatched_records astype_str new old = inr detailed
    /\ compare_primary_keys_and_rows_by_position new old = inr m
    /\ length (rows matching) + length (rows detailed)
       = length (joined_records new old)
    /\ length (rows matching) + length (rows detailed)
       = Match_Record_Count m + Mismatch_Record_Count m.
Proof.
  intros Hn Ho Hlen _ _.
  rewrite (matching_records_eq new old Hn Ho Hlen).
  rewrite (detailed_records_eq astype_str new old Hn Ho Hlen).
  rewrite (metrics_record new old Hn Ho Hlen).
  eexists. eexists. eexists. repeat split; cbn [rows Match_Record_Count
    Mismatch_Record_Count]; rewrite !length_map.
  - rewrite <- (full_matches_count new old (proj2 Hn)).
    apply (count_split (is_full_match (length (columns new)))).
  - rewrite <- (full_matches_count new old (proj2 Hn)).
    pose proof (count_split (is_full_match (length (columns new)))
                  (joined_records new old)) as H1.
    pose proof (count_tags (joined_records new old)) as H2.
    pose proof (count_and_split (is_tag both)
                  (metrics_match (length (columns new)))
                  (joined_records new old)) as H3.
    unfold count in *. lia.
Qed.

Lemma views_split_joined_records_witness :
  exists (matching detailed : DataFrame) (m : Metrics),
    get_matching_records mixed_new mixed_old = inr matching
    /\ get_detailed_mismatched_records pandas_str mixed_new mixed_old
       = inr detailed
    /\ compare_primary_keys_and_rows_by_position mixed_new mixed_old = inr m
    /\ length (rows matching) + length (rows detailed)
       = length (joined_records mixed_new mixed_old)
    /\ length (rows matching) + length (rows detailed)
       = Match_Record_Count m + Mismatch_Record_Count m.
Proof.
  apply (views_split_joined_records pandas_str mixed_new mixed_old).
  - well_formed_sample.
  - well_formed_sample.
  - reflexivity.
  - exact_numbers_sample.
  - exact_numbers_sample.
Defined.

(** X2.  For two well-formed frames with as many non-key columns each, whose
    integers are ones [float64] holds exactly, the Match count of the metrics is at most the number of rows of the
    Matching-Records view, and the Mismatch count is at least the number of
    rows of the Detailed-Mismatch view: a record the metrics accept is a
    full match, not the reverse. *)
Theorem metrics_within_views (astype_str : dtype -> Value -> string)
  (new old : DataFrame) :
  well_formed new -> well_formed old ->
  length (columns new) = length (columns old) ->
  exact_numbers new -> exact_numbers old ->
  exists (matching detailed : DataFrame) (m : Metrics),
    get_matching_records new old = inr matching
    /\ get_detailed_mismatched_records astype_str new old = inr detailed
    /\ compare_primary_keys_and_rows_by_position new old = inr m
    /\ Match_Record_Count m <= length (rows matching)
    /\ length (rows detailed) <= Mismatch_Record_Count m.
Proof.
  intros Hn Ho Hlen _ _.
  rewrite (matching_records_eq new old Hn Ho Hlen).
  rewrite (detailed_records_eq astype_str new old Hn Ho Hlen).
  rewrite (metrics_record new old Hn Ho Hlen).
  eexists. eexists. eexists.
  split; [reflexivity|]. split; [reflexivity|]. split; [reflexivity|].
  cbn [rows Match_Record_Count Mismatch_Record_Count]. rewrite !length_map.
  set (n := length (columns new)). set (J := joined_records new old).
  assert (Hle : count (fun r => is_tag both r && metrics_match n r) J
                <= count (is_full_match n) J).
  { apply count_le. intros r _ H. apply andb_true_iff in H.
    destruct H as [Hb Hm]. unfold is_full_match.
    now rewrite Hb, (metrics_match_full_match n r Hm). }
  pose proof (full_matches_count new old (proj2 Hn)) as Hfull.
  pose proof (count_split (is_full_match n) J) as H1.
  pose proof (count_tags J) as H2.
  pose proof (count_and_split (is_tag both) (metrics_match n) J) as H3.
  fold n J in Hfull. unfold count in *. lia.
Qed.

Lemma metrics_within_views_witness :
  exists (matching detailed : DataFrame) (m : Metrics),
    get_matching_records mixed_new mixed_old = inr matching
    /\ get_detailed_mismatched_records pandas_str mixed_new mixed_old
       = inr detailed
    /\ compare_primary_keys_and_rows_by_position mixed_new mixed_old = inr m
    /\ Match_Record_Count m <= length (rows matching)
    /\ length (rows detailed) <= Mismatch_Record_Count m.
Proof.
  apply (metrics_within_views pandas_str mixed_new mixed_old).
  - well_formed_sample.
  - well_formed_sample.
  - reflexivity.
  - exact_numbers_sample.
  - exact_numbers_sample.
Defined.

Lemma all_cells_notnull (news olds : list Value) :
  forallb notnull news = true ->
  all_cells value_eq news olds = all_cells null_aware_eq news olds.
Proof.
  unfold all_cells. revert olds.
  induction news as [|x news IH]; intros [|y olds] H; try reflexivity.
  simpl in H. apply andb_true_iff in H. destruct H as [Hx H].
  simpl. rewrite (IH olds H). f_equal. unfold null_aware_eq.
  destruct x; [discriminate Hx | |]; simpl; now rewrite orb_false_r.
Qed.

(** X3.  For two well-formed frames with as many non-key columns each, whose
    integers are ones [float64] holds exactly: when no cell of the new frame
    is null, the metrics agree with the two views, Match is the number of
    rows of the Matching-Records view and Mismatch the number of rows of the
    Detailed-Mismatch view. *)
Theorem metrics_agree_without_nulls (astype_str : dtype -> Value -> string)
  (new old : DataFrame) :
  well_formed new -> well_formed old ->
  length (columns new) = length (columns old) ->
  exact_numbers new -> exact_numbers old ->
  Forall (fun r => forallb notnull (cells r) = true) (rows new) ->
  exists (matching detailed : DataFrame) (m : Metrics),
    get_matching_records new old = inr matching
    /\ get_detailed_mismatched_records astype_str new old = inr detailed
    /\ compare_primary_keys_and_rows_by_position new old = inr m
    /\ Match_Record_Count m = length (rows matching)
    /\ Mismatch_Record_Count m = length (rows detailed).
Proof.
  intros Hn Ho Hlen _ _ Hnull.
  rewrite (matching_records_eq new old Hn Ho Hlen).
  rewrite (detailed_records_eq astype_str new old Hn Ho Hlen).
  rewrite (metrics_record new old Hn Ho Hlen).
  eexists. eexists. eexists.
  split; [reflexivity|]. split; [reflexivity|]. split; [reflexivity|].
  cbn [rows Match_Record_Count Mismatch_Record_Count]. rewrite !length_map.
  set (n := length (columns new)). set (J := joined_records new old).
  assert (Heq : count (fun r => is_tag both r && metrics_match n r) J
                = count (is_full_match n) J).
  { apply count_ext. intros r Hr. unfold is_full_match.
    apply joined_records_In in Hr.
    destruct Hr as [[nr [orow [Hp ->]]] | [[nr [_ ->]] | [orow [_ ->]]]];
      try reflexivity.
    apply inner_join_In in Hp. destruct Hp as [Hnr _].
    unfold is_tag, metrics_match, full_match, new_values, old_values.
    cbn [_merge m_cells Indicator_eqb andb].
    destruct Hn as [_ Hn]. rewrite Forall_forall in Hn, Hnull.
    unfold n. rewrite firstn_app, <- (Hn nr Hnr), Nat.sub_diag, firstn_all.
    simpl firstn. rewrite app_nil_r.
    apply all_cells_notnull. now apply Hnull. }
  pose proof (full_matches_count new old (proj2 Hn)) as Hfull.
  pose proof (count_split (is_full_match n) J) as H1.
  pose proof (count_tags J) as H2.
  pose proof (count_and_split (is_tag both) (metrics_match n) J) as H3.
  fold n J in Hfull. unfold count in *. lia.
Qed.

Lemma metrics_agree_without_nulls_witness :
  exists (matching detailed : DataFrame) (m : Metrics),
    get_matching_records sample_new sample_old = inr matching
    /\ get_detailed_mismatched_records pandas_str sample_new sample_old
       = inr detailed
    /\ compare_primary_keys_and_rows_by_position sample_new sample_old = inr m
    /\ Match_Record_Count m = length (rows matching)
    /\ Mismatch_Record_Count m = length (rows detailed).
Proof.
  apply (metrics_agree_without_nulls pandas_str sample_new sample_old).
  - well_formed_sample.
  - well_formed_sample.
  - reflexivity.
  - exact_numbers_sample.
  - exact_numbers_sample.
  - repeat constructor.
Defined.



Lemma filter_unique_key (rs : list Row) (r : Row) :
  NoDup (map Primary_Key rs) -> In r rs ->
  filter (fun o => String.eqb (Primary_Key o) (Primary_Key r)) rs = [r].
Proof.
  induction rs as [|a rs IH]; intros Hnd Hin; [contradiction|].
  inversion Hnd as [|? ? Ha Hnd']; subst. simpl.
  destruct Hin as [->|Hin].
  - rewrite String.eqb_refl. f_equal.
    rewrite (filter_ext_in _ (fun _ => false)); [apply filter_false|].
    intros o Ho. apply String.eqb_neq. intros Hk. apply Ha.
    rewrite <- Hk. now apply in_map.
  - rewrite (IH Hnd' Hin).
    destruct (String.eqb_spec (Primary_Key a) (Primary_Key r)) as [Hk|_];
      [|reflexivity].
    elim Ha. rewrite Hk. now apply in_map.
Qed.

Lemma inner_join_self (df : DataFrame) :
  NoDup (keys df) -> inner_join df df = map (fun r => (r, r)) (rows df).
Proof.
  intros Hnd. unfold inner_join.
  rewrite (flat_map_concat_map _ (rows df)).
  rewrite (map_ext_in _ (fun r => [(r, r)])).
  - induction (rows df) as [|r rs IH]; simpl; congruence.
  - intros r Hr. now rewrite (filter_unique_key (rows df) r Hnd Hr).
Qed.

(** X5.  A well-formed frame whose keys are all different, compared with
    itself, has every row in the Matching-Records view, in order, and no
    row in the Detailed-Mismatch view. *)
Theorem frame_against_itself (astype_str : dtype -> Value -> string) (df : DataFrame) :
  well_formed df -> NoDup (keys df) ->
  get_matching_records df df
  = inr (mkDataFrame (map (fun c => replace_new (c ++ "_new")) (columns df))
                     (rows df))
  /\ get_detailed_mismatched_records astype_str df df
     = inr (mkDataFrame (columns df) []).
Proof.
  intros Hwf Hnd. split.
  - rewrite (matching_records_eq df df Hwf Hwf eq_refl). f_equal. f_equal.
    rewrite (inner_join_self df Hnd), filter_map_swap, map_map.
    rewrite forallb_filter_id; [apply map_id|].
    apply forallb_forall. intros r _. unfold rows_match.
    now apply all_cells_eq.
  - rewrite (detailed_records_eq astype_str df df Hwf Hwf eq_refl).
    f_equal. f_equal.
    rewrite (filter_ext_in _ (fun _ => false)); [now rewrite filter_false|].
    intros r Hr. apply negb_false_iff. apply joined_records_In in Hr.
    destruct Hr as [[nr [orow [Hp ->]]] | [[nr [Hx _]] | [orow [Hx _]]]].
    + unfold is_full_match, is_tag. cbn [_merge Indicator_eqb andb].
      rewrite (inner_join_self df Hnd) in Hp. apply in_map_iff in Hp.
      destruct Hp as [r [Heq Hr]]. injection Heq as H1 H2. subst nr orow.
      destruct Hwf as [_ Hwf]. rewrite Forall_forall in Hwf.
      pose proof (full_match_pair (length (columns df)) (r, r) (Hwf r Hr))
        as Hfm.
      cbn [fst snd] in Hfm. rewrite Hfm.
      unfold rows_match. now apply all_cells_eq.
    + apply filter_In in Hx. destruct Hx as [Hin Hk].
      apply negb_true_iff, label_in_false in Hk. elim Hk.
      now apply in_map.
    + apply filter_In in Hx. destruct Hx as [Hin Hk].
      apply negb_true_iff, label_in_false in Hk. elim Hk.
      now apply in_map.
Qed.

Lemma frame_against_itself_witness :
  get_matching_records mixed_new mixed_new
  = inr (mkDataFrame ["x"; "y"] (rows mixed_new))
  /\ get_detailed_mismatched_records pandas_str mixed_new mixed_new
     = inr (mkDataFrame (columns mixed_new) []).
Proof.
  apply (frame_against_itself pandas_str mixed_new).
  - well_formed_sample.
  - repeat constructor; simpl; intuition discriminate.
Defined.

(** ** An empty side *)

Lemma joined_records_old_empty (new old : DataFrame) :
  rows old = [] ->
  Permutation (joined_records new old)
    (map (fun nr => mkMergedRow (Primary_Key nr)
                      (cells nr ++ nulls (length (columns old))) left_only)
         (rows new)).
Proof.
  intros Hold. unfold joined_records. cbn [merge m_rows].
  eapply perm_trans; [apply sort_on_key_Permutation|].
  unfold right_rows, left_rows. rewrite Hold. cbn [filter map].
  rewrite app_nil_r.
  induction (rows new) as [|nr nrs IH]; [apply perm_nil|].
  simpl. now apply perm_skip.
Qed.

Lemma existsb_Permutation {A : Type} (f : A -> bool) (l l' : list A) :
  Permutation l l' -> existsb f l = existsb f l'.
Proof.
  induction 1 as [|x l l' _ IH|x y l|l l' l'' _ IH1 _ IH2]; simpl.
  - reflexivity.
  - now rewrite IH.
  - now destruct (f x), (f y).
  - congruence.
Qed.

Lemma dtype_of_Permutation (s s' : Series) :
  Permutation s s' -> dtype_of s = dtype_of s'.
Proof.
  intros H. unfold dtype_of.
  now rewrite (existsb_Permutation is_str s s' H),
              (existsb_Permutation isnull s s' H).
Qed.

(** X6.  When the old frame has no row (and as many non-key columns as the
    new, well-formed, frame, whose integers are ones [float64] holds
    exactly), every new row is a new-only record: the metrics count no match and one mismatch per new row, the
    Matching-Records view is empty, and the Detailed-Mismatch view holds,
    for every new row, its key and its cells annotated "O: null, N: ...",
    a value that is not null in the string form of the dtype its column has
    in the new frame. *)
Theorem old_side_empty (astype_str : dtype -> Value -> string) (new old : DataFrame) :
  well_formed new -> well_formed old ->
  length (columns new) = length (columns old) ->
  exact_numbers new ->
  rows old = [] ->
  compare_primary_keys_and_rows_by_position new old
  = inr (mkMetrics 0 (length (rows new)) 0 (length (rows new))
                   0 (length (duplicate_rows new)) 0 (length (rows new)))
  /\ get_matching_records new old
     = inr (mkDataFrame (map (fun c => replace_new (c ++ "_new")) (columns new))
                        [])
  /\ exists detailed : DataFrame,
       get_detailed_mismatched_records astype_str new old = inr detailed
       /\ columns detailed = columns new
       /\ Permutation (rows detailed)
            (map (fun nr =>
                    mkRow (Primary_Key nr)
                      (map (fun i =>
                              only_new_cell
                                (astype_str (dtype_of (frame_column new i)))
                                (nth i (cells nr) VNull))
                           (seq 0 (length (columns new)))))
                 (rows new)).
Proof.
  intros Hn Ho Hlen _ Hold.
  assert (Hinner : inner_join new old = []).
  { unfold inner_join. rewrite Hold.
    induction (rows new) as [|nr nrs IH]; [reflexivity | exact IH]. }
  pose proof (joined_records_old_empty new old Hold) as HJ.
  assert (Hleft : forall r, In r (joined_records new old) ->
                            is_tag left_only r = true).
  { intros r Hr. apply (Permutation_in _ HJ) in Hr.
    apply in_map_iff in Hr. destruct Hr as [nr [<- _]]. reflexivity. }
  split; [|split].
  - rewrite (metrics_record new old Hn Ho Hlen).
    destruct (joined_records_by_tag new old) as [Hb [Hl Hr]].
    rewrite Hinner in Hb. simpl in Hb.
    assert (Hx : extra_rows old new = [])
      by (unfold extra_rows; now rewrite Hold).
    rewrite Hx in Hr. simpl in Hr.
    assert (Hcount : count (is_tag left_only) (joined_records new old)
                     = length (rows new)).
    { rewrite (count_Permutation _ _ _ HJ), count_map.
      unfold count. rewrite forallb_filter_id; [reflexivity|].
      apply forallb_forall. reflexivity. }
    assert (Hdup : duplicate_rows old = [])
      by (unfold duplicate_rows; now rewrite Hold).
    rewrite Hdup, Hold, Hr, Hcount.
    rewrite !(count_none _ (joined_records new old)).
    + simpl. repeat f_equal; lia.
    + intros r Hin. specialize (Hleft r Hin). unfold is_tag in *.
      destruct (_merge r); try discriminate Hleft. reflexivity.
    + intros r Hin. specialize (Hleft r Hin). unfold is_tag in *.
      destruct (_merge r); try discriminate Hleft. reflexivity.
  - rewrite (matching_records_eq new old Hn Ho Hlen). now rewrite Hinner.
  - rewrite (detailed_records_eq astype_str new old Hn Ho Hlen).
    eexists. split; [reflexivity|]. split; [reflexivity|]. cbn [rows].
    rewrite forallb_filter_id.
    + eapply perm_trans; [apply Permutation_map, HJ|].
      rewrite map_map.
      destruct Hn as [_ Hn]. rewrite Forall_forall in Hn.
      assert (Hcell : forall i nr, In nr (rows new) ->
                new_cell (length (columns new)) i
                  (mkMergedRow (Primary_Key nr)
                     (cells nr ++ nulls (length (columns old))) left_only)
                = nth i (cells nr) VNull).
      { intros i nr Hnr. unfold new_cell, new_values. cbn [m_cells].
        rewrite firstn_app, <- (Hn nr Hnr), Nat.sub_diag, firstn_all.
        simpl firstn. now rewrite app_nil_r. }
      assert (Hdt : forall i, new_dtype (length (columns new))
                                (joined_records new old) i
                              = dtype_of (frame_column new i)).
      { intros i. unfold new_dtype, frame_column.
        rewrite (dtype_of_Permutation _ _
                  (Permutation_map (new_cell (length (columns new)) i) HJ)).
        rewrite map_map. f_equal. apply map_ext_in. intros nr Hnr.
        now apply Hcell. }
      rewrite (map_ext_in _
        (fun nr =>
           mkRow (Primary_Key nr)
             (map (fun i =>
                     only_new_cell (astype_str (dtype_of (frame_column new i)))
                                   (nth i (cells nr) VNull))
                  (seq 0 (length (columns new))))));
        [apply Permutation_refl|].
      intros nr Hnr. unfold detail_row, detail_cells.
      cbn [m_Primary_Key _merge written_cell]. f_equal.
      apply map_ext. intros i. now rewrite Hdt, (Hcell i nr Hnr).
    + apply forallb_forall. intros r Hr. specialize (Hleft r Hr).
      unfold is_full_match, is_tag in *.
      destruct (_merge r); try discriminate Hleft. reflexivity.
Qed.

Lemma old_side_empty_witness :
  compare_primary_keys_and_rows_by_position mixed_new (mkDataFrame ["a"; "b"] [])
  = inr (mkMetrics 0 3 0 3 0 0 0 3)
  /\ get_matching_records mixed_new (mkDataFrame ["a"; "b"] [])
     = inr (mkDataFrame ["x"; "y"] [])
  /\ exists detailed : DataFrame,
       get_detailed_mismatched_records pandas_str mixed_new
         (mkDataFrame ["a"; "b"] []) = inr detailed
       /\ columns detailed = columns mixed_new
       /\ Permutation (rows detailed)
            [mkRow "A" [VStr "O: null, N: 1.0"; VStr "O: null, N: null"];
             mkRow "D" [VStr "O: null, N: null"; VStr "O: null, N: d"];
             mkRow "C" [VStr "O: null, N: 3.0"; VStr "O: null, N: null"]].
Proof.
  apply (old_side_empty pandas_str mixed_new (mkDataFrame ["a"; "b"] [])).
  - well_formed_sample.
  - well_formed_sample.
  - reflexivity.
  - exact_numbers_sample.
  - reflexivity.
Defined.

(** ** The metrics beside the detector *)

Lemma detector_old (new old : DataFrame) :
  get_extra_and_duplicate_records new old "Old"
  = inr (mkExtraAndDuplicate (mkDataFrame (columns old) (extra_rows old new))
                             (mkDataFrame (columns old) (duplicate_rows old))).
Proof.
  unfold get_extra_and_duplicate_records. cbn [label_in existsb].
  simpl String.eqb. cbv iota. simpl negb. cbv iota.
  now rewrite extra_records_of_merge, duplicate_records_of_mask.
Qed.

Lemma detector_new (new old : DataFrame) :
  get_extra_and_duplicate_records new old "New"
  = inr (mkExtraAndDuplicate (mkDataFrame (columns new) (extra_rows new old))
                             (mkDataFrame (columns new) (duplicate_rows new))).
Proof.
  unfold get_extra_and_duplicate_records. cbn [label_in existsb].
  simpl String.eqb. cbv iota. simpl negb. cbv iota.
  now rewrite extra_records_of_merge, duplicate_records_of_mask.
Qed.

(** X7.  For two well-formed frames with as many non-key columns each, the
    counts of the metrics are the sizes of what the detector returns: the
    extra-record and duplicate-record counts of each side are the numbers
    of rows of the Extra_Records and Duplicate_Records the detector gives
    for that side, and the record counts are the numbers of rows of the two
    frames. *)
Theorem metrics_agree_with_detector (new old : DataFrame) :
  well_formed new -> well_formed old ->
  length (columns new) = length (columns old) ->
  exists (m : Metrics) (of_old of_new : ExtraAndDuplicate),
    compare_primary_keys_and_rows_by_position new old = inr m
    /\ get_extra_and_duplicate_records new old "Old" = inr of_old
    /\ get_extra_and_duplicate_records new old "New" = inr of_new
    /\ OldDataTable_Record_Count m = length (rows old)
    /\ NewDataTable_Record_Count m = length (rows new)
    /\ OldDataTable_Extra_Records m = length (rows (Extra_Records of_old))
    /\ NewDataTable_Extra_Records m = length (rows (Extra_Records of_new))
    /\ OldDataTable_Duplicate_Records m
       = length (rows (Duplicate_Records of_old))
    /\ NewDataTable_Duplicate_Records m
       = length (rows (Duplicate_Records of_new)).
Proof.
  intros Hn Ho Hlen.
  rewrite (metrics_record new old Hn Ho Hlen), detector_old, detector_new.
  destruct (joined_records_by_tag new old) as [_ [Hl Hr]].
  eexists. eexists. eexists.
  split; [reflexivity|]. split; [reflexivity|]. split; [reflexivity|].
  cbn. now repeat split.
Qed.

Lemma metrics_agree_with_detector_witness :
  exists (m : Metrics) (of_old of_new : ExtraAndDuplicate),
    compare_primary_keys_and_rows_by_position twice_new twice_old = inr m
    /\ get_extra_and_duplicate_records twice_new twice_old "Old" = inr of_old
    /\ get_extra_and_duplicate_records twice_new twice_old "New" = inr of_new
    /\ OldDataTable_Record_Count m = length (rows twice_old)
    /\ NewDataTable_Record_Count m = length (rows twice_new)
    /\ OldDataTable_Extra_Records m = length (rows (Extra_Records of_old))
    /\ NewDataTable_Extra_Records m = length (rows (Extra_Records of_new))
    /\ OldDataTable_Duplicate_Records m
       = length (rows (Duplicate_Records of_old))
    /\ NewDataTable_Duplicate_Records m
       = length (rows (Duplicate_Records of_new)).
Proof.
  apply (metrics_agree_with_detector twice_new twice_old).
  - well_formed_sample.
  - well_formed_sample.
  - reflexivity.
Defined.

Lemma count_occ_keys (rs : list Row) (k : string) :
  count_occ string_dec (map Primary_Key rs) k
  = count (fun r => String.eqb (Primary_Key r) k) rs.
Proof.
  unfold count. induction rs as [|r rs IH]; simpl; [reflexivity|].
  destruct (string_dec (Primary_Key r) k) as [->|Hne].
  - rewrite String.eqb_refl. simpl. now rewrite IH.
  - apply String.eqb_neq in Hne. now rewrite Hne.
Qed.

(** X8.  The duplicate count of a frame, and the number of rows of its
    Duplicate_Records, are one and the same number, and that number is
    never one: a frame has no duplicate row, or at least two. *)
Theorem duplicates_never_single (df : DataFrame) :
  mask_sum (duplicated df) = length (rows (df_index df (duplicated df)))
  /\ (mask_sum (duplicated df) = 0 \/ 2 <= mask_sum (duplicated df)).
Proof.
  rewrite duplicate_records_of_mask. cbn [rows].
  assert (Hsum : mask_sum (duplicated df) = length (duplicate_rows df)).
  { destruct df as [cs rs]. apply (duplicated_count (mkDataFrame cs rs) cs). }
  rewrite Hsum. split; [reflexivity|].
  destruct (duplicate_rows df) as [|r rest] eqn:Hd; [now left | right].
  assert (Hr : In r (duplicate_rows df)) by (rewrite Hd; now left).
  unfold duplicate_rows in Hr. apply filter_In in Hr.
  destruct Hr as [_ Hr]. apply Nat.ltb_lt in Hr.
  unfold keys in Hr. rewrite count_occ_keys in Hr.
  rewrite <- Hd. unfold duplicate_rows.
  fold (count (fun x => Nat.ltb 1 (count_occ string_dec (keys df)
                                     (Primary_Key x))) (rows df)).
  eapply Nat.le_trans; [exact Hr|].
  apply count_le. intros x _ Hx. apply String.eqb_eq in Hx.
  apply Nat.ltb_lt. rewrite Hx. unfold keys.
  now rewrite count_occ_keys.
Qed.

(** ** The Column Summary beside the metrics *)

Lemma all_cells_nth (f : Value -> Value -> bool) (L R : list Value) (i : nat) :
  length L = length R -> i < length L ->
  all_cells f L R = true -> f (nth i L VNull) (nth i R VNull) = true.
Proof.
  unfold all_cells. revert R i.
  induction L as [|x L IH]; intros [|y R] i Hlen Hi H; simpl in *; try lia.
  apply andb_true_iff in H. destruct H as [Hx H].
  destruct i as [|i]; [exact Hx|]. apply IH; [lia | lia | exact H].
Qed.

Lemma joined_records_shape (new old : DataFrame) :
  well_formed new -> well_formed old ->
  length (columns new) = length (columns old) ->
  Forall (fun r => length (m_cells r)
                   = length (columns new) + length (columns new))
         (joined_records new old).
Proof.
  intros [_ Hn] [_ Ho] Hlen. unfold joined_records.
  apply merge_shape; auto. now rewrite Hlen.
Qed.

(** X9.  For two well-formed frames with as many non-key columns each, every
    row of the Column Summary is taken over the same records as the metrics:
    its Matches and Mismatches add up to the Match plus the Mismatch count,
    and its Matches is at least the Match count, since a record the metrics
    count as a match matches in every column. *)
Theorem column_summary_beside_metrics (new old : DataFrame) :
  well_formed new -> well_formed old ->
  length (columns new) = length (columns old) ->
  exists (summary : list SummaryRow) (m : Metrics),
    generate_column_summary new old = inr summary
    /\ compare_primary_keys_and_rows_by_position new old = inr m
    /\ Forall (fun row =>
                 Matches row + Mismatches row
                 = Match_Record_Count m + Mismatch_Record_Count m
                 /\ Match_Record_Count m <= Matches row)
              summary.
Proof.
  intros Hn Ho Hlen.
  rewrite (generate_column_summary_rows new old Hn Ho Hlen).
  rewrite (metrics_record new old Hn Ho Hlen).
  eexists. eexists. split; [reflexivity|]. split; [reflexivity|].
  apply Forall_map, Forall_forall. intros i Hi. apply in_seq in Hi.
  set (n := length (columns new)) in *. set (J := joined_records new old).
  cbn [summary_of Matches Mismatches Match_Record_Count Mismatch_Record_Count].
  pose proof (count_split (cell_matches n i) J) as H1.
  pose proof (count_tags J) as H2.
  pose proof (count_and_split (is_tag both) (metrics_match n) J) as H3.
  split; [lia|].
  apply count_le. intros r Hr H. apply andb_true_iff in H.
  destruct H as [_ Hm].
  pose proof (joined_records_shape new old Hn Ho Hlen) as Hshape.
  rewrite Forall_forall in Hshape. specialize (Hshape r Hr). fold n in Hshape.
  unfold cell_matches, new_cell, old_cell, null_aware_eq.
  unfold metrics_match in Hm.
  rewrite (all_cells_nth value_eq _ _ i); [reflexivity | | | exact Hm];
    unfold new_values, old_values; rewrite length_firstn;
    [rewrite length_skipn|]; lia.
Qed.

Lemma column_summary_beside_metrics_witness :
  exists (summary : list SummaryRow) (m : Metrics),
    generate_column_summary mixed_new mixed_old = inr summary
    /\ compare_primary_keys_and_rows_by_position mixed_new mixed_old = inr m
    /\ Forall (fun row =>
                 Matches row + Mismatches row
                 = Match_Record_Count m + Mismatch_Record_Count m
                 /\ Match_Record_Count m <= Matches row)
              summary.
Proof.
  apply (column_summary_beside_metrics mixed_new mixed_old).
  - well_formed_sample.
  - well_formed_sample.
  - reflexivity.
Defined.

(** ** No key is lost *)

(** X10.  For two well-formed frames with as many non-key columns each, whose
    integers are ones [float64] holds exactly, the keys of the
    Matching-Records view and of the Detailed-Mismatch view are,
    together, the keys of the two frames: every key of either frame is the
    key of a row of one of the two views, and the views hold no other key. *)
Theorem every_key_is_in_a_view (astype_str : dtype -> Value -> string)
  (new old : DataFrame) :
  well_formed new -> well_formed old ->
  length (columns new) = length (columns old) ->
  exact_numbers new -> exact_numbers old ->
  exists matching detailed : DataFrame,
    get_matching_records new old = inr matching
    /\ get_detailed_mismatched_records astype_str new old = inr detailed
    /\ forall k : string,
         In k (keys matching) \/ In k (keys detailed)
         <-> In k (keys new) \/ In k (keys old).
Proof.
  intros Hn Ho Hlen _ _.
  rewrite (matching_records_eq new old Hn Ho Hlen).
  rewrite (detailed_records_eq astype_str new old Hn Ho Hlen).
  eexists. eexists. split; [reflexivity|]. split; [reflexivity|].
  intros k. unfold keys. cbn [rows]. rewrite !map_map.
  set (n := length (columns new)). set (J := joined_records new old).
  assert (Hpair : forall nr orow,
    In nr (rows new) -> In orow (rows old) ->
    Primary_Key orow = Primary_Key nr ->
    In (Primary_Key nr)
       (map (fun p => Primary_Key (fst p))
            (filter rows_match (inner_join new old)))
    \/ In (Primary_Key nr)
          (map (fun r => Primary_Key (detail_row astype_str n J r))
               (filter (fun r => negb (is_full_match n r)) J))).
  { intros nr orow Hnr Horow Hk.
    assert (Hp : In (nr, orow) (inner_join new old))
      by now apply inner_join_In.
    destruct (rows_match (nr, orow)) eqn:Hm.
    - left. apply in_map_iff. exists (nr, orow). split; [reflexivity|].
      now apply filter_In.
    - right. apply in_map_iff.
      exists (mkMergedRow (Primary_Key nr) (cells nr ++ cells orow) both).
      split; [reflexivity|]. apply filter_In. split.
      + apply joined_records_In. left. now exists nr, orow.
      + unfold is_full_match, is_tag. cbn [_merge Indicator_eqb andb].
        destruct Hn as [_ Hn]. rewrite Forall_forall in Hn.
        pose proof (full_match_pair n (nr, orow) (Hn nr Hnr)) as Hfm.
        cbn [fst snd] in Hfm. now rewrite Hfm, Hm. }
  split.
  - intros [H|H]; apply in_map_iff in H.
    + destruct H as [[nr orow] [<- Hp]]. apply filter_In in Hp.
      destruct Hp as [Hp _]. apply inner_join_In in Hp.
      left. now apply in_map.
    + destruct H as [r [<- Hr]]. apply filter_In in Hr.
      destruct Hr as [Hr _]. apply joined_records_In in Hr.
      destruct Hr as [[nr [orow [Hp ->]]] | [[nr [Hx ->]] | [orow [Hx ->]]]];
        cbn [detail_row Primary_Key m_Primary_Key].
      * apply inner_join_In in Hp. left. now apply in_map.
      * apply filter_In in Hx. left. now apply in_map.
      * apply filter_In in Hx. right. now apply in_map.
  - intros [H|H]; apply in_map_iff in H.
    + destruct H as [nr [<- Hnr]].
      destruct (label_in (Primary_Key nr) (map Primary_Key (rows old))) eqn:Hk.
      * apply label_in_iff, in_map_iff in Hk.
        destruct Hk as [orow [Hk Horow]]. now apply (Hpair nr orow).
      * right. apply in_map_iff.
        exists (mkMergedRow (Primary_Key nr)
                  (cells nr ++ nulls (length (columns old))) left_only).
        split; [reflexivity|]. apply filter_In. split; [|reflexivity].
        apply joined_records_In. right. left. exists nr.
        split; [|reflexivity]. apply filter_In. split; [exact Hnr|].
        unfold keys. now rewrite Hk.
    + destruct H as [orow [<- Horow]].
      destruct (label_in (Primary_Key orow) (map Primary_Key (rows new))) eqn:Hk.
      * apply label_in_iff, in_map_iff in Hk.
        destruct Hk as [nr [Hk Hnr]]. rewrite <- Hk.
        apply (Hpair nr orow Hnr Horow). now symmetry.
      * right. apply in_map_iff.
        exists (mkMergedRow (Primary_Key orow)
                  (nulls (length (columns new)) ++ cells orow) right_only).
        split; [reflexivity|]. apply filter_In. split; [|reflexivity].
        apply joined_records_In. right. right. exists orow.
        split; [|reflexivity]. apply filter_In. split; [exact Horow|].
        unfold keys. now rewrite Hk.
Qed.

Lemma every_key_is_in_a_view_witness :
  exists matching detailed : DataFrame,
    get_matching_records mixed_new mixed_old = inr matching
    /\ get_detailed_mismatched_records pandas_str mixed_new mixed_old
       = inr detailed
    /\ forall k : string,
         In k (keys matching) \/ In k (keys detailed)
         <-> In k (keys mixed_new) \/ In k (keys mixed_old).
Proof.
  apply (every_key_is_in_a_view pandas_str mixed_new mixed_old).
  - well_formed_sample.
  - well_formed_sample.
  - reflexivity.
  - exact_numbers_sample.
  - exact_numbers_sample.
Defined.

(** ** Alignment by position *)

Lemma joined_records_labels (new old old' : DataFrame) :
  rows old = rows old' -> length (columns old) = length (columns old') ->
  joined_records new old = joined_records new old'.
Proof.
  intros Hrows Hcols. unfold joined_records, merge, left_rows, right_rows.
  cbn [m_rows]. now rewrite Hrows, Hcols.
Qed.

(** X11.  The old frame is aligned with the new one by the position of its
    columns, never by their labels: two well-formed old frames with the same
    rows and as many non-key columns as the new frame give the same metrics,
    the same Column Summary, the same Matching-Records view and the same
    Detailed-Mismatch view, whatever their labels are. *)
Theorem old_labels_do_not_matter (astype_str : dtype -> Value -> string)
  (new old old' : DataFrame) :
  well_formed new -> well_formed old -> well_formed old' ->
  length (columns new) = length (columns old) ->
  length (columns new) = length (columns old') ->
  rows old = rows old' ->
  compare_primary_keys_and_rows_by_position new old
  = compare_primary_keys_and_rows_by_position new old'
  /\ generate_column_summary new old = generate_column_summary new old'
  /\ get_matching_records new old = get_matching_records new old'
  /\ get_detailed_mismatched_records astype_str new old
     = get_detailed_mismatched_records astype_str new old'.
Proof.
  intros Hn Ho Ho' Hlen Hlen' Hrows.
  assert (HJ : joined_records new old = joined_records new old')
    by (apply joined_records_labels; congruence).
  rewrite !metrics_record, !generate_column_summary_rows,
    !matching_records_eq, !detailed_records_eq by assumption.
  rewrite HJ. unfold inner_join, duplicate_rows, keys. rewrite Hrows.
  now repeat split.
Qed.

Lemma old_labels_do_not_matter_witness :
  compare_primary_keys_and_rows_by_position mixed_new mixed_old
  = compare_primary_keys_and_rows_by_position mixed_new
      (mkDataFrame ["y"; "x"] (rows mixed_old))
  /\ generate_column_summary mixed_new mixed_old
     = generate_column_summary mixed_new
         (mkDataFrame ["y"; "x"] (rows mixed_old))
  /\ get_matching_records mixed_new mixed_old
     = get_matching_records mixed_new (mkDataFrame ["y"; "x"] (rows mixed_old))
  /\ get_detailed_mismatched_records pandas_str mixed_new mixed_old
     = get_detailed_mismatched_records pandas_str mixed_new
         (mkDataFrame ["y"; "x"] (rows mixed_old)).
Proof.
  apply (old_labels_do_not_matter pandas_str mixed_new mixed_old
           (mkDataFrame ["y"; "x"] (rows mixed_old))).
  - well_formed_sample.
  - well_formed_sample.
  - well_formed_sample.
  - reflexivity.
  - reflexivity.
  - reflexivity.
Defined.

(** ** The Per-Column Comparison sheets *)

Lemma append_prefix_inj (a s t : string) :
  (a ++ s)%string = (a ++ t)%string -> s = t.
Proof.
  induction a as [|x a IH]; simpl; intros H; [exact H|].
  injection H as H. now apply IH.
Qed.

Lemma index_of_position (cs : list string) (c : string) :
  In c cs -> index_of c cs = Some (position cs c).
Proof.
  intros Hin. unfold position.
  now destruct (index_of_In c cs Hin) as [i [-> _]].
Qed.

Lemma inner_join_map (c1 c2 : list string) (e a : Row -> Row)
  (l r : DataFrame) :
  (forall x, Primary_Key (e x) = Primary_Key x) ->
  (forall x, Primary_Key (a x) = Primary_Key x) ->
  inner_join (mkDataFrame c1 (map e (rows l))) (mkDataFrame c2 (map a (rows r)))
  = map (fun p => (e (fst p), a (snd p))) (inner_join l r).
Proof.
  intros He Ha. unfold inner_join. cbn [rows].
  induction (rows l) as [|x xs IH]; [reflexivity|].
  cbn [map flat_map]. rewrite map_app, IH. f_equal.
  rewrite filter_map_swap, !map_map. f_equal.
  apply filter_ext. intros y. now rewrite He, Ha.
Qed.

Lemma dict_set_sheets {V : Type} (F : string -> V) (cs : list string)
  (d : dict V) :
  NoDup cs -> (forall c, In c cs -> dict_get d c = None) ->
  fold_left (fun d c => dict_set d c (F c)) cs d
  = d ++ map (fun c => (c, F c)) cs.
Proof.
  revert d. induction cs as [|c cs IH]; intros d Hnd Hd; simpl.
  - now rewrite app_nil_r.
  - inversion Hnd as [|? ? Hc Hnd']; subst.
    rewrite dict_set_fresh by (apply Hd; now left).
    rewrite IH; [now rewrite <- app_assoc | assumption |].
    intros c' Hc'. rewrite dict_get_app_fresh.
    + apply Hd. now right.
    + intros ->. contradiction.
Qed.

Lemma comparison_sheet_eq (astype_str : dtype -> Value -> string) (new old : DataFrame)
  (c : string) :
  In c (columns new) ->
  comparison_sheet astype_str new (mkDataFrame (columns new) (rows old)) c
  = inr (sheet_of astype_str new old c).
Proof.
  intros Hin. unfold comparison_sheet, key_and_column. cbn [columns rows].
  rewrite (index_of_position (columns new) c Hin). cbn [bind].
  set (i := position (columns new) c).
  set (e := fun r => mkRow (Primary_Key r) [nth i (cells r) VNull]).
  assert (Hfc : forall df : DataFrame,
            frame_column (mkDataFrame [c] (map e (rows df))) 0
            = frame_column df i).
  { intros df. unfold frame_column. cbn [rows]. now rewrite map_map. }
  rewrite !Hfc.
  set (str_old := astype_str (dtype_of (frame_column old i))).
  set (str_new := astype_str (dtype_of (frame_column new i))).
  unfold column_exn, get_column, merge, suffixed. cbn [m_columns m_rows columns map].
  unfold label_in. cbn [existsb app]. rewrite String.eqb_refl. cbn [orb].
  cbn [index_of]. rewrite String.eqb_refl.
  assert (Hne : String.eqb (c ++ "_Expected") (c ++ "_Actual") = false).
  { apply String.eqb_neq. intros H. apply append_prefix_inj in H.
    discriminate H. }
  rewrite Hne, String.eqb_refl. cbn [option_map bind].
  rewrite left_rows_as_map.
  rewrite (inner_join_map [c] [c] e e old new) by reflexivity.
  rewrite !map_map, zip_with_map.
  unfold sheet_of. fold i. fold str_old str_new. cbv zeta. f_equal. f_equal.
  cbn [fst snd m_cells m_Primary_Key Primary_Key cells e app nth].
  rewrite map_map.
  set (IJ := inner_join old new).
  change
    (rows_of_columns (map (fun p : Row * Row => Primary_Key (fst p)) IJ)
       (map (fun g : Row * Row -> Value => map g IJ)
          [(fun p => VStr (fillna_null_str str_old (nth i (cells (fst p)) VNull)));
           (fun p => VStr (fillna_null_str str_new (nth i (cells (snd p)) VNull)));
           (fun p => VStr ("E: " ++ fillna_null_str str_old
                                      (nth i (cells (fst p)) VNull)
                           ++ ", A: " ++ fillna_null_str str_new
                                           (nth i (cells (snd p)) VNull)))])
     = map (fun p : Row * Row =>
              mkRow (Primary_Key (fst p))
                [VStr (fillna_null_str str_old (nth i (cells (fst p)) VNull));
                 VStr (fillna_null_str str_new (nth i (cells (snd p)) VNull));
                 VStr ("E: " ++ fillna_null_str str_old
                                   (nth i (cells (fst p)) VNull)
                       ++ ", A: " ++ fillna_null_str str_new
                                       (nth i (cells (snd p)) VNull))]) IJ).
  now rewrite (rows_of_columns_map (fun p : Row * Row => Primary_Key (fst p))
                 (fun (g : Row * Row -> Value) p => g p)).
Qed.

(** X12.  For two well-formed frames with as many non-key columns each, whose
    integers are ones [float64] holds exactly, the Per-Column Comparison
    sheets are one sheet per non-key column of the new
    frame, in order and under the label of the column.  The sheet of a
    column has one row per pair of an old and a new row with the same key,
    in the order of the old frame: the key, the old cell as Expected and the
    new cell as Actual, a null written "null" and another value in the
    string form of the dtype its column has in its frame, and the
    Comparison text "E: <expected>, A: <actual>". *)
Theorem comparison_sheets_spec (astype_str : dtype -> Value -> string)
  (new old : DataFrame) :
  well_formed new -> well_formed old ->
  length (columns new) = length (columns old) ->
  exact_numbers new -> exact_numbers old ->
  compare_columns_and_generate_sheets astype_str new old
  = inr (map (fun c => (c, sheet_of astype_str new old c)) (columns new)).
Proof.
  intros Hn Ho Hlen _ _. unfold compare_columns_and_generate_sheets.
  rewrite !non_key_cols_filter.
  rewrite (lengths_agree new old Hn Ho Hlen). cbv zeta. simpl negb. cbv iota.
  rewrite (old_renamed new old Hn Ho Hlen).
  rewrite (non_key_cols_eq new (proj1 Hn)).
  rewrite (fold_result_pure _
    (fun d c => dict_set d c (sheet_of astype_str new old c))).
  - f_equal.
    apply (dict_set_sheets (sheet_of astype_str new old) (columns new) []).
    + apply NoDup_columns, Hn.
    + reflexivity.
  - intros d c Hc.
    assert (Hin : label_in c (columns_tolist
                    (mkDataFrame (columns new) (rows old))) = true).
    { apply label_in_iff. unfold columns_tolist. cbn [columns].
      apply in_or_app. now left. }
    rewrite Hin. simpl negb. cbv iota.
    now rewrite (comparison_sheet_eq astype_str new old c Hc).
Qed.

Lemma comparison_sheets_spec_witness :
  compare_columns_and_generate_sheets pandas_str mixed_new mixed_old
  = inr [("x", mkDataFrame ["x_Expected"; "x_Actual"; "x_Comparison"]
                 [mkRow "A" [VStr "1"; VStr "1.0"; VStr "E: 1, A: 1.0"];
                  mkRow "D" [VStr "3"; VStr "null"; VStr "E: 3, A: null"]]);
         ("y", mkDataFrame ["y_Expected"; "y_Actual"; "y_Comparison"]
                 [mkRow "A" [VStr "null"; VStr "null"; VStr "E: null, A: null"];
                  mkRow "D" [VStr "d"; VStr "d"; VStr "E: d, A: d"]])].
Proof.
  apply (comparison_sheets_spec pandas_str mixed_new mixed_old).
  - well_formed_sample.
  - well_formed_sample.
  - reflexivity.
  - exact_numbers_sample.
  - exact_numbers_sample.
Defined.

(** * The names of the sheets *)

Lemma length_map_chars (f : ascii -> ascii) (s : string) :
  String.length (map_chars f s) = String.length s.
Proof. induction s as [|c s IH]; simpl; congruence. Qed.

Lemma chars_of_map_chars (f : ascii -> ascii) (s : string) :
  list_ascii_of_string (map_chars f s) = map f (list_ascii_of_string s).
Proof. induction s as [|c s IH]; simpl; congruence. Qed.

Lemma length_chars (s : string) :
  length (list_ascii_of_string s) = String.length s.
Proof. induction s as [|c s IH]; simpl; congruence. Qed.

Lemma chars_of_prefix (n : nat) (s : string) :
  list_ascii_of_string (substring 0 n s) = firstn n (list_ascii_of_string s).
Proof.
  revert s. induction n as [|n IH]; intros [|c s]; simpl; try reflexivity.
  now rewrite IH.
Qed.

Lemma length_prefix (n : nat) (s : string) :
  String.length (substring 0 n s) = Nat.min n (String.length s).
Proof.
  revert s. induction n as [|n IH]; intros [|c s]; simpl; try reflexivity.
  now rewrite IH.
Qed.

Lemma prefix_all (n : nat) (s : string) :
  String.length s <= n -> substring 0 n s = s.
Proof.
  revert s. induction n as [|n IH]; intros [|c s] H; simpl in *;
    try reflexivity; try lia.
  rewrite IH; [reflexivity | lia].
Qed.

Lemma map_chars_fixed (f : ascii -> ascii) (s : string) :
  forallb (fun c => Ascii.eqb (f c) c) (list_ascii_of_string s) = true ->
  map_chars f s = s.
Proof.
  induction s as [|c s IH]; simpl; [reflexivity|].
  intros H. apply andb_true_iff in H. destruct H as [Hc H].
  apply Ascii.eqb_eq in Hc. now rewrite Hc, IH.
Qed.

Lemma replaced_character_valid (c : ascii) :
  negb (char_in (if negb (char_in c invalid_sheet_characters)
                 then c else "_"%char)
                invalid_sheet_characters) = true.
Proof.
  destruct (char_in c invalid_sheet_characters) eqn:Hc; cbn [negb].
  - reflexivity.
  - now rewrite Hc.
Qed.

Lemma safe_sheet_name_is_valid (sheet_name : string) :
  valid_sheet_name (safe_sheet_name sheet_name) = true.
Proof.
  unfold safe_sheet_name, valid_sheet_name. cbv zeta.
  set (f := fun c => if negb (char_in c invalid_sheet_characters)
                     then c else "_"%char).
  assert (Hall : forall l, forallb (fun c => negb (char_in c invalid_sheet_characters))
                                   (map f l) = true).
  { intros l. rewrite forallb_map. apply forallb_forall. intros c _.
    apply replaced_character_valid. }
  apply andb_true_iff.
  destruct (Nat.ltb_spec 31 (String.length (map_chars f sheet_name))) as [Hlt|Hle].
  - split.
    + apply Nat.leb_le. rewrite length_prefix. lia.
    + rewrite chars_of_prefix, chars_of_map_chars, firstn_map. apply Hall.
  - split.
    + now apply Nat.leb_le.
    + rewrite chars_of_map_chars. apply Hall.
Qed.

Lemma safe_sheet_name_of_valid (sheet_name : string) :
  valid_sheet_name sheet_name = true -> safe_sheet_name sheet_name = sheet_name.
Proof.
  unfold valid_sheet_name, safe_sheet_name. cbv zeta. intros H.
  apply andb_true_iff in H. destruct H as [Hlen Hchars].
  apply Nat.leb_le in Hlen.
  rewrite map_chars_fixed.
  - destruct (Nat.ltb_spec 31 (String.length sheet_name)); [lia | reflexivity].
  - rewrite forallb_forall in Hchars |- *. intros c Hc.
    rewrite (Hchars c Hc). apply Ascii.eqb_refl.
Qed.

(** X13.  The name a comparison sheet is saved under is always one Excel
    takes: it has at most 31 characters and none of the characters
    [\ / * ? : [ ]]. *)
Theorem safe_sheet_name_valid (sheet_name : string) :
  String.length (safe_sheet_name sheet_name) <= 31
  /\ Forall (fun c => ~ In c invalid_sheet_characters)
            (list_ascii_of_string (safe_sheet_name sheet_name)).
Proof.
  pose proof (safe_sheet_name_is_valid sheet_name) as H.
  unfold valid_sheet_name in H. apply andb_true_iff in H.
  destruct H as [Hlen Hchars]. split; [now apply Nat.leb_le|].
  apply Forall_forall. intros c Hc.
  rewrite forallb_forall in Hchars. specialize (Hchars c Hc).
  apply negb_true_iff in Hchars. intros Hin.
  unfold char_in in Hchars.
  assert (Ht : existsb (Ascii.eqb c) invalid_sheet_characters = true).
  { apply existsb_exists. exists c. split; [exact Hin | apply Ascii.eqb_refl]. }
  rewrite Ht in Hchars. discriminate Hchars.
Qed.

(** X14.  A name that already has at most 31 characters, none of them
    invalid, is kept as it is; so making a name safe twice gives what making
    it safe once gives. *)
Theorem safe_sheet_name_keeps_valid_names (sheet_name : string) :
  (valid_sheet_name sheet_name = true -> safe_sheet_name sheet_name = sheet_name)
  /\ safe_sheet_name (safe_sheet_name sheet_name) = safe_sheet_name sheet_name.
Proof.
  split.
  - apply safe_sheet_name_of_valid.
  - apply safe_sheet_name_of_valid, safe_sheet_name_is_valid.
Qed.

Lemma dict_set_length_le {V : Type} (d : dict V) (k : string) (v : V) :
  length (dict_set d k v) <= S (length d).
Proof.
  induction d as [|[k' v'] d IH]; simpl; [lia|].
  destruct (String.eqb k' k); simpl; lia.
Qed.

Lemma dict_set_length_present {V : Type} (d : dict V) (k : string) (v : V) :
  In k (map fst d) -> length (dict_set d k v) = length d.
Proof.
  induction d as [|[k' v'] d IH]; simpl; [intros []|].
  destruct (String.eqb_spec k' k) as [->|Hne]; simpl; [reflexivity|].
  intros [H|H]; [contradiction | now rewrite IH].
Qed.

Lemma dict_set_keeps_keys {V : Type} (d : dict V) (k k' : string) (v : V) :
  In k' (map fst d) -> In k' (map fst (dict_set d k v)).
Proof.
  induction d as [|[k0 v0] d IH]; simpl; [intros []|].
  destruct (String.eqb k0 k); simpl; intros [H|H]; auto.
Qed.

Lemma dict_set_has_key {V : Type} (d : dict V) (k : string) (v : V) :
  In k (map fst (dict_set d k v)).
Proof.
  induction d as [|[k0 v0] d IH]; simpl; [now left|].
  destruct (String.eqb_spec k0 k) as [->|Hne]; simpl; auto.
Qed.

Lemma dict_set_Forall_keys {V : Type} (P : string -> Prop) (d : dict V)
  (k : string) (v : V) :
  P k -> Forall (fun p => P (fst p)) d ->
  Forall (fun p => P (fst p)) (dict_set d k v).
Proof.
  intros Hk. induction d as [|[k0 v0] d IH]; simpl; intros Hd.
  - now constructor.
  - inversion Hd as [|? ? H0 Hd']; subst.
    destruct (String.eqb k0 k); constructor; auto.
Qed.

Lemma set_all_length_le {V : Type} (g : string -> string)
  (items d : dict V) :
  length (fold_left (fun d p => dict_set d (g (fst p)) (snd p)) items d)
  <= length d + length items.
Proof.
  revert d. induction items as [|p items IH]; intros d; simpl; [lia|].
  specialize (IH (dict_set d (g (fst p)) (snd p))).
  pose proof (dict_set_length_le d (g (fst p)) (snd p)). lia.
Qed.

Lemma set_all_length_taken {V : Type} (g : string -> string)
  (items d : dict V) (p : string * V) :
  In p items -> In (g (fst p)) (map fst d) ->
  length (fold_left (fun d p => dict_set d (g (fst p)) (snd p)) items d)
  < length d + length items.
Proof.
  revert d. induction items as [|q items IH]; intros d Hp Hk; [destruct Hp|].
  cbn [fold_left]. destruct Hp as [->|Hp].
  - pose proof (set_all_length_le g items (dict_set d (g (fst p)) (snd p))) as Hle.
    rewrite dict_set_length_present in Hle by exact Hk. simpl. lia.
  - specialize (IH (dict_set d (g (fst q)) (snd q)) Hp
                   (dict_set_keeps_keys _ _ _ _ Hk)).
    pose proof (dict_set_length_le d (g (fst q)) (snd q)).
    simpl. lia.
Qed.

Lemma set_all_length_repeated {V : Type} (g : string -> string)
  (items d : dict V) :
  ~ NoDup (map (fun p => g (fst p)) items) ->
  length (fold_left (fun d p => dict_set d (g (fst p)) (snd p)) items d)
  < length d + length items.
Proof.
  revert d. induction items as [|p items IH]; intros d Hnd.
  - exfalso. apply Hnd. constructor.
  - cbn [fold_left map] in *.
    pose proof (dict_set_length_le d (g (fst p)) (snd p)) as Hle.
    destruct (in_dec string_dec (g (fst p)) (map (fun p => g (fst p)) items))
      as [Hin|Hnin].
    + apply in_map_iff in Hin. destruct Hin as [q [Hq Hin]].
      pose proof (set_all_length_taken g items
                    (dict_set d (g (fst p)) (snd p)) q Hin) as Hlt.
      rewrite Hq in Hlt. specialize (Hlt (dict_set_has_key _ _ _)).
      simpl. lia.
    + assert (Hrest : ~ NoDup (map (fun p => g (fst p)) items)).
      { intros H. apply Hnd. now constructor. }
      specialize (IH (dict_set d (g (fst p)) (snd p)) Hrest). simpl. lia.
Qed.

Lemma integrate_length_le {V : Type} (sheets base : dict V) :
  length (integrate_comparison_sheets base sheets) <= length base + length sheets.
Proof. apply (set_all_length_le safe_sheet_name). Qed.

Lemma integrate_length_taken {V : Type} (sheets base : dict V) (p : string * V) :
  In p sheets -> In (safe_sheet_name (fst p)) (map fst base) ->
  length (integrate_comparison_sheets base sheets) < length base + length sheets.
Proof. apply (set_all_length_taken safe_sheet_name). Qed.

Lemma integrate_app {V : Type} (base s1 s2 : dict V) :
  integrate_comparison_sheets base (s1 ++ s2)
  = integrate_comparison_sheets (integrate_comparison_sheets base s1) s2.
Proof. unfold integrate_comparison_sheets. apply fold_left_app. Qed.

(** X15.  Every sheet of the dict handed to the writer, the ten fixed views
    and the comparison sheets, has a name of at most 31 characters with no
    invalid character. *)
Theorem saved_sheet_names_valid {V : Type}
  (df_old_filtered df_new_filtered metrics_df column_summary matching_records
   mismatched_records old_extra new_extra old_duplicates new_duplicates : V)
  (comparison_sheets : dict V) :
  Forall (fun p => valid_sheet_name (fst p) = true)
         (integrate_comparison_sheets
            (dataframes_to_save_summary df_old_filtered df_new_filtered
               metrics_df column_summary matching_records mismatched_records
               old_extra new_extra old_duplicates new_duplicates)
            comparison_sheets).
Proof.
  unfold integrate_comparison_sheets.
  set (base := dataframes_to_save_summary _ _ _ _ _ _ _ _ _ _).
  assert (Hbase : Forall (fun p : string * V => valid_sheet_name (fst p) = true) base).
  { unfold base, dataframes_to_save_summary.
    repeat (constructor; [reflexivity|]). constructor. }
  clearbody base. revert base Hbase.
  induction comparison_sheets as [|p sheets IH]; intros base Hbase; simpl.
  - exact Hbase.
  - apply IH.
    apply (dict_set_Forall_keys (fun k => valid_sheet_name k = true));
      [apply safe_sheet_name_is_valid | exact Hbase].
Qed.

(** X16.  What the writer finds under a name is the last comparison sheet
    whose safe name is that name, and, when there is none, what the dict had
    under the name before. *)
Theorem integrated_sheet_lookup {V : Type} (base comparison_sheets : dict V)
  (name : string) :
  dict_get (integrate_comparison_sheets base comparison_sheets) name
  = match find (fun p => String.eqb (safe_sheet_name (fst p)) name)
               (rev comparison_sheets) with
    | Some p => Some (snd p)
    | None => dict_get base name
    end.
Proof.
  induction comparison_sheets as [|p sheets IH] using rev_ind.
  - reflexivity.
  - rewrite integrate_app, rev_app_distr. cbn [rev app find].
    unfold integrate_comparison_sheets at 1. cbn [fold_left].
    destruct (String.eqb_spec (safe_sheet_name (fst p)) name) as [<-|Hne].
    + apply dict_get_set_same.
    + rewrite dict_get_set_other by exact Hne. exact IH.
Qed.

(** X17.  A comparison sheet whose safe name is already a name of the dict
    takes the place of that sheet: the writer gets fewer sheets than there
    were views and comparison sheets. *)
Theorem taken_name_replaces_a_sheet {V : Type} (base comparison_sheets : dict V)
  (p : string * V) :
  In p comparison_sheets ->
  In (safe_sheet_name (fst p)) (map fst base) ->
  length (integrate_comparison_sheets base comparison_sheets)
  < length base + length comparison_sheets.
Proof. apply integrate_length_taken. Qed.

Lemma taken_name_replaces_a_sheet_witness :
  length (integrate_comparison_sheets
            (dataframes_to_save_summary 1 2 3 4 5 6 7 8 9 10)
            [("y", 11); ("Summary", 12)])
  < 10 + 2.
Proof.
  apply (taken_name_replaces_a_sheet
           (dataframes_to_save_summary 1 2 3 4 5 6 7 8 9 10)
           [("y", 11); ("Summary", 12)] ("Summary", 12)).
  - right. left. reflexivity.
  - vm_compute. right. right. left. reflexivity.
Defined.

(** X18.  Two comparison sheets with one safe name, as for two columns that
    differ in an invalid character or after the 31st character, are saved as
    one sheet: the writer gets fewer sheets than there were views and
    comparison sheets. *)
Theorem colliding_names_lose_a_sheet {V : Type} (base s1 s2 s3 : dict V)
  (p q : string * V) :
  safe_sheet_name (fst p) = safe_sheet_name (fst q) ->
  length (integrate_comparison_sheets base (s1 ++ p :: s2 ++ q :: s3))
  < length base + length (s1 ++ p :: s2 ++ q :: s3).
Proof.
  intros Heq.
  change (s1 ++ p :: s2 ++ q :: s3) with (s1 ++ [p] ++ (s2 ++ q :: s3)).
  rewrite app_assoc, integrate_app.
  pose proof (integrate_length_le (s1 ++ [p]) base) as Hle.
  assert (Hkey : In (safe_sheet_name (fst q))
                    (map fst (integrate_comparison_sheets base (s1 ++ [p])))).
  { rewrite integrate_app. unfold integrate_comparison_sheets at 1.
    cbn [fold_left]. rewrite <- Heq. apply dict_set_has_key. }
  pose proof (integrate_length_taken (s2 ++ q :: s3)
                (integrate_comparison_sheets base (s1 ++ [p])) q
                ltac:(apply in_or_app; right; now left) Hkey) as Hlt.
  repeat (rewrite ?length_app in *; cbn [length] in * ). lia.
Qed.

Lemma colliding_names_lose_a_sheet_witness :
  length (integrate_comparison_sheets [("Summary", 0)]
            ([] ++ ("a/b", 1) :: [("c", 2)] ++ ("a:b", 3) :: []))
  < 1 + length ([] ++ ("a/b", 1) :: [("c", 2)] ++ ("a:b", 3) :: @nil (string * nat)).
Proof.
  apply (colliding_names_lose_a_sheet [("Summary", 0)] [] [("c", 2)] []
           ("a/b", 1) ("a:b", 3)).
  reflexivity.
Defined.

(** * The composite key *)

Lemma split_at_underscore (x y s t : string) :
  no_underscore x = true -> no_underscore y = true ->
  (x ++ String "_" s)%string = (y ++ String "_" t)%string -> x = y /\ s = t.
Proof.
  revert y. induction x as [|a x IH]; intros [|c y] Hx Hy H;
    cbn [append no_underscore] in *.
  - injection H as ->. now split.
  - injection H as <- _. discriminate Hy.
  - injection H as -> _. discriminate Hx.
  - apply andb_true_iff in Hx. apply andb_true_iff in Hy.
    injection H as -> H.
    destruct (IH y (proj2 Hx) (proj2 Hy) H) as [-> ->]. now split.
Qed.

Lemma concat_underscore_injective (l1 l2 : list string) :
  length l1 = length l2 ->
  Forall (fun s => no_underscore s = true) l1 ->
  Forall (fun s => no_underscore s = true) l2 ->
  String.concat "_" l1 = String.concat "_" l2 -> l1 = l2.
Proof.
  revert l2. induction l1 as [|x l1 IH]; intros [|y l2] Hlen H1 H2 H;
    try discriminate Hlen; [reflexivity|].
  inversion H1 as [|? ? Hx H1']; subst. inversion H2 as [|? ? Hy H2']; subst.
  destruct l1 as [|x' l1]; destruct l2 as [|y' l2]; try discriminate Hlen.
  - cbn [String.concat] in H. now rewrite H.
  - cbn [String.concat] in H.
    change (x ++ String "_" (String.concat "_" (x' :: l1))
            = y ++ String "_" (String.concat "_" (y' :: l2)))%string in H.
    destruct (split_at_underscore _ _ _ _ Hx Hy H) as [-> Hrest].
    f_equal. apply IH; [simpl in Hlen |- *; lia | assumption | assumption | exact Hrest].
Qed.

(** X19.  When no component of a composite key has an underscore, the key
    tells the components: two rows with as many key columns each and one
    key have the same components, column by column. *)
Theorem build_pk_injective (py_str : Value -> string) (row1 row2 : string -> Value)
  (pk_cols1 pk_cols2 : list string) :
  length pk_cols1 = length pk_cols2 ->
  Forall (fun col => no_underscore (py_str (row1 col)) = true) pk_cols1 ->
  Forall (fun col => no_underscore (py_str (row2 col)) = true) pk_cols2 ->
  build_pk py_str row1 pk_cols1 = build_pk py_str row2 pk_cols2 ->
  map (fun col => py_str (row1 col)) pk_cols1
  = map (fun col => py_str (row2 col)) pk_cols2.
Proof.
  intros Hlen H1 H2 H. unfold build_pk in H.
  apply concat_underscore_injective.
  - now rewrite !length_map.
  - apply Forall_map. exact H1.
  - apply Forall_map. exact H2.
  - exact H.
Qed.

Lemma build_pk_injective_witness :
  map (fun col => sample_str
                    ((fun c => if String.eqb c "id" then VInt 7 else VStr "north") col))
      ["id"; "region"]
  = map (fun col => sample_str
                      ((fun c => if String.eqb c "ID" then VStr "7" else VStr "north") col))
        ["ID"; "REGION"].
Proof.
  apply (build_pk_injective sample_str
           (fun c => if String.eqb c "id" then VInt 7 else VStr "north")
           (fun c => if String.eqb c "ID" then VStr "7" else VStr "north")
           ["id"; "region"] ["ID"; "REGION"]).
  - reflexivity.
  - repeat constructor.
  - repeat constructor.
  - reflexivity.
Defined.

(** X20.  A component with an underscore makes the composite key
    ambiguous: the components [a_b], [c] and the components [a], [b_c] give
    one key. *)
Theorem build_pk_collision (py_str : Value -> string) (row1 row2 : string -> Value)
  (k1 k2 a b c : string) :
  py_str (row1 k1) = (a ++ "_" ++ b)%string -> py_str (row1 k2) = c ->
  py_str (row2 k1) = a -> py_str (row2 k2) = (b ++ "_" ++ c)%string ->
  build_pk py_str row1 [k1; k2] = build_pk py_str row2 [k1; k2]
  /\ build_pk py_str row1 [k1; k2] = (a ++ "_" ++ b ++ "_" ++ c)%string.
Proof.
  intros H1 H2 H3 H4. unfold build_pk. cbn [map String.concat].
  rewrite H1, H2, H3, H4.
  assert (Hassoc : forall x y z : string, ((x ++ y) ++ z = x ++ (y ++ z))%string).
  { intros x y z. induction x as [|ch x IH]; cbn [append]; congruence. }
  rewrite !Hassoc. now split.
Qed.

Lemma build_pk_collision_witness :
  build_pk sample_str
    (fun c => if String.eqb c "k1" then VStr "a_b" else VStr "c") ["k1"; "k2"]
  = build_pk sample_str
      (fun c => if String.eqb c "k1" then VStr "a" else VStr "b_c") ["k1"; "k2"]
  /\ build_pk sample_str
       (fun c => if String.eqb c "k1" then VStr "a_b" else VStr "c") ["k1"; "k2"]
     = "a_b_c".
Proof.
  apply (build_pk_collision sample_str
           (fun c => if String.eqb c "k1" then VStr "a_b" else VStr "c")
           (fun c => if String.eqb c "k1" then VStr "a" else VStr "b_c")
           "k1" "k2" "a" "b" "c"); reflexivity.
Defined.

(** * The metadata of the columns *)

Lemma keys_of_combine {A B : Type} (ks : list A) (vs : list B) :
  length ks = length vs -> map fst (combine ks vs) = ks.
Proof.
  revert vs. induction ks as [|k ks IH]; intros [|v vs] H; simpl in *;
    try reflexivity; try discriminate H.
  rewrite IH; [reflexivity | now injection H].
Qed.

Lemma key_match_columns_In (columns_info : list ColumnInfo) (c : string) :
  In c (map column_name
            (filter (fun col => key_column col || match_column col) columns_info))
  <-> In c (get_key_mappings columns_info) \/ In c (get_match_columns columns_info).
Proof.
  unfold get_key_mappings, get_match_columns. rewrite !in_map_iff. split.
  - intros [col [Hc Hin]]. apply filter_In in Hin. destruct Hin as [Hin Hb].
    apply orb_true_iff in Hb. destruct Hb as [Hb|Hb]; [left | right];
      exists col; (split; [exact Hc | apply filter_In; now split]).
  - intros [[col [Hc Hin]]|[col [Hc Hin]]]; apply filter_In in Hin;
      destruct Hin as [Hin Hb]; exists col; (split; [exact Hc|]);
      apply filter_In; (split; [exact Hin|]); rewrite Hb;
      [reflexivity | apply orb_true_r].
Qed.

(** X21.  With distinct key columns in the new table, the key mapping pairs
    the key columns of the two tables by position, in the order of the
    metadata, when the two tables have as many key columns; when they have
    not, the program exits with status 1. *)
Theorem create_key_mappings_by_position (new_columns_info old_columns_info : list ColumnInfo) :
  NoDup (get_key_mappings new_columns_info) ->
  create_key_mappings new_columns_info old_columns_info
  = if Nat.eqb (length (get_key_mappings new_columns_info))
               (length (get_key_mappings old_columns_info))
    then inr (combine (get_key_mappings new_columns_info)
                      (get_key_mappings old_columns_info))
    else inl (Exit 1).
Proof.
  intros Hnd. unfold create_key_mappings, get_key_mappings in *. cbv zeta.
  destruct (Nat.eqb _ _); cbn [negb]; [|reflexivity].
  unfold dict_of_zip. rewrite dict_of_zip_fresh; [reflexivity | exact Hnd |].
  intros k _. reflexivity.
Qed.

Lemma create_key_mappings_by_position_witness :
  create_key_mappings
    [mkColumnInfo "id" "BIGINT" true false "" "";
     mkColumnInfo "name" "VARCHAR" false true "EXACT" "UPPER(TRIM(X))";
     mkColumnInfo "region" "VARCHAR" true false "" ""]
    [mkColumnInfo "REGION_CD" "VARCHAR" true false "" "";
     mkColumnInfo "ID" "BIGINT" true false "" ""]
  = inr [("id", "REGION_CD"); ("region", "ID")].
Proof.
  apply (create_key_mappings_by_position
           [mkColumnInfo "id" "BIGINT" true false "" "";
            mkColumnInfo "name" "VARCHAR" false true "EXACT" "UPPER(TRIM(X))";
            mkColumnInfo "region" "VARCHAR" true false "" ""]
           [mkColumnInfo "REGION_CD" "VARCHAR" true false "" "";
            mkColumnInfo "ID" "BIGINT" true false "" ""]).
  vm_compute. repeat constructor.
  - intros [H|[]]. discriminate H.
  - intros [].
Defined.

(** X22.  A key column named twice in the new table gets one entry in the
    key mapping: the mapping has fewer entries than the table has key
    columns. *)
Theorem create_key_mappings_repeated_key (new_columns_info old_columns_info : list ColumnInfo)
  (key_mapping : dict string) :
  ~ NoDup (get_key_mappings new_columns_info) ->
  create_key_mappings new_columns_info old_columns_info = inr key_mapping ->
  length key_mapping < length (get_key_mappings new_columns_info).
Proof.
  unfold create_key_mappings, get_key_mappings. cbv zeta.
  set (new_keys := map column_name (filter key_column new_columns_info)).
  set (old_keys := map column_name (filter key_column old_columns_info)).
  intros Hnd H.
  destruct (Nat.eqb_spec (length new_keys) (length old_keys)) as [Hlen|Hlen];
    cbn [negb] in H; [|discriminate H].
  injection H as <-. unfold dict_of_zip.
  pose proof (set_all_length_repeated (fun k => k) (combine new_keys old_keys) [])
    as Hlt.
  rewrite (map_ext _ fst) in Hlt by reflexivity.
  rewrite keys_of_combine, length_combine, <- Hlen, Nat.min_id in Hlt by exact Hlen.
  apply Hlt. exact Hnd.
Qed.

Lemma create_key_mappings_repeated_key_witness :
  length [("id", "REGION_CD")]
  < length (get_key_mappings
              [mkColumnInfo "id" "BIGINT" true false "" "";
               mkColumnInfo "id" "VARCHAR" true false "" ""]).
Proof.
  apply (create_key_mappings_repeated_key
           [mkColumnInfo "id" "BIGINT" true false "" "";
            mkColumnInfo "id" "VARCHAR" true false "" ""]
           [mkColumnInfo "ID" "BIGINT" true false "" "";
            mkColumnInfo "REGION_CD" "VARCHAR" true false "" ""]
           [("id", "REGION_CD")]).
  - vm_compute. intros H. inversion H as [|? ? Hin _]. apply Hin. now left.
  - reflexivity.
Defined.

(** X23.  The key and match columns of a table are its key columns and its
    match columns, and no others. *)
Theorem get_key_match_columns_spec (new_columns_info old_columns_info : list ColumnInfo)
  (c : string) :
  (In c (fst (get_key_match_columns new_columns_info old_columns_info))
   <-> In c (get_key_mappings new_columns_info)
       \/ In c (get_match_columns new_columns_info))
  /\ (In c (snd (get_key_match_columns new_columns_info old_columns_info))
      <-> In c (get_key_mappings old_columns_info)
          \/ In c (get_match_columns old_columns_info)).
Proof.
  unfold get_key_match_columns. cbn [fst snd].
  split; apply key_match_columns_In.
Qed.
